(** * The MCP server diagnostic tool (mcp_server_diagnostic.py)

    A shallow embedding of the diagnostic pipeline: the ledger ([log]), the
    process runner ([run_command]), the prerequisite checks, the connectivity
    probe, the report generator and [main] with the script's top-level
    handlers, followed by the properties the specification states about
    them.

    Conventions of the embedding.
    - Python [str] is [string]; the text helpers ([upper], [strip], [split_str],
      [py_int] ...) follow Python on ASCII text.
    - Python [int] is [Z].
    - The module-level dictionary [diagnostics] is the record [Diagnostics];
      its lists keep insertion order.
    - Everything the script asks of its surroundings (the clock, child
      processes, the file system's refusals, path resolution, the JSON
      decoder of the standard library) is a field of [Env]; the file system
      itself is a finite set of paths in the state.
    - Statements that may raise are computations in [M], a state monad whose
      result is a value or a raised exception; the state survives a raise, as
      in Python.
    - Console output ([print]) is not part of the state: it has no influence
      on the ledger, the file system or the control flow. *)

From Stdlib Require Import ZArith Lia List Ascii String DecimalString Bool.
From stdpp Require Import base strings gmap sets.
Import ListNotations.
Local Open Scope Z_scope.

(** ** Python text operations *)

Module Py.

Definition upper_char (c : ascii) : ascii :=
  let n := nat_of_ascii c in
  if ((97 <=? n) && (n <=? 122))%nat then ascii_of_nat (n - 32) else c.

Definition lower_char (c : ascii) : ascii :=
  let n := nat_of_ascii c in
  if ((65 <=? n) && (n <=? 90))%nat then ascii_of_nat (n + 32) else c.

Fixpoint map_str (f : ascii -> ascii) (s : string) : string :=
  match s with
  | EmptyString => EmptyString
  | String c r => String (f c) (map_str f r)
  end.

(** [s.upper()] and [s.lower()] *)
Definition upper : string -> string := map_str upper_char.
Definition lower : string -> string := map_str lower_char.

(** [sub in s] on strings *)
Fixpoint contains (sub s : string) : bool :=
  String.prefix sub s ||
  match s with
  | EmptyString => false
  | String _ r => contains sub r
  end.

(** [sep.join(parts)] *)
Definition join (sep : string) (parts : list string) : string :=
  String.concat sep parts.

(** The characters [str.strip()] removes, among ASCII. *)
Definition is_space (c : ascii) : bool :=
  let n := nat_of_ascii c in
  (((9 <=? n) && (n <=? 13)) || ((28 <=? n) && (n <=? 32)))%nat.

Fixpoint lstrip_by (p : ascii -> bool) (s : string) : string :=
  match s with
  | EmptyString => EmptyString
  | String c r => if p c then lstrip_by p r else s
  end.

Fixpoint rstrip_by (p : ascii -> bool) (s : string) : string :=
  match s with
  | EmptyString => EmptyString
  | String c r =>
      match rstrip_by p r with
      | EmptyString => if p c then EmptyString else String c EmptyString
      | r' => String c r'
      end
  end.

(** [s.strip()] *)
Definition strip (s : string) : string := rstrip_by is_space (lstrip_by is_space s).

(** [s.lstrip(c)] for a one-character argument *)
Definition lstrip_char (c : ascii) (s : string) : string :=
  lstrip_by (Ascii.eqb c) s.

Fixpoint rev_str (acc s : string) : string :=
  match s with
  | EmptyString => acc
  | String c r => rev_str (String c acc) r
  end.

(** [s.split(sep)] for a non-empty [sep]: the pieces between the leftmost
    non-overlapping occurrences of [sep].  [skip] counts the characters of
    an occurrence still to be passed over, [cur] is the piece being read,
    reversed. *)
Fixpoint split_aux (sep : string) (skip : nat) (cur : string) (s : string)
  : list string :=
  match s with
  | EmptyString => [rev_str EmptyString cur]
  | String c r =>
      match skip with
      | S k => split_aux sep k cur r
      | O =>
          if String.prefix sep s
          then rev_str EmptyString cur
               :: split_aux sep (String.length sep - 1) EmptyString r
          else split_aux sep O (String c cur) r
      end
  end.

Definition split_str (sep s : string) : list string :=
  split_aux sep O EmptyString s.

Definition digit_of (c : ascii) : option Z :=
  let n := nat_of_ascii c in
  if ((48 <=? n) && (n <=? 57))%nat then Some (Z.of_nat (n - 48)) else None.

(** The digits of an [int()] literal: decimal digits, single underscores
    allowed between two digits. *)
Fixpoint parse_digits (acc : Z) (after_digit : bool) (s : string) : option Z :=
  match s with
  | EmptyString => if after_digit then Some acc else None
  | String c r =>
      match digit_of c with
      | Some d => parse_digits (10 * acc + d) true r
      | None =>
          if Ascii.eqb c "_"%char && after_digit
          then parse_digits acc false r
          else None
      end
  end.

(** [int(s)]: [None] stands for [ValueError]. *)
Definition py_int (s : string) : option Z :=
  match strip s with
  | String "+"%char r => parse_digits 0 false r
  | String "-"%char r => option_map Z.opp (parse_digits 0 false r)
  | t => parse_digits 0 false t
  end.

(** [str(n)] for an [int] *)
Definition str_of_int (n : Z) : string := NilZero.string_of_int (Z.to_int n).

End Py.

(** ** Data model *)

(** The optional [data] argument of [log].  The call sites pass a string
    or a dictionary of strings; both are kept as they are in the entry. *)
Inductive Payload :=
| PText (s : string)
| PMap (kv : list (string * string)).

(** One element of [diagnostics['checks']]. *)
Record CheckEntry := {
  level : string;
  timestamp : string;
  message : string;
  data : option Payload
}.

(** [diagnostics["summary"]] *)
Record Summary := {
  total_checks : Z;
  summary_issues_found : Z;
  summary_recommendations : Z
}.

(** The global [diagnostics] dictionary.  The keys [summary], [severity] and
    [error_analysis] are absent until [generate_report] adds them. *)
Record Diagnostics := {
  diag_timestamp : string;
  platform : string;
  python_version : string;
  node_version : option string;
  checks : list CheckEntry;
  issues_found : Z;
  recommendations : list string;
  summary : option Summary;
  severity : option string;
  error_analysis : option (list (string * Z))
}.

(** Values produced by [json.loads]. *)
#[warnings="-register-all"] Inductive JValue :=
| JNull
| JBool (b : bool)
| JNum (literal : string)
| JStr (s : string)
| JList (items : list JValue)
| JDict (kv : list (string * JValue)).

(** The exception classes met in the script, all subclasses of [Exception]
    ([subprocess.TimeoutExpired] is kept apart because [run_command] has a
    handler of its own for it). *)
Inductive ErrClass :=
| ValueError | JSONDecodeError | KeyError | TypeError | IndexError | OSError.

Inductive exn :=
| Error (cls : ErrClass) (msg : string)
| TimeoutExpired
| KeyboardInterrupt
| SystemExit (code : Z).

(** [isinstance(e, Exception)]: [KeyboardInterrupt] and [SystemExit] derive
    from [BaseException] only. *)
Definition is_Exception (e : exn) : bool :=
  match e with
  | Error _ _ | TimeoutExpired => true
  | KeyboardInterrupt | SystemExit _ => false
  end.

(** [str(e)] *)
Definition exn_str (e : exn) : string :=
  match e with
  | Error _ msg => msg
  | TimeoutExpired => "Command timed out"
  | KeyboardInterrupt => ""
  | SystemExit code => Py.str_of_int code
  end.

(** How a call of [subprocess.run] ends: the child ran to its end and
    [result.returncode], [result.stdout], [result.stderr] are available; the
    deadline passed; the child could not be started; or the user interrupted
    the wait. *)
Inductive Completion :=
| Completed (returncode : Z) (stdout stderr : string)
| TimedOut
| LaunchFailed (cls : ErrClass) (msg : string)
| Interrupted.

Inductive FsOp := OpMkdir | OpWrite | OpUnlink.

(** The surroundings of one run of the script. *)
Record Env := {
  (** [datetime.now().isoformat(timespec='milliseconds')] at the n-th
      reading of the clock *)
  now_iso : nat -> string;
  (** [datetime.now().strftime("%Y%m%d_%H%M%S")] at the n-th reading *)
  now_stamp : nat -> string;
  (** the text of [f"{elapsed_time:.2f}"] *)
  elapsed_text : string;
  (** [datetime.now().isoformat()] when the module is loaded *)
  start_timestamp : string;
  env_platform : string;
  env_python_version : string;
  (** [subprocess.run(cmd, cwd=..., timeout=...)]; the first argument counts
      the children started before *)
  subprocess_run : nat -> list string -> option string -> Z -> Completion;
  (** [json.loads]; [None] stands for [json.JSONDecodeError] *)
  json_loads : string -> option JValue;
  (** [str(v)] for a decoded value that is not a string *)
  json_repr : JValue -> string;
  (** [os.path.abspath] *)
  abspath : string -> string;
  (** the name [tempfile.NamedTemporaryFile(suffix='.js')] picks *)
  temp_client_name : string;
  (** the name [tempfile.mkdtemp(prefix="mcp-diagnostic-")] picks *)
  temp_dir_name : string;
  (** whether the file system refuses an operation on a path ([OSError]) *)
  fs_refuses : FsOp -> string -> bool;
  (** the paths that exist when the script starts *)
  initial_files : gset string
}.

(** The parsed command line ([args]). *)
Record Args := {
  verbose : bool;
  target_dir : option string;
  report : option string;
  timeout : Z
}.

(** The state a run threads through: the ledger, the paths that exist, the
    number of clock readings, the children run so far with how each ended,
    and the report file once written (its path and the dumped dictionary). *)
Record State := {
  diag : Diagnostics;
  files : gset string;
  clock_reads : nat;
  runs : list (list string * Completion);
  report_file : option (string * Diagnostics)
}.

(** ** The monad of statements *)

Inductive Result (A : Type) :=
| Val (a : A)
| Exc (e : exn).
Arguments Val {A} a.
Arguments Exc {A} e.

Definition M (A : Type) : Type := State -> Result A * State.

#[global] Instance M_ret : MRet M := fun A a s => (Val a, s).

#[global] Instance M_bind : MBind M := fun A B f m s =>
  match m s with
  | (Val a, s') => f a s'
  | (Exc e, s') => (Exc e, s')
  end.

(** [raise e] *)
Definition raise {A} (e : exn) : M A := fun s => (Exc e, s).

(** [try: body except ...: handler]; a handler that does not apply
    re-raises. *)
Definition try_except {A} (body : M A) (handler : exn -> M A) : M A := fun s =>
  match body s with
  | (Val a, s') => (Val a, s')
  | (Exc e, s') => handler e s'
  end.

Definition get_state : M State := fun s => (Val s, s).
Definition modify_state (f : State -> State) : M unit := fun s => (Val tt, f s).

Definition set_diag (d : Diagnostics) (s : State) : State :=
  {| diag := d; files := files s; clock_reads := clock_reads s;
     runs := runs s; report_file := report_file s |}.

Definition set_files (fs : gset string) (s : State) : State :=
  {| diag := diag s; files := fs; clock_reads := clock_reads s;
     runs := runs s; report_file := report_file s |}.

Definition add_run (r : list string * Completion) (s : State) : State :=
  {| diag := diag s; files := files s; clock_reads := clock_reads s;
     runs := runs s ++ [r]; report_file := report_file s |}.

Definition modify_diag (f : Diagnostics -> Diagnostics) : M unit :=
  modify_state (fun s => set_diag (f (diag s)) s).

(** ** Python operations on decoded JSON values *)

Definition type_error {A} (msg : string) : M A := raise (Error TypeError msg).

Fixpoint assoc {V} (k : string) (kv : list (string * V)) : option V :=
  match kv with
  | [] => None
  | (k', v) :: rest => if String.eqb k k' then Some v else assoc k rest
  end.

Definition is_str (k : string) (v : JValue) : bool :=
  match v with
  | JStr s => String.eqb k s
  | _ => false
  end.

(** [k in v] for a string [k]: key membership in a dictionary, element
    membership in a list, substring test on a string, [TypeError] on the
    rest. *)
Definition py_in (k : string) (v : JValue) : M bool :=
  match v with
  | JDict kv => mret (existsb (fun p => String.eqb k (fst p)) kv)
  | JList items => mret (existsb (is_str k) items)
  | JStr s => mret (Py.contains k s)
  | _ => type_error "argument is not iterable"
  end.

(** [v[k]] for a string [k] *)
Definition py_getitem (v : JValue) (k : string) : M JValue :=
  match v with
  | JDict kv =>
      match assoc k kv with
      | Some x => mret x
      | None => raise (Error KeyError k)
      end
  | JList _ => type_error "list indices must be integers or slices, not str"
  | JStr _ => type_error "string indices must be integers"
  | _ => type_error "object is not subscriptable"
  end.

(** [len(v)] *)
Definition py_len (v : JValue) : M Z :=
  match v with
  | JList items => mret (Z.of_nat (length items))
  | JDict kv => mret (Z.of_nat (length kv))
  | JStr s => mret (Z.of_nat (String.length s))
  | _ => type_error "object has no len()"
  end.

Fixpoint chars (s : string) : list string :=
  match s with
  | EmptyString => []
  | String c r => String c EmptyString :: chars r
  end.

Fixpoint all_strs (items : list JValue) : option (list string) :=
  match items with
  | [] => Some []
  | JStr s :: rest => option_map (cons s) (all_strs rest)
  | _ :: _ => None
  end.

(** [sep.join(v)]: [v] must be an iterable of strings. *)
Definition py_join (sep : string) (v : JValue) : M string :=
  match v with
  | JList items =>
      match all_strs items with
      | Some l => mret (Py.join sep l)
      | None => type_error "sequence item: expected str instance"
      end
  | JDict kv => mret (Py.join sep (map fst kv))
  | JStr s => mret (Py.join sep (chars s))
  | _ => type_error "can only join an iterable"
  end.

(** [os.path.join(a, b)] with the POSIX separator *)
Definition ends_with_slash (a : string) : bool :=
  match Py.rev_str EmptyString a with
  | String "/"%char _ => true
  | _ => false
  end.

Definition path_join (a b : string) : string :=
  if String.prefix "/" b then b
  else if String.eqb a "" || ends_with_slash a then a +:+ b
  else a +:+ "/" +:+ b.

(** Truth value of an optional string: [None] and [''] are false. *)
Definition truthy (o : option string) : bool :=
  match o with
  | Some s => negb (String.eqb s "")
  | None => false
  end.

(** [x or y] on an optional integer: [None] and [0] give way to [y]. *)
Definition int_or (x : option Z) (y : Z) : Z :=
  match x with
  | Some n => if n =? 0 then y else n
  | None => y
  end.

Definition sdk_name : string := "@modelcontextprotocol/sdk".
Definition dquote : string := String "034"%char EmptyString.
Definition newline : string := String "010"%char EmptyString.

(** ** The script *)

Section Script.

Context (env : Env) (args : Args).

(** The [diagnostics] dictionary as the module creates it. *)
Definition initial_diagnostics : Diagnostics :=
  {| diag_timestamp := start_timestamp env;
     platform := env_platform env;
     python_version := env_python_version env;
     node_version := None;
     checks := [];
     issues_found := 0;
     recommendations := [];
     summary := None;
     severity := None;
     error_analysis := None |}.

Definition initial_state : State :=
  {| diag := initial_diagnostics;
     files := initial_files env;
     clock_reads := O;
     runs := [];
     report_file := None |}.

(** [level in ("WARNING", "ERROR")] *)
Definition is_issue_level (lvl : string) : bool :=
  String.eqb lvl "WARNING" || String.eqb lvl "ERROR".

(** [log(level, message, data)]: reads the clock, appends the entry to
    [diagnostics['checks']] and counts it when its level is WARNING or
    ERROR. *)
Definition log (lvl msg : string) (payload : option Payload) : M unit := fun s =>
  let ts := now_iso env (clock_reads s) in
  let check_entry :=
    {| level := Py.upper lvl; timestamp := ts; message := msg; data := payload |} in
  let d := diag s in
  let d1 :=
    {| diag_timestamp := diag_timestamp d; platform := platform d;
       python_version := python_version d; node_version := node_version d;
       checks := checks d ++ [check_entry];
       issues_found :=
         if is_issue_level (Py.upper lvl) then issues_found d + 1
         else issues_found d;
       recommendations := recommendations d;
       summary := summary d; severity := severity d;
       error_analysis := error_analysis d |} in
  (Val tt,
   {| diag := d1; files := files s; clock_reads := S (clock_reads s);
      runs := runs s; report_file := report_file s |}).

(** [diagnostics['recommendations'].append(text)] *)
Definition recommend (text : string) : M unit :=
  modify_diag (fun d =>
    {| diag_timestamp := diag_timestamp d; platform := platform d;
       python_version := python_version d; node_version := node_version d;
       checks := checks d; issues_found := issues_found d;
       recommendations := recommendations d ++ [text];
       summary := summary d; severity := severity d;
       error_analysis := error_analysis d |}).

(** [diagnostics['system']['node_version'] = version] *)
Definition set_node_version (version : string) : M unit :=
  modify_diag (fun d =>
    {| diag_timestamp := diag_timestamp d; platform := platform d;
       python_version := python_version d; node_version := Some version;
       checks := checks d; issues_found := issues_found d;
       recommendations := recommendations d;
       summary := summary d; severity := severity d;
       error_analysis := error_analysis d |}).

(** [subprocess.run(...)]: asks the surroundings how the child ends,
    records the run, and returns the completed process or raises. *)
Definition subprocess_run_call (cmd : list string) (cwd : option string) (tmo : Z)
  : M (Z * string * string) := fun s =>
  let c := subprocess_run env (length (runs s)) cmd cwd tmo in
  let s' := add_run (cmd, c) s in
  match c with
  | Completed rc out err => (Val (rc, out, err), s')
  | TimedOut => (Exc TimeoutExpired, s')
  | LaunchFailed cls msg => (Exc (Error cls msg), s')
  | Interrupted => (Exc KeyboardInterrupt, s')
  end.

(** [run_command(cmd, timeout, cwd)] *)
Definition run_command (cmd : list string) (tmo : option Z) (cwd : option string)
  : M (Z * string * string) :=
  let tmo := int_or tmo (timeout args) in
  try_except
    (log "INFO" ("Running command: " +:+ Py.join " " cmd) None ;;
     subprocess_run_call cmd cwd tmo)
    (fun e =>
       match e with
       | TimeoutExpired =>
           log "ERROR"
             ("Command timed out after " +:+ Py.str_of_int tmo +:+ " seconds: "
                +:+ Py.join " " cmd) None ;;
           mret (-1, "", "Timed out after " +:+ Py.str_of_int tmo +:+ " seconds")
       | Error _ _ =>
           log "ERROR" ("Error running command: " +:+ Py.join " " cmd)
             (Some (PText (exn_str e))) ;;
           mret (-2, "", exn_str e)
       | _ => raise e
       end).

(** [check_node_version()] *)
Definition check_node_version : M bool :=
  '(code, stdout, stderr) ← run_command ["node"; "--version"] None None;
  if code =? 0 then
    let version := Py.strip stdout in
    set_node_version version ;;
    log "INFO" ("Node.js version: " +:+ version) None ;;
    let version_parts := Py.split_str "." (Py.lstrip_char "v" version) in
    major_version ←
      match Py.py_int (hd "" version_parts) with
      | Some n => mret n
      | None => raise (Error ValueError "invalid literal for int() with base 10")
      end;
    if major_version <? 18 then
      log "WARNING"
        ("Node.js version " +:+ version
           +:+ " may be too old. Version 18+ is recommended.") None ;;
      recommend "Upgrade Node.js to version 18 or newer" ;;
      mret false
    else mret true
  else
    log "ERROR" "Node.js is not installed or not in PATH" (Some (PText stderr)) ;;
    recommend "Install Node.js version 18 or newer" ;;
    mret false.

(** [str(v)] as an f-string renders a decoded value *)
Definition format_json (v : JValue) : string :=
  match v with
  | JStr s => s
  | _ => json_repr env v
  end.

Definition json_loads_call (text : string) : M JValue :=
  match json_loads env text with
  | Some v => mret v
  | None => raise (Error JSONDecodeError "Expecting value")
  end.

(** The body of the [try] in [check_mcp_sdk]; [true] when it executed
    [return True]. *)
Definition check_mcp_sdk_try (stdout : string) : M bool :=
  npm_output ← json_loads_call stdout;
  has_deps ← py_in "dependencies" npm_output;
  has_sdk ←
    (if has_deps : bool then
       deps ← py_getitem npm_output "dependencies";
       py_in sdk_name deps
     else mret false);
  if has_sdk : bool then
    deps ← py_getitem npm_output "dependencies";
    sdk ← py_getitem deps sdk_name;
    version ← py_getitem sdk "version";
    log "SUCCESS" (sdk_name +:+ " found: version " +:+ format_json version) None ;;
    mret true
  else mret false.

(** [check_mcp_sdk()] *)
Definition check_mcp_sdk : M bool :=
  '(code, stdout, stderr) ←
    run_command ["npm"; "list"; sdk_name; "--json"; "--depth=0"] None None;
  returned ←
    (if (code =? 0) && Py.contains sdk_name stdout then
       try_except (check_mcp_sdk_try stdout)
         (fun e =>
            match e with
            | Error JSONDecodeError _ => mret false
            | _ => raise e
            end)
     else mret false);
  if returned : bool then mret true
  else
    log "WARNING" (sdk_name +:+ " not found or has invalid version") None ;;
    recommend ("Install " +:+ sdk_name +:+ " package") ;;
    mret false.

(** *** File system calls *)

Definition os_error {A} (path : string) : M A := raise (Error OSError path).

(** [os.path.exists(p)] *)
Definition path_exists (p : string) : M bool := fun s =>
  (Val (bool_decide (p ∈ files s)), s).

(** [os.makedirs(p)], [tempfile.mkdtemp()] and [open(p, 'w')]: the path
    exists afterwards unless the file system refuses. *)
Definition create_path (op : FsOp) (p : string) : M unit :=
  if fs_refuses env op p then os_error p
  else modify_state (fun s => set_files ({[p]} ∪ files s) s).

(** [os.unlink(p)] *)
Definition unlink (p : string) : M unit :=
  present ← path_exists p;
  if negb present || fs_refuses env OpUnlink p then os_error p
  else modify_state (fun s => set_files (files s ∖ {[p]}) s).

(** [create_test_mcp_client()]: the client program goes to a fresh
    temporary file that is kept when closed ([delete=False]). *)
Definition create_test_mcp_client : M string :=
  create_path OpWrite (temp_client_name env) ;;
  mret (temp_client_name env).

Definition possible_paths : list string :=
  [ path_join (path_join "dist" "entrypoints") "mcp.js";
    path_join (path_join (path_join "dist" "src") "entrypoints") "mcp.js";
    path_join (path_join "src" "entrypoints") "mcp.ts" ].

(** The [for] loop of [find_mcp_server_file]. *)
Fixpoint find_first (paths : list string) : M (option string) :=
  match paths with
  | [] => mret None
  | p :: rest =>
      found ← path_exists p;
      if found : bool then
        log "INFO" ("Found MCP server at: " +:+ p) None ;;
        mret (Some (abspath env p))
      else find_first rest
  end.

(** [find_mcp_server_file()] *)
Definition find_mcp_server_file : M (option string) :=
  r ← find_first possible_paths;
  match r with
  | Some p => mret (Some p)
  | None =>
      log "ERROR" "Could not find MCP server file" None ;;
      mret None
  end.

Definition expected_tools : list string := ["bash"; "fileRead"; "fileWrite"].

(** [[t for t in expected_tools if t not in tools]] *)
Fixpoint missing_from (expected : list string) (tools : JValue) : M (list string) :=
  match expected with
  | [] => mret []
  | t :: rest =>
      present ← py_in t tools;
      more ← missing_from rest tools;
      mret (if present : bool then more else t :: more)
  end.

(** The body of the [try] around the tool list. *)
Definition check_tools_try (tools_str : string) : M unit :=
  tools ← json_loads_call tools_str;
  n ← py_len tools;
  names ← py_join ", " tools;
  log "INFO" ("Server offers " +:+ Py.str_of_int n +:+ " tools: " +:+ names) None ;;
  missing_tools ← missing_from expected_tools tools;
  match missing_tools with
  | [] => mret tt
  | _ :: _ =>
      log "WARNING" ("Missing expected tools: " +:+ Py.join ", " missing_tools) None ;;
      recommend ("Implement missing tools: " +:+ Py.join ", " missing_tools)
  end.

(** [stdout.split("Tools available:")[1].split("\n")[0].strip()] *)
Definition tools_text (stdout : string) : M string :=
  match nth_error (Py.split_str "Tools available:" stdout) 1 with
  | Some piece => mret (Py.strip (hd "" (Py.split_str newline piece)))
  | None => raise (Error IndexError "list index out of range")
  end.

(** The [if success:] branch of the probe. *)
Definition evaluate_success (stdout : string) : M unit :=
  log "SUCCESS"
    ("Connected to MCP server successfully in " +:+ elapsed_text env +:+ "s")
    (Some (PText stdout)) ;;
  if Py.contains "Tools available:" stdout then
    tools_str ← tools_text stdout;
    try_except (check_tools_try tools_str)
      (fun _ => log "WARNING" "Could not parse tools list" (Some (PText tools_str)))
  else mret tt.

(** The [if]/[elif] chain under "Analyze errors". *)
Definition analyze_errors (stderr : string) : M unit :=
  if Py.contains "ENOENT" stderr then
    log "ERROR" "Server file not found or not executable" None ;;
    recommend "Verify server file path and permissions"
  else if Py.contains "SyntaxError" stderr then
    log "ERROR" "JavaScript syntax error in server or client" None ;;
    recommend "Check for syntax errors in server code"
  else if Py.contains "Error:" stderr && Py.contains "import" stderr
          && Py.contains "require" stderr then
    log "ERROR" "Module import/require error - possible ESM/CommonJS conflict" None ;;
    recommend "Check for ESM/CommonJS compatibility issues in the MCP server"
  else mret tt.

(** The [else:] branch of the probe. *)
Definition evaluate_failure (stdout stderr : string) : M unit :=
  log "ERROR"
    ("Failed to connect to MCP server after " +:+ elapsed_text env +:+ "s")
    (Some (PMap [("stdout", stdout); ("stderr", stderr)])) ;;
  analyze_errors stderr.

(** [test_mcp_server_connection(server_path, work_dir)] *)
Definition test_mcp_server_connection (server_path : option string) (work_dir : string)
  : M bool :=
  match server_path with
  | Some server_path' =>
      if String.eqb server_path' "" then mret false
      else
        present ← path_exists work_dir;
        (if present : bool then mret tt
         else
           create_path OpMkdir work_dir ;;
           log "INFO" ("Created test directory: " +:+ work_dir) None) ;;
        let test_file_path := path_join work_dir "test-file.txt" in
        create_path OpWrite test_file_path ;;
        test_client_path ← create_test_mcp_client;
        log "INFO" ("Created test client at: " +:+ test_client_path) None ;;
        '(code, stdout, stderr) ←
          run_command ["node"; test_client_path; server_path'; work_dir]
            (Some (timeout args * 2)) None;
        try_except (unlink test_client_path) (fun _ => mret tt) ;;
        let success := code =? 0 in
        (if success then evaluate_success stdout
         else evaluate_failure stdout stderr) ;;
        mret success
  | None => mret false
  end.

(** *** Report *)

(** The severity [generate_report] derives from the issue count. *)
Definition severity_of (issues : Z) : string :=
  if issues =? 0 then "HEALTHY"
  else if issues <? 3 then "WARNING"
  else "CRITICAL".

(** [next((w for w in [...] if w in message.lower()), "other")] *)
Definition key_word (msg : string) : string :=
  match List.filter (fun w => Py.contains w (Py.lower msg))
          ["not found"; "timeout"; "error"; "failed"] with
  | w :: _ => w
  | [] => "other"
  end.

(** [error_types[k] = error_types.get(k, 0) + 1] on a dictionary kept in
    insertion order *)
Fixpoint bump (k : string) (kv : list (string * Z)) : list (string * Z) :=
  match kv with
  | [] => [(k, 1)]
  | (k', n) :: rest =>
      if String.eqb k k' then (k', n + 1) :: rest else (k', n) :: bump k rest
  end.

Definition error_types_of (entries : list CheckEntry) : list (string * Z) :=
  fold_left
    (fun acc check =>
       if String.eqb (level check) "ERROR" || String.eqb (level check) "WARNING"
       then bump (key_word (message check)) acc
       else acc)
    entries [].

(** The three keys [generate_report] adds to [diagnostics]. *)
Definition summarize (d : Diagnostics) : Diagnostics :=
  {| diag_timestamp := diag_timestamp d; platform := platform d;
     python_version := python_version d; node_version := node_version d;
     checks := checks d; issues_found := issues_found d;
     recommendations := recommendations d;
     summary :=
       Some {| total_checks := Z.of_nat (length (checks d));
               summary_issues_found := issues_found d;
               summary_recommendations := Z.of_nat (length (recommendations d)) |};
     severity := Some (severity_of (issues_found d));
     error_analysis := Some (error_types_of (checks d)) |}.

(** [datetime.now().strftime(...)] *)
Definition read_stamp : M string := fun s =>
  (Val (now_stamp env (clock_reads s)),
   {| diag := diag s; files := files s; clock_reads := S (clock_reads s);
      runs := runs s; report_file := report_file s |}).

(** [with open(report_path, 'w') as f: json.dump(diagnostics, f)] *)
Definition dump_report (path : string) : M unit :=
  create_path OpWrite path ;;
  modify_state (fun s =>
    {| diag := diag s; files := files s; clock_reads := clock_reads s;
       runs := runs s; report_file := Some (path, diag s) |}).

(** [generate_report(report_path)] *)
Definition generate_report (report_path : option string) : M unit :=
  path ←
    (if truthy report_path then mret (default "" report_path)
     else
       stamp ← read_stamp;
       mret ("mcp-diagnostic-report-" +:+ stamp +:+ ".json"));
  modify_diag summarize ;;
  dump_report path ;;
  log "INFO" ("Diagnostic report saved to: " +:+ path) None.

(** *** Entry point *)

(** [main()], after [args = parser.parse_args()]. *)
Definition main : M unit :=
  work_dir ←
    (if truthy (target_dir args) then mret (default "" (target_dir args))
     else
       create_path OpMkdir (temp_dir_name env) ;;
       log "INFO" ("Created temporary test directory: " +:+ temp_dir_name env) None ;;
       mret (temp_dir_name env));
  log "INFO" "Starting MCP server diagnostics" None ;;
  node_ok ← check_node_version;
  sdk_ok ← check_mcp_sdk;
  server_path ← find_mcp_server_file;
  server_ok ←
    (if node_ok && sdk_ok && truthy server_path then
       test_mcp_server_connection server_path work_dir
     else
       log "ERROR" "Cannot test MCP server without prerequisites" None ;;
       mret false);
  generate_report (report args) ;;
  if server_ok : bool then mret tt else raise (SystemExit 1).

(** The [if __name__ == "__main__":] block: the exit status of the process
    and the final state. *)
Definition script : Z * State :=
  match main initial_state with
  | (Val _, s) => (0, s)
  | (Exc KeyboardInterrupt, s) => (130, s)
  | (Exc (SystemExit code), s) => (code, s)
  | (Exc _, s) => (1, s)
  end.

End Script.

(** ** Vocabulary of the properties *)

(** The number of ledger entries whose level is WARNING or ERROR. *)
Definition count_issues (entries : list CheckEntry) : Z :=
  Z.of_nat (length (List.filter (fun c => is_issue_level (level c)) entries)).

(** A child that timed out or could not be started. *)
Definition failed_run (c : Completion) : bool :=
  match c with
  | TimedOut | LaunchFailed _ _ => true
  | Completed _ _ _ | Interrupted => false
  end.

Definition failures (rs : list (list string * Completion)) : Z :=
  Z.of_nat (length (List.filter (fun r => failed_run (snd r)) rs)).

(** What holds of every state the script reaches before it generates the
    report: the counter agrees with the ledger, every failed child has been
    counted, no report is written and no severity is set. *)
Record good (s : State) : Prop := {
  good_count : issues_found (diag s) = count_issues (checks (diag s));
  good_runs : failures (runs s) <= issues_found (diag s);
  good_report : report_file s = None;
  good_severity : severity (diag s) = None
}.

Definition not_exit (e : exn) : Prop := forall code, e <> SystemExit code.

(** [m] keeps [good] and never raises [SystemExit]. *)
Definition keeps {A} (m : M A) : Prop :=
  forall s, good s ->
    good (snd (m s)) /\
    match fst (m s) with
    | Val _ => True
    | Exc e => not_exit e
    end.

(** ** The phases of [main] *)

(** [main] up to the gate: the working directory and the three verdicts. *)
Definition prerequisites (env : Env) (args : Args)
  : M (string * bool * bool * option string) :=
  work_dir ←
    (if truthy (target_dir args) then mret (default "" (target_dir args))
     else
       create_path env OpMkdir (temp_dir_name env) ;;
       log env "INFO" ("Created temporary test directory: " +:+ temp_dir_name env) None ;;
       mret (temp_dir_name env));
  log env "INFO" "Starting MCP server diagnostics" None ;;
  node_ok ← check_node_version env args;
  sdk_ok ← check_mcp_sdk env args;
  server_path ← find_mcp_server_file env;
  mret (work_dir, node_ok, sdk_ok, server_path).

(** The gate of [main]: the probe, or the ERROR entry that replaces it. *)
Definition gated_probe (env : Env) (args : Args) (work_dir : string)
    (node_ok sdk_ok : bool) (server_path : option string) : M bool :=
  if node_ok && sdk_ok && truthy server_path then
    test_mcp_server_connection env args server_path work_dir
  else
    log env "ERROR" "Cannot test MCP server without prerequisites" None ;;
    mret false.

(** The end of [main]: the report, then the exit code. *)
Definition conclude (env : Env) (args : Args) (server_ok : bool) : M unit :=
  generate_report env (report args) ;;
  if server_ok then mret tt else raise (SystemExit 1).

(** The path [generate_report] writes to, and the state in which it dumps
    the dictionary. *)
Definition report_path_of (env : Env) (rp : option string) (s : State) : string :=
  if truthy rp then default "" rp
  else "mcp-diagnostic-report-" +:+ now_stamp env (clock_reads s) +:+ ".json".

Definition at_dump (env : Env) (rp : option string) (s : State) : State :=
  let s0 := if truthy rp then s else snd (read_stamp env s) in
  set_diag (summarize (diag s0)) s0.

Definition dumped (p : string) (s : State) : State :=
  {| diag := diag s; files := {[p]} ∪ files s; clock_reads := clock_reads s;
     runs := runs s; report_file := Some (p, diag s) |}.

(** One call of [log]. *)
Record LogCall := {
  call_level : string;
  call_message : string;
  call_data : option Payload
}.

Definition do_log (env : Env) (c : LogCall) : M unit :=
  log env (call_level c) (call_message c) (call_data c).

(** The states a sequence of appends goes through, one after each call. *)
Fixpoint states_after (env : Env) (calls : list LogCall) (s : State) : list State :=
  match calls with
  | [] => []
  | c :: rest =>
      let s' := snd (do_log env c s) in
      s' :: states_after env rest s'
  end.

(** The ledger invariant. *)
Definition ledger_ok (s : State) : Prop :=
  issues_found (diag s) = count_issues (checks (diag s)).

(** The exit code a call of [run_command] returned, if it returned. *)
Definition code_of (r : Result (Z * string * string)) : option Z :=
  match r with
  | Val (code, _, _) => Some code
  | Exc _ => None
  end.

(** How the child of a call of [run_command] in state [s] ends. *)
Definition completion_of (env : Env) (args : Args) (cmd : list string)
    (tmo : option Z) (cwd : option string) (s : State) : Completion :=
  subprocess_run env (length (runs s)) cmd cwd (int_or tmo (timeout args)).

(** The classification of the standard error text as the specification
    words it: an ordered table of signature, diagnostic and recommendation,
    of which the first matching row is taken. *)
Definition signature_rules : list ((string -> bool) * (string * string)) :=
  [ (Py.contains "ENOENT",
     ("Server file not found or not executable",
      "Verify server file path and permissions"));
    (Py.contains "SyntaxError",
     ("JavaScript syntax error in server or client",
      "Check for syntax errors in server code"));
    (fun text =>
       Py.contains "Error:" text && Py.contains "import" text
       && Py.contains "require" text,
     ("Module import/require error - possible ESM/CommonJS conflict",
      "Check for ESM/CommonJS compatibility issues in the MCP server")) ].

Definition first_match (text : string) : option (string * string) :=
  match List.filter (fun rule => fst rule text) signature_rules with
  | rule :: _ => Some (snd rule)
  | [] => None
  end.

(** The ledger entry of an ERROR without data logged at clock reading [n]. *)
Definition error_entry (env : Env) (n : nat) (msg : string) : CheckEntry :=
  {| level := "ERROR"; timestamp := now_iso env n; message := msg; data := None |}.

(** *** The probe, step by step *)

(** The marker file of the probe. *)
Definition marker_path (work_dir : string) : string :=
  path_join work_dir "test-file.txt".

(** The command line of the client run. *)
Definition probe_command (env : Env) (server_path work_dir : string) : list string :=
  ["node"; temp_client_name env; server_path; work_dir].

(** The file system lets the probe prepare its run. *)
Definition setup_allowed (env : Env) (work_dir : string) (s : State) : bool :=
  (bool_decide (work_dir ∈ files s) || negb (fs_refuses env OpMkdir work_dir))
  && negb (fs_refuses env OpWrite (marker_path work_dir))
  && negb (fs_refuses env OpWrite (temp_client_name env)).

(** The state in which the probe starts the client: the working directory
    made if it was absent, the marker file and the client written. *)
Definition probe_ready (env : Env) (work_dir : string) (s : State) : State :=
  let s1 :=
    if bool_decide (work_dir ∈ files s) then s
    else snd (log env "INFO" ("Created test directory: " +:+ work_dir) None
                (set_files ({[work_dir]} ∪ files s) s)) in
  let s2 := set_files ({[marker_path work_dir]} ∪ files s1) s1 in
  let s3 := set_files ({[temp_client_name env]} ∪ files s2) s2 in
  snd (log env "INFO" ("Created test client at: " +:+ temp_client_name env) None s3).

(** The state after [try: os.unlink(test_client_path) except: pass]. *)
Definition after_unlink (env : Env) (s : State) : State :=
  if negb (bool_decide (temp_client_name env ∈ files s))
     || fs_refuses env OpUnlink (temp_client_name env)
  then s
  else set_files (files s ∖ {[temp_client_name env]}) s.

(** [stdout.split("Tools available:")[1].split("\n")[0].strip()] as a
    function *)
Definition tools_str_of (stdout : string) : string :=
  Py.strip (hd "" (Py.split_str newline
                     (nth 1 (Py.split_str "Tools available:" stdout) ""))).

(** The names [', '.join(tools)] joins, when [len] and [join] accept the
    decoded value. *)
Definition tool_names (v : JValue) : option (list string) :=
  match v with
  | JList items => all_strs items
  | JDict kv => Some (map fst kv)
  | JStr s => Some (chars s)
  | _ => None
  end.

(** The decoded capability list, when the text after the marker can be
    parsed. *)
Definition parsed_tools (env : Env) (text : string) : option JValue :=
  match json_loads env text with
  | Some v =>
      match tool_names v with
      | Some _ => Some v
      | None => None
      end
  | None => None
  end.

(** [expected_tools] minus a list of discovered names, in the order of
    [expected_tools]. *)
Definition missing_of (tools : list string) : list string :=
  List.filter (fun t => negb (existsb (String.eqb t) tools)) expected_tools.

(** The ledger entries a statement appended: level, message and data of
    the entries of [s'] beyond those of [s]. *)
Definition entry_view (c : CheckEntry) : string * string * option Payload :=
  (level c, message c, data c).

Definition appended (s s' : State) : list (string * string * option Payload) :=
  map entry_view (skipn (length (checks (diag s))) (checks (diag s'))).

Definition warnings_in (l : list (string * string * option Payload)) : nat :=
  length (List.filter (fun e => String.eqb (fst (fst e)) "WARNING") l).

(** The state in which the probe evaluates the outcome [c] of the client
    run: the run is logged and recorded, the client file deleted if the file
    system allows. *)
Definition probe_ran (env : Env) (server_path work_dir : string) (s : State)
    (c : Completion) : State :=
  after_unlink env
    (add_run (probe_command env server_path work_dir, c)
       (snd (log env "INFO"
               ("Running command: "
                  +:+ Py.join " " (probe_command env server_path work_dir))
               None (probe_ready env work_dir s)))).

(** The completion of the client run of a probe started in [s]. *)
Definition client_completion (env : Env) (args : Args) (server_path work_dir : string)
    (s : State) : Completion :=
  completion_of env args (probe_command env server_path work_dir)
    (Some (timeout args * 2)) None (probe_ready env work_dir s).

(** [m] leaves the file system as it found it. *)
Definition same_files {A} (m : M A) : Prop :=
  forall s, files (snd (m s)) = files s.

(** The clean-up of the probe as the specification words it: neither
    temporary file of the probe is left behind by a probe started in [s]
    (when the file system refuses no delete). *)
Definition temp_files_removed (env : Env) (args : Args) (sp wd : string) (s : State)
  : Prop :=
  let s' := snd (test_mcp_server_connection env args (Some sp) wd s) in
  (marker_path wd ∉ files s -> marker_path wd ∉ files s')
  /\ (temp_client_name env ∉ files s -> temp_client_name env ∉ files s').

(** ** Concrete surroundings *)

(** Surroundings given by tables: how the n-th child ends, what the decoder
    returns for a text, which paths exist at the start and which operations
    the file system refuses. *)
Module World.

Definition op_eqb (a b : FsOp) : bool :=
  match a, b with
  | OpMkdir, OpMkdir | OpWrite, OpWrite | OpUnlink, OpUnlink => true
  | _, _ => false
  end.

Definition scripted (outcomes : list Completion) (decoded : list (string * JValue))
    (present : list string) (refused : list (FsOp * string)) : Env :=
  {| now_iso := fun n => "2024-01-01T00:00:00." +:+ Py.str_of_int (Z.of_nat n);
     now_stamp := fun _ => "20240101_000000";
     elapsed_text := "0.42";
     start_timestamp := "2024-01-01T00:00:00";
     env_platform := "Linux";
     env_python_version := "3.11.0";
     subprocess_run := fun n _ _ _ => nth n outcomes (Completed 0 "" "");
     json_loads := fun text => assoc text decoded;
     json_repr := fun _ => "<value>";
     abspath := fun p => path_join "/project" p;
     temp_client_name := "/tmp/tmpclient.js";
     temp_dir_name := "/tmp/mcp-diagnostic-0";
     fs_refuses := fun op p =>
       existsb (fun r => op_eqb op (fst r) && String.eqb p (snd r)) refused;
     initial_files := list_to_set present |}.

Definition default_args : Args :=
  {| verbose := false; target_dir := None; report := None; timeout := 10 |}.

(** The text [["bash","fileRead"]] and the line of the client that
    carries it. *)
Definition two_tools_text : string :=
  "[" +:+ dquote +:+ "bash" +:+ dquote +:+ ","
      +:+ dquote +:+ "fileRead" +:+ dquote +:+ "]".

Definition client_stdout (tools_text : string) : string :=
  "Connected successfully" +:+ newline
    +:+ "Tools available: " +:+ tools_text +:+ newline
    +:+ "Disconnected successfully" +:+ newline.

Definition npm_stdout : string :=
  "{ dependencies: { @modelcontextprotocol/sdk: { version: 1.2.3 } } }".

Definition npm_value : JValue :=
  JDict [("dependencies", JDict [(sdk_name, JDict [("version", JStr "1.2.3")])])].

Definition node_20 : Completion := Completed 0 ("v20.1.0" +:+ newline) "".
Definition npm_found : Completion := Completed 0 npm_stdout "".
Definition server_js : string := "dist/entrypoints/mcp.js".

(** Node 20, the SDK installed, the server built, and a client run that
    ends as [client]. *)
Definition ready (client : Completion) (decoded : list (string * JValue))
    (refused : list (FsOp * string)) : Env :=
  scripted [node_20; npm_found; client] ((npm_stdout, npm_value) :: decoded)
    [server_js] refused.

(** The client succeeds and lists bash and fileRead. *)
Definition two_tools : Env :=
  ready (Completed 0 (client_stdout two_tools_text) "")
    [(two_tools_text, JList [JStr "bash"; JStr "fileRead"])] [].

(** [node] is not installed. *)
Definition no_node : Env :=
  scripted [LaunchFailed OSError "[Errno 2] No such file or directory: 'node'";
            npm_found]
    [(npm_stdout, npm_value)] [server_js] [].

(** [node --version] answers with a text whose first component is not a
    number. *)
Definition odd_version : Env :=
  scripted [Completed 0 ("vX.1.0" +:+ newline) ""; npm_found]
    [(npm_stdout, npm_value)] [server_js] [].

(** Surroundings for a probe run on its own: the only child is the
    client. *)
Definition probe_only (client : Completion) (decoded : list (string * JValue))
    (refused : list (FsOp * string)) : Env :=
  scripted [client] decoded [] refused.

Definition server_abs : string := "/project/dist/entrypoints/mcp.js".
Definition work : string := "/tmp/work".

(** The client succeeds and lists bash and fileRead. *)
Definition lists_two : Env :=
  probe_only (Completed 0 (client_stdout two_tools_text) "")
    [(two_tools_text, JList [JStr "bash"; JStr "fileRead"])] [].

(** The client succeeds and prints something else than a list after the
    marker. *)
Definition garbled : Env :=
  probe_only (Completed 0 (client_stdout "[object Object]") "") [] [].

(** All prerequisites hold and the client exits with status 1. *)
Definition client_fails : Env :=
  ready (Completed 1 "" "Error: spawn node ENOENT") [] [].

(** [npm list] succeeds with a dependency entry that has no version. *)
Definition sdk_without_version : Env :=
  scripted [npm_found]
    [(npm_stdout, JDict [("dependencies", JDict [(sdk_name, JDict [])])])] [] [].

(** [npm list] succeeds with a text that is not JSON. *)
Definition sdk_not_json : Env :=
  scripted [npm_found] [] [] [].

(** Three children: one times out, one cannot be started, one exits
    with status 3. *)
Definition three_ends : Env :=
  scripted [TimedOut; LaunchFailed OSError "[Errno 13] Permission denied: 'npm'";
            Completed 3 "" "boom"]
    [] [] [].

(** States with no, one and two children run. *)
Definition ran0 : State := initial_state three_ends.

End World.

(** ** Vocabulary of the further properties *)

(** A statement run from a state satisfying [P] ends in a state satisfying
    [Q] when it returns and [E] when it raises. *)
Definition triple {A} (P : State -> Prop) (m : M A)
    (Q : A -> State -> Prop) (E : exn -> State -> Prop) : Prop :=
  forall s, P s ->
    match m s with
    | (Val a, s') => Q a s'
    | (Exc e, s') => E e s'
    end.

(** [m] keeps the state property [I], whether it returns or raises. *)
Definition inv {A} (I : State -> Prop) (m : M A) : Prop :=
  triple I m (fun _ => I) (fun _ => I).

(** No recommendation without an issue: the recommendations are at most as
    many as the issues counted. *)
Definition advice_bounded (s : State) : Prop :=
  Z.of_nat (length (recommendations (diag s))) <= issues_found (diag s).

(** [s'] is [s] grown: the ledger, the recommendations and the record of
    children are extended at the end, the counter and the clock did not go
    back, the node version once set stays set. *)
Record grown (s s' : State) : Prop := {
  grown_checks : exists l, checks (diag s') = checks (diag s) ++ l;
  grown_recommendations :
    exists l, recommendations (diag s') = recommendations (diag s) ++ l;
  grown_runs : exists l, runs s' = runs s ++ l;
  grown_issues : issues_found (diag s) <= issues_found (diag s');
  grown_clock : (clock_reads s <= clock_reads s')%nat
}.

(** The first of the candidate locations that exists. *)
Definition first_existing (fs : gset string) : option string :=
  List.find (fun p => bool_decide (p ∈ fs)) possible_paths.

(** The keys [error_analysis] can have. *)
Definition analysis_keys : list string :=
  ["not found"; "timeout"; "error"; "failed"; "other"].

Fixpoint total_count (kv : list (string * Z)) : Z :=
  match kv with
  | [] => 0
  | (_, n) :: rest => n + total_count rest
  end.

(** The leading numeric component of the text [node --version] printed,
    as [check_node_version] reads it. *)
Definition major_of (stdout : string) : option Z :=
  Py.py_int (hd "" (Py.split_str "." (Py.lstrip_char "v" (Py.strip stdout)))).

(** The version field of a decoded answer of [npm list], when the
    dependency entry is a dictionary that has one. *)
Definition sdk_version_of (v : JValue) : option JValue :=
  match v with
  | JDict top =>
      match assoc "dependencies" top with
      | Some (JDict deps) =>
          match assoc sdk_name deps with
          | Some (JDict entry) => assoc "version" entry
          | _ => None
          end
      | _ => None
      end
  | _ => None
  end.

(** Further concrete surroundings. *)
Module Cases.

(** The marker file cannot be written in the working directory. *)
Definition marker_refused : Env :=
  World.probe_only (Completed 0 "" "") []
    [(OpWrite, "/tmp/work/test-file.txt")].

(** A whole run in which everything holds but the marker file cannot be
    written in the temporary directory. *)
Definition run_marker_refused : Env :=
  World.ready (Completed 0 "" "") []
    [(OpWrite, "/tmp/mcp-diagnostic-0/test-file.txt")].

(** [npm list] answers with the package and its version. *)
Definition sdk_installed : Env :=
  World.scripted [World.npm_found] [(World.npm_stdout, World.npm_value)] [] [].

(** [npm list] exits with code 1. *)
Definition sdk_missing : Env :=
  World.scripted [Completed 1 "{}" ""] [] [] [].

(** The client succeeds without printing the line of tools. *)
Definition silent_client : Env :=
  World.probe_only (Completed 0 ("Connected successfully" +:+ newline) "") [] [].

(** A probe on its own whose client exits with status 1 and names a
    missing file. *)
Definition failing_probe : Env :=
  World.probe_only (Completed 1 "" "Error: spawn node ENOENT") [] [].

(** A probe on its own whose client run is interrupted. *)
Definition interrupted_probe : Env :=
  World.probe_only Interrupted [] [].


End Cases.

(** No child so far was interrupted. *)
Definition calm (s : State) : Prop :=
  List.Forall (fun r => snd r <> Interrupted) (runs s).





(** The child ended without success: a non-zero code, a timeout or a
    failure to start (an interrupt is none of these). *)
Definition ended_badly (c : Completion) : bool :=
  match c with
  | Completed rc _ _ => negb (rc =? 0)
  | TimedOut | LaunchFailed _ _ => true
  | Interrupted => false
  end.

(** [npm list] gave no answer that names the package: it ended badly, or
    its output does not contain the package name. *)
Definition names_no_sdk (c : Completion) : bool :=
  match c with
  | Completed rc out _ => negb ((rc =? 0) && Py.contains sdk_name out)
  | TimedOut | LaunchFailed _ _ => true
  | Interrupted => false
  end.

Definition npm_command : list string :=
  ["npm"; "list"; sdk_name; "--json"; "--depth=0"].

Definition node_command : list string := ["node"; "--version"].

(** The standard error text the runner hands to the probe for a client
    that ended as [c]. *)
Definition runner_stderr (args : Args) (c : Completion) : string :=
  match c with
  | Completed _ _ err => err
  | TimedOut =>
      "Timed out after "
        +:+ Py.str_of_int (int_or (Some (timeout args * 2)) (timeout args))
        +:+ " seconds"
  | LaunchFailed _ msg => msg
  | Interrupted => ""
  end.

(** ** Checks of the text operations *)

Example upper_warning : Py.upper "Warning" = "WARNING".
Proof. reflexivity. Qed.

Example split_version : Py.split_str "." "18.2.0" = ["18"; "2"; "0"].
Proof. reflexivity. Qed.

Example split_trailing : Py.split_str "ab" "xabyab" = ["x"; "y"; ""].
Proof. reflexivity. Qed.

Example strip_newline : Py.strip (" v20.1.0" +:+ String "010"%char "") = "v20.1.0".
Proof. reflexivity. Qed.

Example int_ok : Py.py_int "18" = Some 18.
Proof. reflexivity. Qed.

Example int_bad : Py.py_int "X" = None.
Proof. reflexivity. Qed.

Example str_of_int_20 : Py.str_of_int 20 = "20".
Proof. reflexivity. Qed.

Example contains_inner : Py.contains "ENOENT" "spawn node ENOENT" = true.
Proof. reflexivity. Qed.

Example contains_absent : Py.contains "import" "Error: required" = false.
Proof. reflexivity. Qed.

Example lstrip_v : Py.lstrip_char "v" "vv18.0.1" = "18.0.1".
Proof. reflexivity. Qed.

Example int_underscore : Py.py_int " 1_8 " = Some 18.
Proof. reflexivity. Qed.

Example int_empty : Py.py_int "" = None.
Proof. reflexivity. Qed.

Example path_of_marker : marker_path "/tmp/work" = "/tmp/work/test-file.txt".
Proof. reflexivity. Qed.

Example key_word_first : key_word "Error: server not found" = "not found".
Proof. reflexivity. Qed.

Example tools_str_of_line :
  tools_str_of (World.client_stdout World.two_tools_text) = World.two_tools_text.
Proof. reflexivity. Qed.

(** A run with Node 20, the SDK and the server present, and a client that
    lists two of the three expected tools: status 0, one issue. *)
Example script_two_tools :
  fst (script World.two_tools World.default_args) = 0
  /\ issues_found (diag (snd (script World.two_tools World.default_args))) = 1
  /\ recommendations (diag (snd (script World.two_tools World.default_args)))
     = ["Implement missing tools: fileWrite"].
Proof. vm_compute. repeat split; reflexivity. Qed.

(** A run without [node]: status 1, three issues, the probe not run. *)
Example script_no_node :
  fst (script World.no_node World.default_args) = 1
  /\ issues_found (diag (snd (script World.no_node World.default_args))) = 3
  /\ length (runs (snd (script World.no_node World.default_args))) = 2%nat.
Proof. vm_compute. repeat split; reflexivity. Qed.

(** ** Reasoning about statements *)

Lemma count_issues_app l1 l2 :
  count_issues (l1 ++ l2) = count_issues l1 + count_issues l2.
Proof.
  unfold count_issues. rewrite List.filter_app, List.length_app. lia.
Qed.

Lemma count_issues_nonneg l : 0 <= count_issues l.
Proof. unfold count_issues. lia. Qed.

Lemma failures_app l1 l2 : failures (l1 ++ l2) = failures l1 + failures l2.
Proof.
  unfold failures. rewrite List.filter_app, List.length_app. lia.
Qed.

Lemma keeps_ret {A} (a : A) : keeps (mret a).
Proof. intros s Hs. split; [exact Hs | exact I]. Qed.

Lemma keeps_bind {A B} (m : M A) (f : A -> M B) :
  keeps m -> (forall a, keeps (f a)) -> keeps (m ≫= f).
Proof.
  intros Hm Hf s Hs. unfold mbind, M_bind.
  destruct (Hm s Hs) as [Hg He].
  destruct (m s) as [[a | e] s1]; simpl in *.
  - exact (Hf a s1 Hg).
  - split; assumption.
Qed.

Lemma keeps_raise {A} (e : exn) : not_exit e -> keeps (@raise A e).
Proof. intros He s Hs. split; [exact Hs | exact He]. Qed.

Lemma keeps_try {A} (m : M A) (h : exn -> M A) :
  keeps m -> (forall e, not_exit e -> keeps (h e)) -> keeps (try_except m h).
Proof.
  intros Hm Hh s Hs. unfold try_except.
  destruct (Hm s Hs) as [Hg He].
  destruct (m s) as [[a | e] s1]; simpl in *.
  - split; [exact Hg | exact I].
  - exact (Hh e He s1 Hg).
Qed.

Lemma not_exit_Error cls msg : not_exit (Error cls msg).
Proof. intros c; discriminate. Qed.

Lemma not_exit_Timeout : not_exit TimeoutExpired.
Proof. intros c; discriminate. Qed.

Lemma not_exit_Interrupt : not_exit KeyboardInterrupt.
Proof. intros c; discriminate. Qed.

Create HintDb keeps.
#[global] Hint Resolve not_exit_Error not_exit_Timeout not_exit_Interrupt : keeps.

Section Reasoning.

Context (env : Env) (args : Args).

(** The ledger after one [log]: the entry is appended and the counter
    moves by one exactly for WARNING and ERROR. *)
Lemma log_state lvl msg payload s :
  log env lvl msg payload s =
    (Val tt,
     {| diag :=
          {| diag_timestamp := diag_timestamp (diag s);
             platform := platform (diag s);
             python_version := python_version (diag s);
             node_version := node_version (diag s);
             checks :=
               checks (diag s)
                 ++ [{| level := Py.upper lvl;
                        timestamp := now_iso env (clock_reads s);
                        message := msg; data := payload |}];
             issues_found :=
               if is_issue_level (Py.upper lvl) then issues_found (diag s) + 1
               else issues_found (diag s);
             recommendations := recommendations (diag s);
             summary := summary (diag s); severity := severity (diag s);
             error_analysis := error_analysis (diag s) |};
        files := files s; clock_reads := S (clock_reads s);
        runs := runs s; report_file := report_file s |}).
Proof. reflexivity. Qed.

Lemma log_count lvl msg payload s :
  issues_found (diag s) = count_issues (checks (diag s)) ->
  issues_found (diag (snd (log env lvl msg payload s)))
  = count_issues (checks (diag (snd (log env lvl msg payload s)))).
Proof.
  intros H. rewrite log_state. simpl.
  rewrite count_issues_app. unfold count_issues at 2. simpl.
  destruct (is_issue_level (Py.upper lvl)); simpl; lia.
Qed.

Lemma log_issues_mono lvl msg payload s :
  issues_found (diag s) <= issues_found (diag (snd (log env lvl msg payload s))).
Proof.
  rewrite log_state. simpl. destruct (is_issue_level (Py.upper lvl)); lia.
Qed.

Lemma keeps_log lvl msg payload : keeps (log env lvl msg payload).
Proof.
  intros s [Hc Hr Hrep Hsev]. split; [|exact I]. split.
  - apply log_count, Hc.
  - pose proof (log_issues_mono lvl msg payload s) as Hm.
    rewrite log_state in *. simpl in *. lia.
  - exact Hrep.
  - exact Hsev.
Qed.

Lemma keeps_modify_files (f : State -> gset string) :
  keeps (modify_state (fun s => set_files (f s) s)).
Proof. intros s [Hc Hr Hrep Hsev]. split; [split; assumption | exact I]. Qed.

Lemma keeps_recommend text : keeps (recommend text).
Proof. intros s [Hc Hr Hrep Hsev]. split; [split; assumption | exact I]. Qed.

Lemma keeps_set_node_version v : keeps (set_node_version v).
Proof. intros s [Hc Hr Hrep Hsev]. split; [split; assumption | exact I]. Qed.

Lemma keeps_path_exists p : keeps (path_exists p).
Proof. intros s Hs. split; [exact Hs | exact I]. Qed.

Lemma keeps_create_path op p : keeps (create_path env op p).
Proof.
  unfold create_path. destruct (fs_refuses env op p).
  - apply keeps_raise, not_exit_Error.
  - apply keeps_modify_files.
Qed.

Lemma keeps_read_stamp : keeps (read_stamp env).
Proof. intros s [Hc Hr Hrep Hsev]. split; [split; assumption | exact I]. Qed.

(** What [run_command] returns and leaves behind, by the way the child
    ends. *)
Lemma run_command_eq cmd tmo cwd s :
  let t := int_or tmo (timeout args) in
  let c := subprocess_run env (length (runs s)) cmd cwd t in
  let s1 :=
    add_run (cmd, c)
      (snd (log env "INFO" ("Running command: " +:+ Py.join " " cmd) None s)) in
  run_command env args cmd tmo cwd s =
    match c with
    | Completed rc out err => (Val (rc, out, err), s1)
    | TimedOut =>
        (Val (-1, "", "Timed out after " +:+ Py.str_of_int t +:+ " seconds"),
         snd (log env "ERROR"
                ("Command timed out after " +:+ Py.str_of_int t +:+ " seconds: "
                   +:+ Py.join " " cmd) None s1))
    | LaunchFailed cls msg =>
        (Val (-2, "", msg),
         snd (log env "ERROR" ("Error running command: " +:+ Py.join " " cmd)
                (Some (PText msg)) s1))
    | Interrupted => (Exc KeyboardInterrupt, s1)
    end.
Proof.
  intros t c s1. unfold run_command, try_except, mbind, M_bind.
  rewrite log_state. unfold subprocess_run_call. simpl.
  fold t. fold c. subst s1. rewrite log_state. simpl.
  destruct c; reflexivity.
Qed.

Lemma keeps_run_command cmd tmo cwd : keeps (run_command env args cmd tmo cwd).
Proof.
  intros s [Hc Hr Hrep Hsev]. rewrite run_command_eq.
  destruct (subprocess_run env (length (runs s)) cmd cwd
              (int_or tmo (timeout args))) as [rc out err| |cls msg|];
    rewrite ?log_state; simpl;
    (split; [split; simpl | auto with keeps]);
    try assumption;
    unfold count_issues, failures in *;
    rewrite ?List.filter_app, ?List.length_app; simpl; lia.
Qed.

Lemma keeps_type_error {A} msg : keeps (@type_error A msg).
Proof. apply keeps_raise, not_exit_Error. Qed.

Ltac keeps_step :=
  first
    [ apply keeps_ret | apply keeps_log | apply keeps_recommend
    | apply keeps_set_node_version | apply keeps_path_exists
    | apply keeps_create_path | apply keeps_read_stamp
    | apply keeps_run_command | apply keeps_modify_files
    | apply keeps_type_error
    | apply keeps_raise; solve [auto with keeps]
    | apply keeps_bind; [| intros ?]
    | apply keeps_try; [| intros ? ?]
    | match goal with
      | |- keeps (if ?b then _ else _) => destruct b
      | |- keeps (match ?x with _ => _ end) => destruct x
      end ].

Ltac keeps_auto := repeat keeps_step.

Lemma keeps_py_in k v : keeps (py_in k v).
Proof. unfold py_in. keeps_auto. Qed.

Lemma keeps_py_getitem v k : keeps (py_getitem v k).
Proof. unfold py_getitem. keeps_auto. Qed.

Lemma keeps_py_len v : keeps (py_len v).
Proof. unfold py_len. keeps_auto. Qed.

Lemma keeps_py_join sep v : keeps (py_join sep v).
Proof. unfold py_join. keeps_auto. Qed.

Lemma keeps_json_loads_call text : keeps (json_loads_call env text).
Proof. unfold json_loads_call. keeps_auto. Qed.

Lemma keeps_unlink p : keeps (unlink env p).
Proof. unfold unlink, os_error. keeps_auto. Qed.

Lemma keeps_check_node_version : keeps (check_node_version env args).
Proof. unfold check_node_version. keeps_auto. Qed.

Lemma keeps_check_mcp_sdk_try stdout : keeps (check_mcp_sdk_try env stdout).
Proof.
  unfold check_mcp_sdk_try.
  repeat first [apply keeps_json_loads_call | apply keeps_py_in
               | apply keeps_py_getitem | keeps_step].
Qed.

Lemma keeps_check_mcp_sdk : keeps (check_mcp_sdk env args).
Proof.
  unfold check_mcp_sdk.
  repeat first [apply keeps_check_mcp_sdk_try | keeps_step].
Qed.

Lemma keeps_find_first paths : keeps (find_first env paths).
Proof. induction paths as [|p rest IH]; simpl; repeat first [apply IH | keeps_step]. Qed.

Lemma keeps_find_mcp_server_file : keeps (find_mcp_server_file env).
Proof. unfold find_mcp_server_file. repeat first [apply keeps_find_first | keeps_step]. Qed.

Lemma keeps_missing_from expected tools : keeps (missing_from expected tools).
Proof.
  induction expected as [|t rest IH]; simpl;
    repeat first [apply IH | apply keeps_py_in | keeps_step].
Qed.

Lemma keeps_check_tools_try tools_str : keeps (check_tools_try env tools_str).
Proof.
  unfold check_tools_try.
  repeat first [apply keeps_json_loads_call | apply keeps_py_len | apply keeps_py_join
               | apply keeps_missing_from | keeps_step].
Qed.

Lemma keeps_evaluate_success stdout : keeps (evaluate_success env stdout).
Proof.
  unfold evaluate_success, tools_text.
  repeat first [apply keeps_check_tools_try | keeps_step].
Qed.

Lemma keeps_analyze_errors stderr : keeps (analyze_errors env stderr).
Proof. unfold analyze_errors. keeps_auto. Qed.

Lemma keeps_evaluate_failure stdout stderr : keeps (evaluate_failure env stdout stderr).
Proof. unfold evaluate_failure. repeat first [apply keeps_analyze_errors | keeps_step]. Qed.

Lemma keeps_test_mcp_server_connection server_path work_dir :
  keeps (test_mcp_server_connection env args server_path work_dir).
Proof.
  unfold test_mcp_server_connection, create_test_mcp_client.
  repeat first [apply keeps_unlink | apply keeps_evaluate_success
               | apply keeps_evaluate_failure | keeps_step].
Qed.

End Reasoning.

Lemma main_phases env args s :
  main env args s =
    ('(work_dir, node_ok, sdk_ok, server_path) ← prerequisites env args;
     server_ok ← gated_probe env args work_dir node_ok sdk_ok server_path;
     conclude env args server_ok) s.
Proof.
  unfold main, prerequisites, gated_probe, conclude, mbind, M_bind, mret, M_ret.
  destruct (truthy (target_dir args)).
  - rewrite log_state.
    destruct (check_node_version env args _) as [[n|e] s1]; [|reflexivity].
    destruct (check_mcp_sdk env args s1) as [[k|e] s2]; [|reflexivity].
    destruct (find_mcp_server_file env s2) as [[sp|e] s3]; reflexivity.
  - destruct (create_path env OpMkdir (temp_dir_name env) s) as [[[]|e] s0];
      [|reflexivity].
    rewrite !log_state.
    destruct (check_node_version env args _) as [[n|e] s1]; [|reflexivity].
    destruct (check_mcp_sdk env args s1) as [[k|e] s2]; [|reflexivity].
    destruct (find_mcp_server_file env s2) as [[sp|e] s3]; reflexivity.
Qed.

Lemma keeps_prerequisites env args : keeps (prerequisites env args).
Proof.
  unfold prerequisites.
  repeat first
    [ apply keeps_check_node_version | apply keeps_check_mcp_sdk
    | apply keeps_find_mcp_server_file | apply keeps_create_path | apply keeps_log
    | apply keeps_ret | apply keeps_bind; [| intros ?]
    | match goal with |- keeps (if ?b then _ else _) => destruct b end ].
Qed.

Lemma keeps_gated_probe env args work_dir node_ok sdk_ok server_path :
  keeps (gated_probe env args work_dir node_ok sdk_ok server_path).
Proof.
  unfold gated_probe. destruct (node_ok && sdk_ok && truthy server_path).
  - apply keeps_test_mcp_server_connection.
  - apply keeps_bind; [apply keeps_log | intros ?; apply keeps_ret].
Qed.

Lemma good_initial env : good (initial_state env).
Proof. split; reflexivity. Qed.

Lemma generate_report_eq env rp s :
  generate_report env rp s =
    let p := report_path_of env rp s in
    if fs_refuses env OpWrite p then (Exc (Error OSError p), at_dump env rp s)
    else log env "INFO" ("Diagnostic report saved to: " +:+ p) None
           (dumped p (at_dump env rp s)).
Proof.
  unfold generate_report, report_path_of, at_dump, dump_report, create_path,
    os_error, mbind, M_bind, mret, M_ret.
  destruct (truthy rp); simpl.
  - destruct (fs_refuses env OpWrite (default "" rp)); reflexivity.
  - destruct (fs_refuses env OpWrite _); reflexivity.
Qed.

(** The two ways [main] can go: it stops before the report, with the state
    still [good] and an exception other than [SystemExit]; or it reaches the
    end of the gate and concludes. *)
Lemma main_cases env args :
  let r := main env args (initial_state env) in
  (good (snd r) /\ exists e, fst r = Exc e /\ not_exit e)
  \/ (exists work_dir node_ok sdk_ok server_path s1 server_ok s2,
        prerequisites env args (initial_state env)
          = (Val (work_dir, node_ok, sdk_ok, server_path), s1)
        /\ gated_probe env args work_dir node_ok sdk_ok server_path s1
          = (Val server_ok, s2)
        /\ good s1 /\ good s2
        /\ r = conclude env args server_ok s2).
Proof.
  intros r.
  assert (Hr : r = ('(work_dir, node_ok, sdk_ok, server_path) ← prerequisites env args;
                    server_ok ← gated_probe env args work_dir node_ok sdk_ok server_path;
                    conclude env args server_ok) (initial_state env))
    by apply main_phases.
  clearbody r. unfold mbind, M_bind in Hr.
  destruct (keeps_prerequisites env args _ (good_initial env)) as [Hg1 He1].
  destruct (prerequisites env args (initial_state env))
    as [[[[[wd n] k] sp] | e] s1]; simpl in Hg1, He1.
  - destruct (keeps_gated_probe env args wd n k sp s1 Hg1) as [Hg2 He2].
    destruct (gated_probe env args wd n k sp s1) as [[ok | e] s2] eqn:Hp;
      simpl in Hg2, He2.
    + right. exists wd, n, k, sp, s1, ok, s2. auto.
    + left. subst r. simpl. eauto.
  - left. subst r. simpl. eauto.
Qed.

(** ** The ledger *)

Lemma states_after_ok env calls s :
  ledger_ok s -> Forall ledger_ok (states_after env calls s).
Proof.
  revert s. induction calls as [|c rest IH]; intros s Hs; simpl.
  - constructor.
  - assert (Hs' : ledger_ok (snd (do_log env c s))) by (apply log_count; exact Hs).
    constructor; [exact Hs' | apply IH; exact Hs'].
Qed.

(** C1. For every sequence of calls of [log] from the initial state, after
    each call [issues_found] equals the number of WARNING and ERROR entries
    in [checks]; one call appends one entry, adds one to the counter exactly
    when the (upper-cased) level is WARNING or ERROR, and never lowers the
    counter. *)
Theorem C1_issue_counter_invariant (env : Env) :
  (forall calls, Forall ledger_ok (states_after env calls (initial_state env)))
  /\ (forall lvl msg payload s,
        let s' := snd (log env lvl msg payload s) in
        checks (diag s')
          = checks (diag s)
              ++ [{| level := Py.upper lvl; timestamp := now_iso env (clock_reads s);
                     message := msg; data := payload |}]
        /\ issues_found (diag s')
          = issues_found (diag s) + (if is_issue_level (Py.upper lvl) then 1 else 0)
        /\ issues_found (diag s) <= issues_found (diag s')).
Proof.
  split.
  - intros calls. apply states_after_ok. reflexivity.
  - intros lvl msg payload s s'. subst s'. rewrite log_state. simpl.
    split; [reflexivity|].
    destruct (is_issue_level (Py.upper lvl)); lia.
Qed.

(** The same counter after a whole run of the script, whatever its end. *)
Lemma script_ledger_ok env args : ledger_ok (snd (script env args)).
Proof.
  unfold script.
  destruct (main_cases env args) as [[Hg [e [He Hne]]] | H].
  - destruct (main env args (initial_state env)) as [[[]|e'] s]; simpl in *;
      try destruct e'; apply Hg.
  - destruct H as (wd & n & k & sp & s1 & ok & s2 & _ & _ & _ & Hg2 & Hr).
    rewrite Hr. unfold conclude, mbind, M_bind.
    rewrite generate_report_eq. simpl.
    assert (Hd : ledger_ok (at_dump env (report args) s2)).
    { unfold ledger_ok, at_dump. destruct (truthy (report args)); apply Hg2. }
    destruct (fs_refuses env OpWrite _).
    + exact Hd.
    + rewrite log_state.
      assert (Hl : ledger_ok
                (snd (log env "INFO"
                        ("Diagnostic report saved to: "
                           +:+ report_path_of env (report args) s2) None
                        (dumped (report_path_of env (report args) s2)
                           (at_dump env (report args) s2)))))
        by (apply log_count; exact Hd).
      rewrite log_state in Hl. destruct ok; exact Hl.
Qed.

(** ** Severity *)

Lemma script_final_cases env args :
  let final := snd (script env args) in
  good final
  \/ (exists s2,
        good s2
        /\ diag final = diag (at_dump env (report args) s2)
        /\ report_file final = None)
  \/ (exists s2 p,
        good s2
        /\ runs final = runs s2
        /\ report_file final = Some (p, diag (at_dump env (report args) s2))
        /\ issues_found (diag final) = issues_found (diag s2)
        /\ severity (diag final) = severity (diag (at_dump env (report args) s2))).
Proof.
  unfold script.
  destruct (main_cases env args) as [[Hg [e [He Hne]]] | H].
  - left. destruct (main env args (initial_state env)) as [[[]|e'] s]; simpl in *;
      try destruct e'; apply Hg.
  - right. destruct H as (wd & n & k & sp & s1 & ok & s2 & _ & _ & _ & Hg2 & Hr).
    rewrite Hr. unfold conclude, mbind, M_bind.
    rewrite generate_report_eq. simpl.
    destruct (fs_refuses env OpWrite _).
    + left. exists s2. simpl. split; [exact Hg2|]. split; [reflexivity|].
      unfold at_dump. destruct (truthy (report args)); apply Hg2.
    + right. exists s2, (report_path_of env (report args) s2).
      rewrite log_state.
      destruct ok; simpl; (split; [exact Hg2|]);
        unfold at_dump; destruct (truthy (report args)); simpl; auto.
Qed.

(** C2. The severity is a function of the issue count alone: for [n >= 0],
    0 gives HEALTHY, 1 and 2 give WARNING, 3 and more give CRITICAL;
    [generate_report] stores that value for the counter it finds, and in a
    run of the script a severity is present only as that function of the
    counter, in the dictionary and in the written report alike. *)
Theorem C2_severity_function (env : Env) (args : Args) :
  (forall n, 0 <= n ->
     (n = 0 -> severity_of n = "HEALTHY")
     /\ (n = 1 \/ n = 2 -> severity_of n = "WARNING")
     /\ (3 <= n -> severity_of n = "CRITICAL"))
  /\ (forall rp s,
        severity (diag (snd (generate_report env rp s)))
        = Some (severity_of (issues_found (diag s))))
  /\ (let final := snd (script env args) in
      (severity (diag final) = None
       \/ severity (diag final) = Some (severity_of (issues_found (diag final))))
      /\ forall p d, report_file final = Some (p, d) ->
           severity d = Some (severity_of (issues_found d))).
Proof.
  split; [|split].
  - intros n Hn. unfold severity_of. repeat split.
    + intros ->. reflexivity.
    + intros [-> | ->]; reflexivity.
    + intros H3. destruct (Z.eqb_spec n 0); [lia|].
      destruct (Z.ltb_spec n 3); [lia | reflexivity].
  - intros rp s. rewrite generate_report_eq. simpl.
    destruct (fs_refuses env OpWrite _); [|rewrite log_state];
      unfold at_dump; destruct (truthy rp); reflexivity.
  - cbv zeta. pose proof (script_final_cases env args) as Hc. cbv zeta in Hc.
    set (final := snd (script env args)) in *.
    destruct Hc as [Hg | [[s2 H] | [s2 [p H]]]].
    + split; [left; apply Hg|]. intros p d Hd. rewrite (good_report _ Hg) in Hd.
      discriminate.
    + destruct H as (Hg & Hd & Hrep). split.
      * right. rewrite Hd. unfold at_dump. destruct (truthy (report args)); reflexivity.
      * intros p d Hpd. rewrite Hrep in Hpd. discriminate.
    + destruct H as (Hg & _ & Hrep & Hiss & Hsev). split.
      * right. rewrite Hsev, Hiss. unfold at_dump.
        destruct (truthy (report args)); reflexivity.
      * intros p' d Hpd. rewrite Hrep in Hpd. injection Hpd as _ <-.
        unfold at_dump. destruct (truthy (report args)); reflexivity.
Qed.

Lemma C2_severity_function_witness :
  0 <= 2 /\ severity_of 2 = "WARNING".
Proof.
  split; [lia|].
  destruct (proj1 (C2_severity_function World.two_tools World.default_args) 2)
    as [_ [H _]]; [lia|].
  apply H. right. reflexivity.
Defined.

(** ** The process runner *)



(** The runner passes the return code of a completed child through as it
    is.  Python reports a child killed by signal N with the negative return
    code -N, which is not an exit status; for N = 1 the runner then returns
    the code it also returns on a timeout. *)
Lemma run_command_passes_returncode env args cmd tmo cwd s rc out err :
  completion_of env args cmd tmo cwd s = Completed rc out err ->
  code_of (fst (run_command env args cmd tmo cwd s)) = Some rc.
Proof.
  intros Hc. rewrite run_command_eq. cbv zeta.
  unfold completion_of in Hc. rewrite Hc. reflexivity.
Qed.

Lemma failures_In r rs :
  In r rs -> failed_run (snd r) = true -> 1 <= failures rs.
Proof.
  intros Hin Hf. unfold failures.
  assert (Hin' : In r (List.filter (fun r => failed_run (snd r)) rs))
    by (apply List.filter_In; split; assumption).
  destruct (List.filter _ rs); [destruct Hin' | simpl; lia].
Qed.

Lemma severity_of_issue n : 1 <= n -> severity_of n <> "HEALTHY".
Proof.
  intros Hn. unfold severity_of.
  destruct (Z.eqb_spec n 0); [lia|].
  destruct (n <? 3); discriminate.
Qed.

(** C10. When the child of [run_command] times out or cannot be started,
    the runner appends two entries, the INFO entry with the command line and
    an ERROR entry, and [issues_found] grows by one.  Hence in a run of the
    script in which some child timed out or failed to start, a report that
    is written does not have severity HEALTHY. *)
Theorem C10_failed_child_is_counted (env : Env) (args : Args) :
  (forall cmd tmo cwd s,
     failed_run (completion_of env args cmd tmo cwd s) = true ->
     let s' := snd (run_command env args cmd tmo cwd s) in
     (exists e1 e2,
        checks (diag s') = checks (diag s) ++ [e1; e2]
        /\ level e1 = "INFO"
        /\ message e1 = "Running command: " +:+ Py.join " " cmd
        /\ level e2 = "ERROR")
     /\ issues_found (diag s') = issues_found (diag s) + 1)
  /\ (forall r p d,
        In r (runs (snd (script env args))) ->
        failed_run (snd r) = true ->
        report_file (snd (script env args)) = Some (p, d) ->
        severity d <> Some "HEALTHY").
Proof.
  split.
  - intros cmd tmo cwd s Hf s'. subst s'. unfold completion_of in Hf.
    rewrite run_command_eq. cbv zeta.
    destruct (subprocess_run env _ cmd cwd _); try discriminate Hf;
      rewrite !log_state; simpl; rewrite <- app_assoc; simpl;
      (split; [do 2 eexists; split; [reflexivity | auto] | reflexivity]).
  - intros r p d Hin Hf Hrep.
    pose proof (script_final_cases env args) as Hc. cbv zeta in Hc.
    destruct Hc as [Hg | [[s2 H] | [s2 [p' H]]]].
    + rewrite (good_report _ Hg) in Hrep. discriminate.
    + destruct H as (_ & _ & Hnone). rewrite Hnone in Hrep. discriminate.
    + destruct H as (Hg & Hruns & Hrep' & _ & _).
      rewrite Hrep' in Hrep. injection Hrep as _ Hd. subst d.
      rewrite Hruns in Hin.
      pose proof (failures_In _ _ Hin Hf) as H1.
      pose proof (good_runs _ Hg) as H2.
      assert (Hsev : severity (diag (at_dump env (report args) s2))
                     = Some (severity_of (issues_found (diag s2))))
        by (unfold at_dump; destruct (truthy (report args)); reflexivity).
      change (severity (diag (at_dump env (report args) s2)) <> Some "HEALTHY").
      rewrite Hsev. intros [= Heq].
      apply (severity_of_issue (issues_found (diag s2))); [lia | exact Heq].
Qed.

Lemma C10_failed_child_is_counted_witness :
  issues_found
    (diag (snd (run_command World.three_ends World.default_args
                  ["node"] None None World.ran0)))
  = issues_found (diag World.ran0) + 1
  /\ exists p d,
       report_file (snd (script World.no_node World.default_args)) = Some (p, d)
       /\ severity d <> Some "HEALTHY".
Proof.
  split.
  - apply (proj1 (C10_failed_child_is_counted World.three_ends World.default_args)
             ["node"] None None World.ran0).
    reflexivity.
  - eexists. eexists. split.
    + vm_compute. reflexivity.
    + apply (proj2 (C10_failed_child_is_counted World.no_node World.default_args)
               (["node"; "--version"],
                LaunchFailed OSError "[Errno 2] No such file or directory: 'node'")
               "mcp-diagnostic-report-20240101_000000.json").
      * vm_compute. left. reflexivity.
      * reflexivity.
      * vm_compute. reflexivity.
Defined.

(** ** Classification of a failed probe *)

Lemma analyze_errors_returns env stderr s :
  fst (analyze_errors env stderr s) = Val tt.
Proof.
  unfold analyze_errors.
  destruct (Py.contains "ENOENT" stderr); [reflexivity|].
  destruct (Py.contains "SyntaxError" stderr); [reflexivity|].
  destruct (Py.contains "Error:" stderr && Py.contains "import" stderr
            && Py.contains "require" stderr); reflexivity.
Qed.

(** C3. The if/elif chain over the standard error text of a failed client
    run is the first-match lookup in the ordered table ENOENT, SyntaxError,
    (Error: and import and require): when a row matches, exactly one ERROR
    entry with that row's diagnostic is appended and exactly one
    recommendation, that row's, is added; when none matches the state is
    unchanged.  A text containing ENOENT gets the path/permissions row
    whatever else it contains.  [evaluate_failure] puts the generic ERROR
    entry before the classification. *)
Theorem C3_first_match_classification (env : Env) (stderr : string) (s : State) :
  let s' := snd (analyze_errors env stderr s) in
  fst (analyze_errors env stderr s) = Val tt
  /\ match first_match stderr with
     | Some (msg, advice) =>
         checks (diag s') = checks (diag s) ++ [error_entry env (clock_reads s) msg]
         /\ recommendations (diag s') = recommendations (diag s) ++ [advice]
         /\ issues_found (diag s') = issues_found (diag s) + 1
     | None => s' = s
     end
  /\ (Py.contains "ENOENT" stderr = true ->
      first_match stderr
      = Some ("Server file not found or not executable",
              "Verify server file path and permissions"))
  /\ (forall stdout,
        evaluate_failure env stdout stderr s
        = analyze_errors env stderr
            (snd (log env "ERROR"
                    ("Failed to connect to MCP server after "
                       +:+ elapsed_text env +:+ "s")
                    (Some (PMap [("stdout", stdout); ("stderr", stderr)])) s))).
Proof.
  cbv zeta. split; [|split; [|split]].
  - apply analyze_errors_returns.
  - unfold analyze_errors, first_match, signature_rules. simpl.
    destruct (Py.contains "ENOENT" stderr); simpl.
    { repeat split; reflexivity. }
    destruct (Py.contains "SyntaxError" stderr); simpl.
    { repeat split; reflexivity. }
    destruct (Py.contains "Error:" stderr && Py.contains "import" stderr
              && Py.contains "require" stderr); simpl.
    { repeat split; reflexivity. }
    reflexivity.
  - unfold first_match, signature_rules. simpl. intros ->. reflexivity.
  - intros stdout. reflexivity.
Qed.

Lemma C3_first_match_classification_witness :
  Py.contains "ENOENT" "Error: spawn node ENOENT; SyntaxError: import or require" = true
  /\ first_match "Error: spawn node ENOENT; SyntaxError: import or require"
     = Some ("Server file not found or not executable",
             "Verify server file path and permissions").
Proof.
  split; [reflexivity|].
  apply (proj1 (proj2 (proj2
           (C3_first_match_classification World.no_node
              "Error: spawn node ENOENT; SyntaxError: import or require"
              World.ran0)))).
  reflexivity.
Defined.

(** ** The connectivity probe *)

(** Make the states of the two [run_command] calls of an equation the same
    term, when they are convertible. *)
Ltac align_run :=
  lazymatch goal with
  | |- ?L = ?R =>
      match R with
      | context [run_command _ _ _ _ _ ?S2] =>
          match L with
          | context [run_command _ _ _ _ _ ?S1] => change S1 with S2
          end
      end
  end.

(** The probe once its set-up went through: the client run, the best-effort
    delete, the evaluation of the outcome. *)
Lemma probe_eq env args sp wd s :
  sp <> "" ->
  setup_allowed env wd s = true ->
  test_mcp_server_connection env args (Some sp) wd s =
    match run_command env args (probe_command env sp wd)
            (Some (timeout args * 2)) None (probe_ready env wd s) with
    | (Val (code, out, err), s1) =>
        match (if code =? 0 then evaluate_success env out
               else evaluate_failure env out err) (after_unlink env s1) with
        | (Val _, s2) => (Val (code =? 0), s2)
        | (Exc e, s2) => (Exc e, s2)
        end
    | (Exc e, s1) => (Exc e, s1)
    end.
Proof.
  intros Hsp Hok. unfold setup_allowed in Hok.
  apply andb_prop in Hok as [Hok Hclient]. apply andb_prop in Hok as [Hdir Hmark].
  apply negb_true_iff in Hclient, Hmark.
  unfold test_mcp_server_connection.
  destruct (String.eqb_spec sp ""); [contradiction|].
  unfold probe_ready, create_test_mcp_client, mbind, M_bind, path_exists,
    create_path, modify_state, mret, M_ret.
  fold (marker_path wd). unfold probe_command.
  assert (Hend : forall code out err s1,
    (let (r3, s3) :=
       try_except (unlink env (temp_client_name env))
         (fun (_ : exn) (s1 : State) => (Val (), s1)) s1 in
     match r3 with
     | Val _ =>
         let (r4, s4) :=
           (if code =? 0 then evaluate_success env out
            else evaluate_failure env out err) s3 in
         match r4 with
         | Val _ => (Val (code =? 0), s4)
         | Exc e => (Exc e, s4)
         end
     | Exc e => (Exc e, s3)
     end) =
    (let (r0, s2) :=
       (if code =? 0 then evaluate_success env out
        else evaluate_failure env out err) (after_unlink env s1) in
     match r0 with
     | Val _ => (Val (code =? 0), s2)
     | Exc e => (Exc e, s2)
     end)).
  { intros code out err s1.
    unfold try_except, unlink, after_unlink, path_exists, mbind, M_bind, os_error,
      raise, modify_state.
    destruct (negb (bool_decide (temp_client_name env ∈ files s1))
              || fs_refuses env OpUnlink (temp_client_name env)); reflexivity. }
  destruct (bool_decide (wd ∈ files s)) eqn:Hwd.
  - rewrite Hmark, Hclient. rewrite !log_state. cbv beta iota. cbn [fst snd]. align_run.
    destruct (run_command env args _ _ None _)
      as [[[[code out] err]|e] s1]; [|reflexivity].
    apply Hend.
  - simpl in Hdir. apply negb_true_iff in Hdir.
    rewrite Hdir. rewrite !log_state. cbn [fst snd files set_files].
    rewrite Hmark, Hclient. rewrite !log_state. cbv beta iota. cbn [fst snd]. align_run.
    destruct (run_command env args _ _ None _)
      as [[[[code out] err]|e] s1]; [|reflexivity].
    apply Hend.
Qed.

Lemma split_aux_nonempty sep k cur s : Py.split_aux sep k cur s <> [].
Proof.
  revert k cur. induction s as [|c r IH]; intros k cur; cbn [Py.split_aux].
  - congruence.
  - destruct k; [|apply IH].
    destruct (String.prefix sep (String c r)); [congruence | apply IH].
Qed.

(** A text that contains the separator splits into at least two pieces. *)
Lemma split_str_two c0 sep0 s :
  Py.contains (String c0 sep0) s = true ->
  exists a b rest, Py.split_str (String c0 sep0) s = a :: b :: rest.
Proof.
  unfold Py.split_str. generalize EmptyString as cur.
  induction s as [|c r IH]; intros cur Hc.
  - simpl in Hc. discriminate.
  - cbn [Py.contains] in Hc. cbn [Py.split_aux].
    destruct (String.prefix (String c0 sep0) (String c r)).
    + pose proof (split_aux_nonempty (String c0 sep0)
                    (String.length (String c0 sep0) - 1) EmptyString r) as Hne.
      destruct (Py.split_aux _ _ _ r) as [|b rest]; [contradiction|].
      eauto.
    + simpl in Hc. apply IH. exact Hc.
Qed.

Lemma tools_text_eq out s :
  Py.contains "Tools available:" out = true ->
  tools_text out s = (Val (tools_str_of out), s).
Proof.
  intros Hc. unfold tools_text, tools_str_of.
  destruct (split_str_two _ _ _ Hc) as (a & b & rest & Hs).
  rewrite Hs. reflexivity.
Qed.

Lemma existsb_is_str t tools :
  existsb (is_str t) (map JStr tools) = existsb (String.eqb t) tools.
Proof. induction tools as [|x l IH]; simpl; [reflexivity | rewrite IH; reflexivity]. Qed.

Lemma all_strs_map tools : all_strs (map JStr tools) = Some tools.
Proof. induction tools as [|x l IH]; simpl; [reflexivity | rewrite IH; reflexivity]. Qed.

(** The list comprehension over a decoded list of strings is the filter
    of the expected names. *)
Lemma missing_from_list expected tools s :
  missing_from expected (JList (map JStr tools)) s
  = (Val (List.filter (fun t => negb (existsb (String.eqb t) tools)) expected), s).
Proof.
  induction expected as [|t rest IH]; [reflexivity|].
  cbn [missing_from py_in]. unfold mbind, M_bind, mret, M_ret in *.
  rewrite IH. rewrite existsb_is_str. cbn [List.filter].
  destruct (existsb (String.eqb t) tools); reflexivity.
Qed.

(** A value [len] and [join] accept never makes the membership tests
    raise. *)
Lemma missing_from_returns expected v names s :
  tool_names v = Some names ->
  exists l, missing_from expected v s = (Val l, s).
Proof.
  intros Hn. induction expected as [|t rest IH]; [eexists; reflexivity|].
  destruct IH as [l IH]. cbn [missing_from]. unfold mbind, M_bind, mret, M_ret in *.
  destruct v; try discriminate Hn; cbn [py_in]; unfold mret, M_ret;
    rewrite IH; eexists; reflexivity.
Qed.

(** When the text cannot be parsed into a capability list, the body of the
    [try] raises before it logs anything. *)
Lemma check_tools_try_unparsed env text s :
  parsed_tools env text = None ->
  exists e, check_tools_try env text s = (Exc e, s).
Proof.
  unfold parsed_tools, check_tools_try, json_loads_call, mbind, M_bind.
  destruct (json_loads env text) as [v|]; [|eexists; reflexivity].
  destruct v as [| b | n | str | items | kv]; cbn [tool_names]; intros H;
    try discriminate H; try (eexists; reflexivity).
  destruct (all_strs items) eqn:E; [discriminate H|].
  unfold py_len, py_join, mret, M_ret. rewrite E. eexists. reflexivity.
Qed.

(** [evaluate_success] always returns: the bare [except] takes whatever the
    [try] raises. *)
Lemma evaluate_success_returns env out s :
  fst (evaluate_success env out s) = Val tt.
Proof.
  unfold evaluate_success, mbind, M_bind. rewrite log_state.
  destruct (Py.contains "Tools available:" out) eqn:Hc; [|reflexivity].
  rewrite (tools_text_eq _ _ Hc). unfold try_except.
  destruct (check_tools_try env (tools_str_of out) _) as [[[]|e] s1]; reflexivity.
Qed.

Lemma evaluate_failure_returns env out err s :
  fst (evaluate_failure env out err s) = Val tt.
Proof.
  unfold evaluate_failure, mbind, M_bind. rewrite log_state.
  apply analyze_errors_returns.
Qed.

Lemma appended_app s s' l :
  checks (diag s') = checks (diag s) ++ l -> appended s s' = map entry_view l.
Proof.
  intros H. unfold appended. rewrite H, List.skipn_app, List.skipn_all, Nat.sub_diag.
  reflexivity.
Qed.

Lemma warnings_in_app l1 l2 :
  warnings_in (l1 ++ l2) = (warnings_in l1 + warnings_in l2)%nat.
Proof. unfold warnings_in. rewrite List.filter_app, List.length_app. reflexivity. Qed.

Lemma diag_after_unlink env s : diag (after_unlink env s) = diag s.
Proof. unfold after_unlink. destruct (_ || _); reflexivity. Qed.

(** The ledger when the probe starts evaluating: INFO entries only. *)
Lemma probe_ran_checks env sp wd s c :
  exists l,
    checks (diag (probe_ran env sp wd s c)) = checks (diag s) ++ l
    /\ warnings_in (map entry_view l) = O
    /\ issues_found (diag (probe_ran env sp wd s c)) = issues_found (diag s)
    /\ recommendations (diag (probe_ran env sp wd s c)) = recommendations (diag s).
Proof.
  unfold probe_ran. rewrite diag_after_unlink. unfold probe_ready.
  destruct (bool_decide (wd ∈ files s)); rewrite !log_state; simpl;
    rewrite <- ?app_assoc; eexists; (split; [reflexivity | split; [reflexivity | auto]]).
Qed.

(** A probe whose client ran to its end with code 0. *)
Lemma probe_success_eq env args sp wd s out err :
  sp <> "" ->
  setup_allowed env wd s = true ->
  client_completion env args sp wd s = Completed 0 out err ->
  test_mcp_server_connection env args (Some sp) wd s =
    (Val true,
     snd (evaluate_success env out (probe_ran env sp wd s (Completed 0 out err)))).
Proof.
  intros Hsp Hok Hc. rewrite (probe_eq _ _ _ _ _ Hsp Hok).
  rewrite run_command_eq. cbv zeta.
  unfold client_completion, completion_of in Hc. rewrite Hc.
  cbn [Z.eqb].
  pose proof (evaluate_success_returns env out
                (probe_ran env sp wd s (Completed 0 out err))) as Hr.
  unfold probe_ran in *.
  destruct (evaluate_success env out _) as [[[]|e] s2]; [reflexivity|].
  simpl in Hr. discriminate.
Qed.

(** [evaluate_success] when the text after the marker cannot be parsed. *)
Lemma evaluate_success_unparsed env out s :
  Py.contains "Tools available:" out = true ->
  parsed_tools env (tools_str_of out) = None ->
  evaluate_success env out s =
    log env "WARNING" "Could not parse tools list" (Some (PText (tools_str_of out)))
      (snd (log env "SUCCESS"
              ("Connected to MCP server successfully in " +:+ elapsed_text env +:+ "s")
              (Some (PText out)) s)).
Proof.
  intros Hc Hp. unfold evaluate_success, mbind, M_bind.
  rewrite (log_state env "SUCCESS"). cbn [snd]. rewrite Hc.
  rewrite (tools_text_eq _ _ Hc). unfold try_except.
  destruct (check_tools_try_unparsed env (tools_str_of out)
              (snd (log env "SUCCESS"
                      ("Connected to MCP server successfully in "
                         +:+ elapsed_text env +:+ "s")
                      (Some (PText out)) s)) Hp) as [e He].
  rewrite log_state in He. cbn [snd] in He. rewrite He. reflexivity.
Qed.

(** C7. The probe returns exactly [code == 0] for the code the runner
    returned for the client.  When the client succeeded, its output has the
    marker and the text after it cannot be parsed into a capability list,
    the probe logs SUCCESS and then one WARNING "Could not parse tools list"
    carrying the raw text; that is the only WARNING of the probe, and the
    probe still returns true. *)
Theorem C7_probe_success_is_exit_code
    (env : Env) (args : Args) (sp wd : string) (s : State) :
  sp <> "" ->
  setup_allowed env wd s = true ->
  (forall code out err s1,
     run_command env args (probe_command env sp wd) (Some (timeout args * 2)) None
       (probe_ready env wd s) = (Val (code, out, err), s1) ->
     fst (test_mcp_server_connection env args (Some sp) wd s) = Val (code =? 0))
  /\ (forall out err,
        client_completion env args sp wd s = Completed 0 out err ->
        Py.contains "Tools available:" out = true ->
        parsed_tools env (tools_str_of out) = None ->
        let r := test_mcp_server_connection env args (Some sp) wd s in
        fst r = Val true
        /\ appended (probe_ran env sp wd s (Completed 0 out err)) (snd r)
           = [ ("SUCCESS",
                "Connected to MCP server successfully in " +:+ elapsed_text env +:+ "s",
                Some (PText out));
               ("WARNING", "Could not parse tools list",
                Some (PText (tools_str_of out))) ]
        /\ warnings_in (appended s (snd r)) = 1%nat
        /\ issues_found (diag (snd r)) = issues_found (diag s) + 1).
Proof.
  intros Hsp Hok. split.
  - intros code out err s1 Hrun. rewrite (probe_eq _ _ _ _ _ Hsp Hok), Hrun.
    destruct (code =? 0).
    + pose proof (evaluate_success_returns env out (after_unlink env s1)) as Hr.
      destruct (evaluate_success env out _) as [[[]|e] s2]; [reflexivity|].
      simpl in Hr. discriminate.
    + pose proof (evaluate_failure_returns env out err (after_unlink env s1)) as Hr.
      destruct (evaluate_failure env out err _) as [[[]|e] s2]; [reflexivity|].
      simpl in Hr. discriminate.
  - intros out err Hc Hm Hp. cbv zeta.
    rewrite (probe_success_eq _ _ _ _ _ _ _ Hsp Hok Hc). cbn [fst snd].
    rewrite (evaluate_success_unparsed _ _ _ Hm Hp).
    destruct (probe_ran_checks env sp wd s (Completed 0 out err))
      as (l & Hl & Hw & Hi & _).
    set (ran := probe_ran env sp wd s (Completed 0 out err)) in *.
    rewrite !log_state. cbn [fst snd diag checks issues_found clock_reads].
    split; [reflexivity|]. split; [|split].
    + erewrite appended_app; [|cbn [diag checks]; rewrite <- app_assoc; reflexivity].
      reflexivity.
    + erewrite appended_app;
        [|cbn [diag checks]; rewrite Hl, <- !app_assoc; reflexivity].
      rewrite map_app, warnings_in_app, Hw. reflexivity.
    + rewrite Hi. reflexivity.
Qed.

Lemma C7_probe_success_is_exit_code_witness :
  fst (test_mcp_server_connection World.garbled World.default_args
         (Some World.server_abs) World.work (initial_state World.garbled))
  = Val true.
Proof.
  refine (proj1 (proj2 (C7_probe_success_is_exit_code World.garbled World.default_args
                          World.server_abs World.work (initial_state World.garbled) _ _)
                   (World.client_stdout "[object Object]") "" _ _ _)).
  - discriminate.
  - vm_compute. reflexivity.
  - reflexivity.
  - reflexivity.
  - reflexivity.
Defined.

(** [evaluate_success] when the text after the marker decodes to a list of
    names. *)
Lemma evaluate_success_list env out tools s :
  Py.contains "Tools available:" out = true ->
  json_loads env (tools_str_of out) = Some (JList (map JStr tools)) ->
  evaluate_success env out s =
    let s1 :=
      snd (log env "SUCCESS"
             ("Connected to MCP server successfully in " +:+ elapsed_text env +:+ "s")
             (Some (PText out)) s) in
    let s2 :=
      snd (log env "INFO"
             ("Server offers " +:+ Py.str_of_int (Z.of_nat (length tools))
                +:+ " tools: " +:+ Py.join ", " tools) None s1) in
    match missing_of tools with
    | [] => (Val tt, s2)
    | m =>
        recommend ("Implement missing tools: " +:+ Py.join ", " m)
          (snd (log env "WARNING"
                  ("Missing expected tools: " +:+ Py.join ", " m) None s2))
    end.
Proof.
  intros Hc Hj. cbv zeta. unfold evaluate_success, mbind, M_bind.
  rewrite (log_state env "SUCCESS"). cbn [snd]. rewrite Hc.
  rewrite (tools_text_eq _ _ Hc). unfold try_except, check_tools_try, mbind, M_bind.
  unfold json_loads_call. rewrite Hj.
  unfold mret, M_ret. cbv beta iota.
  unfold py_len, py_join. rewrite all_strs_map, length_map.
  unfold mret, M_ret. cbv beta iota.
  rewrite (log_state env "INFO"). cbv beta iota. rewrite missing_from_list.
  fold (missing_of tools).
  destruct (missing_of tools) as [|t m]; [reflexivity|].
  rewrite !(log_state env "WARNING"). reflexivity.
Qed.

Lemma existsb_eqb_In t tools :
  existsb (String.eqb t) tools = true <-> In t tools.
Proof.
  rewrite List.existsb_exists. split.
  - intros (x & Hin & Heq). apply String.eqb_eq in Heq. subst x. exact Hin.
  - intros Hin. exists t. split; [exact Hin | apply String.eqb_refl].
Qed.

(** [missing_of] is the expected set minus the discovered names. *)
Lemma missing_of_In t tools :
  In t (missing_of tools) <-> In t expected_tools /\ ~ In t tools.
Proof.
  unfold missing_of. rewrite List.filter_In, negb_true_iff.
  rewrite <- (existsb_eqb_In t tools).
  destruct (existsb (String.eqb t) tools); intuition congruence.
Qed.

(** C4. When the client succeeded, its output has the marker and the text
    after it decodes to a list of names, the probe logs SUCCESS and the INFO
    entry with the count and the names; the missing tools are the expected
    tools bash, fileRead, fileWrite that are not in the list, in that order;
    when some are missing the probe logs exactly one WARNING and adds exactly
    one recommendation, each listing them joined by ", "; otherwise it logs
    no WARNING and adds no recommendation.  For the list bash, fileRead the
    missing tools are exactly fileWrite. *)
Theorem C4_missing_tools
    (env : Env) (args : Args) (sp wd : string) (s : State)
    (out err : string) (tools : list string) :
  sp <> "" ->
  setup_allowed env wd s = true ->
  client_completion env args sp wd s = Completed 0 out err ->
  Py.contains "Tools available:" out = true ->
  json_loads env (tools_str_of out) = Some (JList (map JStr tools)) ->
  let r := test_mcp_server_connection env args (Some sp) wd s in
  let missing := missing_of tools in
  fst r = Val true
  /\ (forall t, In t missing <-> In t expected_tools /\ ~ In t tools)
  /\ missing = List.filter (fun t => negb (existsb (String.eqb t) tools))
                 ["bash"; "fileRead"; "fileWrite"]
  /\ appended (probe_ran env sp wd s (Completed 0 out err)) (snd r)
     = [ ("SUCCESS",
          "Connected to MCP server successfully in " +:+ elapsed_text env +:+ "s",
          Some (PText out));
         ("INFO",
          "Server offers " +:+ Py.str_of_int (Z.of_nat (length tools))
            +:+ " tools: " +:+ Py.join ", " tools, None) ]
       ++ match missing with
          | [] => []
          | _ => [("WARNING", "Missing expected tools: " +:+ Py.join ", " missing, None)]
          end
  /\ recommendations (diag (snd r))
     = recommendations (diag s)
       ++ match missing with
          | [] => []
          | _ => ["Implement missing tools: " +:+ Py.join ", " missing]
          end
  /\ warnings_in (appended s (snd r))
     = match missing with [] => 0%nat | _ => 1%nat end
  /\ (tools = ["bash"; "fileRead"] -> missing = ["fileWrite"]).
Proof.
  intros Hsp Hok Hc Hm Hj. cbv zeta.
  rewrite (probe_success_eq _ _ _ _ _ _ _ Hsp Hok Hc). cbn [fst snd].
  rewrite (evaluate_success_list _ _ _ _ Hm Hj). cbv zeta.
  destruct (probe_ran_checks env sp wd s (Completed 0 out err))
    as (l & Hl & Hw & Hi & Hrec).
  set (ran := probe_ran env sp wd s (Completed 0 out err)) in *.
  split; [reflexivity|]. split; [intros t; apply missing_of_In|]. split; [reflexivity|].
  split; [|split; [|split]].
  - destruct (missing_of tools) as [|t m]; rewrite !log_state;
      (erewrite appended_app;
       [|cbn [snd recommend modify_diag modify_state set_diag diag checks];
         rewrite <- ?app_assoc; reflexivity]); reflexivity.
  - destruct (missing_of tools) as [|t m]; rewrite !log_state;
      cbn [snd recommend modify_diag modify_state set_diag diag recommendations];
      rewrite Hrec, ?List.app_nil_r; reflexivity.
  - destruct (missing_of tools) as [|t m]; rewrite !log_state;
      (erewrite appended_app;
       [|cbn [snd recommend modify_diag modify_state set_diag diag checks];
         rewrite Hl, <- ?app_assoc; reflexivity]);
      rewrite map_app, warnings_in_app, Hw; reflexivity.
  - intros ->. reflexivity.
Qed.

Lemma C4_missing_tools_witness :
  appended
    (probe_ran World.lists_two World.server_abs World.work
       (initial_state World.lists_two)
       (Completed 0 (World.client_stdout World.two_tools_text) ""))
    (snd (test_mcp_server_connection World.lists_two World.default_args
            (Some World.server_abs) World.work (initial_state World.lists_two)))
  = [ ("SUCCESS", "Connected to MCP server successfully in 0.42s",
       Some (PText (World.client_stdout World.two_tools_text)));
      ("INFO", "Server offers 2 tools: bash, fileRead", None);
      ("WARNING", "Missing expected tools: fileWrite", None) ].
Proof.
  refine (proj1 (proj2 (proj2 (proj2
            (C4_missing_tools World.lists_two World.default_args
               World.server_abs World.work (initial_state World.lists_two)
               (World.client_stdout World.two_tools_text) ""
               ["bash"; "fileRead"] _ _ _ _ _))))).
  - discriminate.
  - vm_compute. reflexivity.
  - reflexivity.
  - reflexivity.
  - reflexivity.
Defined.

(** ** Temporary files of the probe *)

Lemma same_files_ret {A} (a : A) : same_files (mret a).
Proof. intros s. reflexivity. Qed.

Lemma same_files_raise {A} e : same_files (@raise A e).
Proof. intros s. reflexivity. Qed.

Lemma same_files_bind {A B} (m : M A) (f : A -> M B) :
  same_files m -> (forall a, same_files (f a)) -> same_files (m ≫= f).
Proof.
  intros Hm Hf s. unfold mbind, M_bind. specialize (Hm s).
  destruct (m s) as [[a|e] s1]; simpl in *; [rewrite Hf|]; exact Hm.
Qed.

Lemma same_files_try {A} (m : M A) (h : exn -> M A) :
  same_files m -> (forall e, same_files (h e)) -> same_files (try_except m h).
Proof.
  intros Hm Hh s. unfold try_except. specialize (Hm s).
  destruct (m s) as [[a|e] s1]; simpl in *; [|rewrite Hh]; exact Hm.
Qed.

Lemma same_files_log env lvl msg payload : same_files (log env lvl msg payload).
Proof. intros s. reflexivity. Qed.

Lemma same_files_recommend text : same_files (recommend text).
Proof. intros s. reflexivity. Qed.

Ltac same_files_step :=
  first
    [ apply same_files_ret | apply same_files_log | apply same_files_recommend
    | apply same_files_raise
    | apply same_files_bind; [| intros ?]
    | apply same_files_try; [| intros ?]
    | match goal with
      | |- same_files (if ?b then _ else _) => destruct b
      | |- same_files (match ?x with _ => _ end) => destruct x
      end ].

Lemma same_files_py_in k v : same_files (py_in k v).
Proof. unfold py_in, type_error. repeat same_files_step. Qed.

Lemma same_files_missing_from expected tools : same_files (missing_from expected tools).
Proof.
  induction expected as [|t rest IH]; simpl;
    repeat first [apply IH | apply same_files_py_in | same_files_step].
Qed.

Lemma same_files_check_tools_try env text : same_files (check_tools_try env text).
Proof.
  unfold check_tools_try, json_loads_call, py_len, py_join, type_error.
  repeat first [apply same_files_missing_from | same_files_step].
Qed.

Lemma same_files_evaluate_success env out : same_files (evaluate_success env out).
Proof.
  unfold evaluate_success, tools_text.
  repeat first [apply same_files_check_tools_try | same_files_step].
Qed.

Lemma same_files_evaluate_failure env out err :
  same_files (evaluate_failure env out err).
Proof. unfold evaluate_failure, analyze_errors. repeat same_files_step. Qed.

(** The files when the probe starts the client. *)
Lemma files_probe_ready env wd s :
  files (probe_ready env wd s)
  = {[temp_client_name env]} ∪ ({[marker_path wd]}
      ∪ (if bool_decide (wd ∈ files s) then files s else {[wd]} ∪ files s)).
Proof.
  unfold probe_ready. destruct (bool_decide (wd ∈ files s)); reflexivity.
Qed.

(** The files when the probe evaluates the outcome. *)
Lemma files_probe_ran env sp wd s c :
  files (probe_ran env sp wd s c)
  = if fs_refuses env OpUnlink (temp_client_name env)
    then files (probe_ready env wd s)
    else files (probe_ready env wd s) ∖ {[temp_client_name env]}.
Proof.
  unfold probe_ran, after_unlink.
  rewrite log_state. cbn [snd add_run files].
  assert (Hin : bool_decide (temp_client_name env ∈ files (probe_ready env wd s)) = true).
  { apply bool_decide_eq_true. rewrite files_probe_ready. set_solver. }
  rewrite Hin. cbn [negb orb].
  destruct (fs_refuses env OpUnlink (temp_client_name env)); reflexivity.
Qed.

(** A probe whose runner returned for the client ends in the state its
    evaluation leaves. *)
Lemma probe_returns env args sp wd s :
  sp <> "" ->
  setup_allowed env wd s = true ->
  client_completion env args sp wd s <> Interrupted ->
  exists b s',
    test_mcp_server_connection env args (Some sp) wd s = (Val b, s')
    /\ files s' = files (probe_ran env sp wd s (client_completion env args sp wd s)).
Proof.
  intros Hsp Hok Hc. rewrite (probe_eq _ _ _ _ _ Hsp Hok), run_command_eq. cbv zeta.
  unfold client_completion, completion_of, probe_ran in *.
  destruct (subprocess_run env _ _ None _) as [rc out err| |cls msg|];
    [| | |contradiction]; rewrite ?log_state; cbn [snd].
  - destruct (rc =? 0).
    + pose proof (evaluate_success_returns env out) as Hr.
      pose proof (same_files_evaluate_success env out) as Hf.
      match goal with |- context [evaluate_success env out ?st] =>
        specialize (Hr st); specialize (Hf st);
        destruct (evaluate_success env out st) as [[[]|e] s2] end;
        [|discriminate Hr].
      do 2 eexists. split; [reflexivity | exact Hf].
    + pose proof (evaluate_failure_returns env out err) as Hr.
      pose proof (same_files_evaluate_failure env out err) as Hf.
      match goal with |- context [evaluate_failure env out err ?st] =>
        specialize (Hr st); specialize (Hf st);
        destruct (evaluate_failure env out err st) as [[[]|e] s2] end;
        [|discriminate Hr].
      do 2 eexists. split; [reflexivity | exact Hf].
  - cbn [Z.eqb].
    pose proof (evaluate_failure_returns env ""
                  ("Timed out after "
                     +:+ Py.str_of_int (int_or (Some (timeout args * 2)) (timeout args))
                     +:+ " seconds")) as Hr.
    pose proof (same_files_evaluate_failure env ""
                  ("Timed out after "
                     +:+ Py.str_of_int (int_or (Some (timeout args * 2)) (timeout args))
                     +:+ " seconds")) as Hf.
    match goal with |- context [evaluate_failure env _ _ ?st] =>
      specialize (Hr st); specialize (Hf st);
      destruct (evaluate_failure env _ _ st) as [[[]|e] s2] end;
      [|discriminate Hr].
    do 2 eexists. split; [reflexivity|]. cbn [snd] in Hf. rewrite Hf.
    unfold after_unlink. cbn [files]. destruct (_ || _); reflexivity.
  - cbn [Z.eqb].
    pose proof (evaluate_failure_returns env "" msg) as Hr.
    pose proof (same_files_evaluate_failure env "" msg) as Hf.
    match goal with |- context [evaluate_failure env _ _ ?st] =>
      specialize (Hr st); specialize (Hf st);
      destruct (evaluate_failure env _ _ st) as [[[]|e] s2] end;
      [|discriminate Hr].
    do 2 eexists. split; [reflexivity|]. cbn [snd] in Hf. rewrite Hf.
    unfold after_unlink. cbn [files]. destruct (_ || _); reflexivity.
Qed.

(** When the wait for the client is interrupted, the probe is left by the
    exception before it reaches the delete: the client file stays. *)
Lemma probe_interrupted env args sp wd s :
  sp <> "" ->
  setup_allowed env wd s = true ->
  client_completion env args sp wd s = Interrupted ->
  fst (test_mcp_server_connection env args (Some sp) wd s) = Exc KeyboardInterrupt
  /\ temp_client_name env
       ∈ files (snd (test_mcp_server_connection env args (Some sp) wd s)).
Proof.
  intros Hsp Hok Hc. rewrite (probe_eq _ _ _ _ _ Hsp Hok), run_command_eq. cbv zeta.
  unfold client_completion, completion_of in Hc. rewrite Hc.
  split; [reflexivity|]. rewrite log_state. cbn [snd add_run files].
  rewrite files_probe_ready. set_solver.
Qed.

(** C9 (as the code has it). In every probe run whose set-up went through
    and in which the runner returned for the client (with an exit code, a
    timeout or a launch failure), the client program is deleted by a
    best-effort delete before the outcome is evaluated, on the failure paths
    as on the success path, and a refused delete is ignored: the probe
    returns all the same and the file stays.  The marker file is not
    deleted: it is in the working directory when the probe returns. *)
Theorem C9_client_file_is_deleted
    (env : Env) (args : Args) (sp wd : string) (s : State) :
  sp <> "" ->
  setup_allowed env wd s = true ->
  client_completion env args sp wd s <> Interrupted ->
  temp_client_name env <> marker_path wd ->
  exists b s',
    test_mcp_server_connection env args (Some sp) wd s = (Val b, s')
    /\ marker_path wd ∈ files s'
    /\ (fs_refuses env OpUnlink (temp_client_name env) = false ->
        temp_client_name env ∉ files s')
    /\ (fs_refuses env OpUnlink (temp_client_name env) = true ->
        temp_client_name env ∈ files s').
Proof.
  intros Hsp Hok Hc Hne.
  destruct (probe_returns env args sp wd s Hsp Hok Hc) as (b & s' & Hrun & Hfiles).
  exists b, s'. split; [exact Hrun|].
  rewrite Hfiles, files_probe_ran, files_probe_ready. clear Hrun Hfiles.
  destruct (fs_refuses env OpUnlink (temp_client_name env)).
  - split; [set_solver|]. split; [discriminate | intros _; set_solver].
  - split; [set_solver|]. split; [|discriminate].
    intros _. rewrite elem_of_difference, elem_of_singleton.
    intros [_ Hn]. apply Hn. reflexivity.
Qed.

Lemma C9_client_file_is_deleted_witness :
  exists b s',
    test_mcp_server_connection World.lists_two World.default_args
      (Some World.server_abs) World.work (initial_state World.lists_two) = (Val b, s')
    /\ marker_path World.work ∈ files s'
    /\ (fs_refuses World.lists_two OpUnlink (temp_client_name World.lists_two) = false ->
        temp_client_name World.lists_two ∉ files s')
    /\ (fs_refuses World.lists_two OpUnlink (temp_client_name World.lists_two) = true ->
        temp_client_name World.lists_two ∈ files s').
Proof.
  apply (C9_client_file_is_deleted World.lists_two World.default_args
           World.server_abs World.work (initial_state World.lists_two)).
  - discriminate.
  - vm_compute. reflexivity.
  - discriminate.
  - discriminate.
Defined.

(** C9 as stated fails: after a probe that succeeded, with nothing refused
    by the file system, the marker file the probe wrote is still there. *)
Lemma C9_marker_file_is_left :
  ~ temp_files_removed World.lists_two World.default_args
      World.server_abs World.work (initial_state World.lists_two).
Proof.
  intros [Hmarker _]. refine (Hmarker _ _).
  - apply (bool_decide_eq_false_1 _). vm_compute. reflexivity.
  - apply (bool_decide_eq_true_1 _). vm_compute. reflexivity.
Qed.

(** ** Exit status *)

Lemma conclude_eq env args ok s :
  conclude env args ok s =
    let p := report_path_of env (report args) s in
    if fs_refuses env OpWrite p
    then (Exc (Error OSError p), at_dump env (report args) s)
    else
      let s' :=
        snd (log env "INFO" ("Diagnostic report saved to: " +:+ p) None
               (dumped p (at_dump env (report args) s))) in
      if ok then (Val tt, s') else (Exc (SystemExit 1), s').
Proof.
  unfold conclude, mbind, M_bind. rewrite generate_report_eq. cbv zeta.
  destruct (fs_refuses env OpWrite _); [reflexivity|].
  rewrite log_state. destruct ok; reflexivity.
Qed.

(** The gate when a prerequisite failed: one ERROR entry, no probe. *)
Lemma gated_probe_closed env args wd n k sp s :
  n && k && truthy sp = false ->
  gated_probe env args wd n k sp s
  = (Val false,
     snd (log env "ERROR" "Cannot test MCP server without prerequisites" None s)).
Proof. intros H. unfold gated_probe. rewrite H. reflexivity. Qed.

Lemma severity_of_positive n :
  1 <= n -> severity_of n = "WARNING" \/ severity_of n = "CRITICAL".
Proof.
  intros Hn. unfold severity_of. destruct (Z.eqb_spec n 0); [lia|].
  destruct (n <? 3); auto.
Qed.

Lemma good_issues_nonneg s : good s -> 0 <= issues_found (diag s).
Proof. intros Hg. rewrite (good_count _ Hg). apply count_issues_nonneg. Qed.

(** [main] with the verdicts of the prerequisites known. *)
Lemma main_after_prerequisites env args wd n k sp s1 :
  prerequisites env args (initial_state env) = (Val (wd, n, k, sp), s1) ->
  main env args (initial_state env) =
    match gated_probe env args wd n k sp s1 with
    | (Val ok, s2) => conclude env args ok s2
    | (Exc e, s2) => (Exc e, s2)
    end.
Proof.
  intros Hpre. rewrite main_phases. unfold mbind, M_bind. rewrite Hpre. reflexivity.
Qed.

(** C8. The exit status of the script is 0 when [main] returns, 130 when
    it is interrupted and 1 for every other exception, [sys.exit(1)]
    included.  It is 0 only on full success: the three prerequisites held,
    the probe returned true and the report was written.  When a prerequisite
    fails, no child is started after the checks (the probe is skipped), the
    status is 1, and the report is written with severity WARNING or CRITICAL
    unless the file system refuses the report file.  When the probe runs and
    fails the status is 1. *)
Theorem C8_exit_status (env : Env) (args : Args) :
  let r := main env args (initial_state env) in
  let code := fst (script env args) in
  let final := snd (script env args) in
  match fst r with
  | Val _ => code = 0
  | Exc KeyboardInterrupt => code = 130
  | Exc _ => code = 1
  end
  /\ (code = 0 ->
      exists wd sp s1 s2 p d,
        prerequisites env args (initial_state env)
          = (Val (wd, true, true, Some sp), s1)
        /\ sp <> ""
        /\ test_mcp_server_connection env args (Some sp) wd s1 = (Val true, s2)
        /\ report_file final = Some (p, d))
  /\ (forall wd n k sp s1,
        prerequisites env args (initial_state env) = (Val (wd, n, k, sp), s1) ->
        (n && k && truthy sp = false ->
         code = 1
         /\ runs final = runs s1
         /\ (severity (diag final) = Some "WARNING"
             \/ severity (diag final) = Some "CRITICAL")
         /\ ((exists p d,
                report_file final = Some (p, d)
                /\ files final = {[p]} ∪ files s1
                /\ (severity d = Some "WARNING" \/ severity d = Some "CRITICAL"))
             \/ (exists p,
                   fst r = Exc (Error OSError p)
                   /\ fs_refuses env OpWrite p = true
                   /\ files final = files s1
                   /\ report_file final = None)))
        /\ (n && k && truthy sp = true ->
            fst (test_mcp_server_connection env args sp wd s1) = Val false ->
            code = 1)).
Proof.
  cbv zeta. unfold script. split; [|split].
  - destruct (main_cases env args) as [[_ [e [He Hne]]] | H].
    + destruct (main env args (initial_state env)) as [[[]|e'] s]; simpl in *;
        [discriminate|]. injection He as ->.
      destruct e; try reflexivity. exfalso. exact (Hne code eq_refl).
    + destruct H as (wd & n & k & sp & s1 & ok & s2 & _ & _ & _ & _ & Hr).
      rewrite Hr, conclude_eq. cbv zeta.
      destruct (fs_refuses env OpWrite _); [reflexivity|].
      destruct ok; reflexivity.
  - destruct (main_cases env args) as [[_ [e [He Hne]]] | H].
    + destruct (main env args (initial_state env)) as [[[]|e'] s]; simpl in *;
        [discriminate|]. injection He as ->.
      destruct e; simpl; try discriminate. intros ->. exfalso. exact (Hne 0 eq_refl).
    + destruct H as (wd & n & k & sp & s1 & ok & s2 & Hpre & Hgate & _ & _ & Hr).
      rewrite Hr, conclude_eq. cbv zeta.
      destruct (fs_refuses env OpWrite _) eqn:Href; [simpl; discriminate|].
      destruct ok; [|simpl; discriminate]. intros _. simpl.
      unfold gated_probe in Hgate.
      destruct (n && k && truthy sp) eqn:Hg.
      * apply andb_prop in Hg as [Hnk Hsp]. apply andb_prop in Hnk as [-> ->].
        destruct sp as [sp|]; [|discriminate Hsp].
        exists wd, sp, s1, s2. do 2 eexists.
        split; [exact Hpre|]. split.
        { intros ->. discriminate Hsp. }
        split; [exact Hgate | reflexivity].
      * unfold mbind, M_bind in Hgate. rewrite log_state in Hgate. discriminate Hgate.
  - intros wd n k sp s1 Hpre.
    rewrite (main_after_prerequisites _ _ _ _ _ _ _ Hpre). split.
    + intros Hg. rewrite (gated_probe_closed _ _ _ _ _ _ _ Hg), conclude_eq. cbv zeta.
      destruct (keeps_prerequisites env args _ (good_initial env)) as [Hgood _].
      rewrite Hpre in Hgood. cbn [snd] in Hgood.
      pose proof (good_issues_nonneg _ Hgood) as Hnn.
      assert (Hsev : severity (diag (at_dump env (report args)
                       (snd (log env "ERROR"
                               "Cannot test MCP server without prerequisites" None s1))))
                     = Some (severity_of (issues_found (diag s1) + 1))).
      { unfold at_dump. rewrite log_state. destruct (truthy (report args)); reflexivity. }
      assert (Hpos : severity_of (issues_found (diag s1) + 1) = "WARNING"
                     \/ severity_of (issues_found (diag s1) + 1) = "CRITICAL")
        by (apply severity_of_positive; lia).
      destruct (fs_refuses env OpWrite _) eqn:Href.
      * cbn [fst snd]. split; [reflexivity|]. split.
        { unfold at_dump. rewrite log_state. destruct (truthy (report args)); reflexivity. }
        split.
        { rewrite Hsev. destruct Hpos as [-> | ->]; auto. }
        right. eexists. split; [reflexivity|]. split; [exact Href|].
        unfold at_dump. rewrite log_state.
        split; [destruct (truthy (report args)); reflexivity|].
        destruct (truthy (report args)); cbn; apply Hgood.
      * cbn [fst snd]. split; [reflexivity|]. split.
        { unfold at_dump. rewrite !log_state. destruct (truthy (report args)); reflexivity. }
        split.
        { rewrite (log_state env "INFO"). cbn [snd diag severity dumped].
          rewrite Hsev. destruct Hpos as [-> | ->]; auto. }
        left. do 2 eexists. rewrite (log_state env "INFO").
        cbn [snd report_file files dumped]. split; [reflexivity|]. split.
        { unfold at_dump. rewrite log_state. destruct (truthy (report args)); reflexivity. }
        rewrite Hsev. destruct Hpos as [-> | ->]; auto.
    + intros Hg Hfail. unfold gated_probe. rewrite Hg.
      destruct (test_mcp_server_connection env args sp wd s1) as [[b|e] s2];
        simpl in Hfail; [|discriminate]. injection Hfail as ->.
      rewrite conclude_eq. cbv zeta.
      destruct (fs_refuses env OpWrite _); reflexivity.
Qed.

Lemma C8_exit_status_witness :
  fst (script World.no_node World.default_args) = 1
  /\ fst (script World.client_fails World.default_args) = 1
  /\ exists wd sp s1 s2 p d,
       prerequisites World.two_tools World.default_args (initial_state World.two_tools)
         = (Val (wd, true, true, Some sp), s1)
       /\ sp <> ""
       /\ test_mcp_server_connection World.two_tools World.default_args (Some sp) wd s1
          = (Val true, s2)
       /\ report_file (snd (script World.two_tools World.default_args)) = Some (p, d).
Proof.
  split; [|split].
  - refine (proj1 (proj1 (proj2 (proj2 (C8_exit_status World.no_node World.default_args))
                            "/tmp/mcp-diagnostic-0" false true
                            (Some "/project/dist/entrypoints/mcp.js")
                            (snd (prerequisites World.no_node World.default_args
                                    (initial_state World.no_node))) _) _)).
    + vm_compute. reflexivity.
    + reflexivity.
  - refine (proj2 (proj2 (proj2 (C8_exit_status World.client_fails World.default_args))
                     "/tmp/mcp-diagnostic-0" true true
                     (Some "/project/dist/entrypoints/mcp.js")
                     (snd (prerequisites World.client_fails World.default_args
                             (initial_state World.client_fails))) _) _ _).
    + vm_compute. reflexivity.
    + reflexivity.
    + vm_compute. reflexivity.
  - apply (proj1 (proj2 (C8_exit_status World.two_tools World.default_args))).
    vm_compute. reflexivity.
Defined.

(** ** Parse failures in the prerequisite checks *)

(** A JSON decoding error in the package check is taken by the handler of
    the check: one WARNING, one recommendation, and the check returns
    false. *)
Lemma check_mcp_sdk_decode_error env args s out err :
  completion_of env args ["npm"; "list"; sdk_name; "--json"; "--depth=0"] None None s
    = Completed 0 out err ->
  Py.contains sdk_name out = true ->
  json_loads env out = None ->
  fst (check_mcp_sdk env args s) = Val false
  /\ appended s (snd (check_mcp_sdk env args s))
     = [ ("INFO",
          "Running command: npm list @modelcontextprotocol/sdk --json --depth=0", None);
         ("WARNING", sdk_name +:+ " not found or has invalid version", None) ]
  /\ recommendations (diag (snd (check_mcp_sdk env args s)))
     = recommendations (diag s) ++ ["Install " +:+ sdk_name +:+ " package"].
Proof.
  intros Hc Hs Hj. unfold check_mcp_sdk, mbind, M_bind.
  rewrite run_command_eq. cbv zeta. unfold completion_of in Hc. rewrite Hc.
  cbn [Z.eqb andb]. rewrite Hs.
  unfold try_except, check_mcp_sdk_try, json_loads_call, mbind, M_bind. rewrite Hj.
  unfold raise, mret, M_ret. cbv beta iota. rewrite !log_state.
  cbn [fst snd recommend modify_diag modify_state set_diag diag recommendations].
  split; [reflexivity|]. split; [|reflexivity].
  erewrite appended_app;
    [|cbn [diag checks add_run]; rewrite <- app_assoc; reflexivity].
  reflexivity.
Qed.

(** C6 (the code at the failing inputs). When [node --version] succeeds
    with a text whose leading component is not a number, [int()] raises
    ValueError inside [check_node_version] and nothing catches it there: the
    check raises, [main] stops, the script exits with status 1 and no report
    is written.  When [npm list] succeeds with a dependency entry without a
    version, the KeyError leaves [check_mcp_sdk], whose handler takes
    JSONDecodeError only. *)
Theorem C6_parse_failures_escape :
  fst (check_node_version World.odd_version World.default_args
         (initial_state World.odd_version))
  = Exc (Error ValueError "invalid literal for int() with base 10")
  /\ fst (main World.odd_version World.default_args (initial_state World.odd_version))
     = Exc (Error ValueError "invalid literal for int() with base 10")
  /\ fst (script World.odd_version World.default_args) = 1
  /\ report_file (snd (script World.odd_version World.default_args)) = None
  /\ fst (check_mcp_sdk World.sdk_without_version World.default_args
            (initial_state World.sdk_without_version))
     = Exc (Error KeyError "version").
Proof. repeat split; vm_compute; reflexivity. Qed.

(** ** Invariants of the whole script *)

Lemma inv_ret {A} I (a : A) : inv I (mret a).
Proof. intros s Hs. exact Hs. Qed.

Lemma inv_raise {A} I e : inv I (@raise A e).
Proof. intros s Hs. exact Hs. Qed.

Lemma inv_bind {A B} I (m : M A) (f : A -> M B) :
  inv I m -> (forall a, inv I (f a)) -> inv I (m ≫= f).
Proof.
  intros Hm Hf s Hs. unfold mbind, M_bind. specialize (Hm s Hs).
  destruct (m s) as [[a|e] s1]; [exact (Hf a s1 Hm) | exact Hm].
Qed.

Lemma inv_try {A} I (m : M A) (h : exn -> M A) :
  inv I m -> (forall e, inv I (h e)) -> inv I (try_except m h).
Proof.
  intros Hm Hh s Hs. unfold try_except. specialize (Hm s Hs).
  destruct (m s) as [[a|e] s1]; [exact Hm | exact (Hh e s1 Hm)].
Qed.

(** What [inv] gives for one run. *)
Lemma inv_run {A} I (m : M A) s : inv I m -> I s -> I (snd (m s)).
Proof.
  intros Hm Hs. specialize (Hm s Hs). destruct (m s) as [[a|e] s1]; exact Hm.
Qed.

Section Invariant.

Context (env : Env) (args : Args) (I : State -> Prop).

(** What the property has to survive: an entry logged, an issue logged
    together with its recommendation, and the updates of the other parts of
    the state. *)
Hypothesis I_log : forall lvl msg d s, I s -> I (snd (log env lvl msg d s)).
Hypothesis I_advise : forall lvl msg d text s,
  is_issue_level (Py.upper lvl) = true ->
  I s -> I (snd (recommend text (snd (log env lvl msg d s)))).
Hypothesis I_node : forall v s, I s -> I (snd (set_node_version v s)).
Hypothesis I_files : forall fs s, I s -> I (set_files fs s).
Hypothesis I_run : forall r s, I s -> I (add_run r s).
Hypothesis I_clock : forall s, I s -> I (snd (read_stamp env s)).
Hypothesis I_summarize : forall s, I s -> I (set_diag (summarize (diag s)) s).
Hypothesis I_report : forall r s,
  I s ->
  I {| diag := diag s; files := files s; clock_reads := clock_reads s;
       runs := runs s; report_file := r |}.

Lemma inv_log lvl msg d : inv I (log env lvl msg d).
Proof.
  intros s Hs. pose proof (I_log lvl msg d s Hs) as H.
  rewrite log_state in *. exact H.
Qed.

(** An issue and its recommendation, followed by the rest. *)
Lemma inv_advise {A} lvl msg d text (k : M A) :
  is_issue_level (Py.upper lvl) = true ->
  inv I k ->
  inv I (log env lvl msg d ;; recommend text ;; k).
Proof.
  intros Hl Hk s Hs. unfold mbind, M_bind.
  pose proof (I_advise lvl msg d text s Hl Hs) as H.
  rewrite log_state in *. cbn [snd] in *.
  unfold recommend, modify_diag, modify_state in *. cbn [snd] in H.
  exact (Hk _ H).
Qed.

Lemma inv_advise_last lvl msg d text :
  is_issue_level (Py.upper lvl) = true ->
  inv I (log env lvl msg d ;; recommend text).
Proof.
  intros Hl s Hs. unfold mbind, M_bind.
  pose proof (I_advise lvl msg d text s Hl Hs) as H.
  rewrite log_state in *. cbn [snd] in *.
  unfold recommend, modify_diag, modify_state in *. cbn [snd] in H.
  exact H.
Qed.

Lemma inv_set_node_version v : inv I (set_node_version v).
Proof. intros s Hs. apply (I_node v s Hs). Qed.

Lemma inv_modify_files (f : State -> gset string) :
  inv I (modify_state (fun s => set_files (f s) s)).
Proof. intros s Hs. apply I_files, Hs. Qed.

Lemma inv_path_exists p : inv I (path_exists p).
Proof. intros s Hs. exact Hs. Qed.

Lemma inv_create_path op p : inv I (create_path env op p).
Proof.
  unfold create_path, os_error. destruct (fs_refuses env op p).
  - apply inv_raise.
  - apply inv_modify_files.
Qed.

Lemma inv_read_stamp : inv I (read_stamp env).
Proof. intros s Hs. apply (I_clock s Hs). Qed.

Lemma inv_subprocess_run_call cmd cwd tmo : inv I (subprocess_run_call env cmd cwd tmo).
Proof.
  intros s Hs. unfold subprocess_run_call.
  destruct (subprocess_run env _ cmd cwd tmo); apply I_run, Hs.
Qed.

Ltac inv_step :=
  first
    [ apply inv_ret | apply inv_raise | apply inv_path_exists
    | apply inv_create_path | apply inv_read_stamp | apply inv_set_node_version
    | apply inv_subprocess_run_call | apply inv_modify_files
    | apply inv_advise; [reflexivity|]
    | apply inv_advise_last; reflexivity
    | apply inv_log
    | apply inv_bind; [| intros ?]
    | apply inv_try; [| intros ?]
    | match goal with
      | |- inv _ (if ?b then _ else _) => destruct b
      | |- inv _ (match ?x with _ => _ end) => destruct x
      end ].

Lemma inv_run_command cmd tmo cwd : inv I (run_command env args cmd tmo cwd).
Proof. unfold run_command. repeat inv_step. Qed.

Lemma inv_check_node_version : inv I (check_node_version env args).
Proof.
  unfold check_node_version. repeat first [apply inv_run_command | inv_step].
Qed.

Lemma inv_py_in k v : inv I (py_in k v).
Proof. unfold py_in, type_error. repeat inv_step. Qed.

Lemma inv_py_getitem v k : inv I (py_getitem v k).
Proof. unfold py_getitem, type_error. repeat inv_step. Qed.

Lemma inv_check_mcp_sdk : inv I (check_mcp_sdk env args).
Proof.
  unfold check_mcp_sdk, check_mcp_sdk_try, json_loads_call.
  repeat first [apply inv_run_command | apply inv_py_in | apply inv_py_getitem
               | inv_step].
Qed.

Lemma inv_find_first paths : inv I (find_first env paths).
Proof. induction paths as [|p rest IH]; simpl; repeat first [apply IH | inv_step]. Qed.

Lemma inv_find_mcp_server_file : inv I (find_mcp_server_file env).
Proof. unfold find_mcp_server_file. repeat first [apply inv_find_first | inv_step]. Qed.

Lemma inv_missing_from expected tools : inv I (missing_from expected tools).
Proof.
  induction expected as [|t rest IH]; simpl;
    repeat first [apply IH | apply inv_py_in | inv_step].
Qed.

Lemma inv_check_tools_try text : inv I (check_tools_try env text).
Proof.
  unfold check_tools_try, json_loads_call, py_len, py_join, type_error.
  repeat first [apply inv_missing_from | inv_step].
Qed.

Lemma inv_evaluate_success out : inv I (evaluate_success env out).
Proof.
  unfold evaluate_success, tools_text.
  repeat first [apply inv_check_tools_try | inv_step].
Qed.

Lemma inv_evaluate_failure out err : inv I (evaluate_failure env out err).
Proof. unfold evaluate_failure, analyze_errors. repeat inv_step. Qed.

Lemma inv_unlink p : inv I (unlink env p).
Proof. unfold unlink, os_error. repeat inv_step. Qed.

Lemma inv_test_mcp_server_connection sp wd :
  inv I (test_mcp_server_connection env args sp wd).
Proof.
  unfold test_mcp_server_connection, create_test_mcp_client.
  repeat first [apply inv_run_command | apply inv_unlink | apply inv_evaluate_success
               | apply inv_evaluate_failure | inv_step].
Qed.

Lemma inv_generate_report rp : inv I (generate_report env rp).
Proof.
  unfold generate_report, dump_report.
  repeat first
    [ inv_step
    | (intros s Hs; apply (I_summarize s Hs))
    | (intros s Hs; apply (I_report _ s Hs)) ].
Qed.

Lemma inv_main : inv I (main env args).
Proof.
  unfold main.
  repeat first
    [ apply inv_check_node_version | apply inv_check_mcp_sdk
    | apply inv_find_mcp_server_file | apply inv_test_mcp_server_connection
    | apply inv_generate_report | inv_step ].
Qed.

Lemma inv_prerequisites : inv I (prerequisites env args).
Proof.
  unfold prerequisites.
  repeat first
    [ apply inv_check_node_version | apply inv_check_mcp_sdk
    | apply inv_find_mcp_server_file | inv_step ].
Qed.

Lemma inv_gated_probe wd n k sp : inv I (gated_probe env args wd n k sp).
Proof.
  unfold gated_probe. repeat first [apply inv_test_mcp_server_connection | inv_step].
Qed.

(** The property holds of the state the script ends in. *)
Lemma inv_script : I (initial_state env) -> I (snd (script env args)).
Proof.
  intros H0. pose proof (inv_run I (main env args) _ inv_main H0) as H.
  unfold script. destruct (main env args (initial_state env)) as [[[]|e] s];
    [exact H|]. destruct e; exact H.
Qed.

End Invariant.

(** *** The ledger only grows *)

Lemma grown_refl s : grown s s.
Proof.
  split; try (exists []; rewrite List.app_nil_r; reflexivity); lia.
Qed.

Lemma grown_trans a b c : grown a b -> grown b c -> grown a c.
Proof.
  intros [[l1 H1] [r1 R1] [u1 U1] Hi1 Hc1] [[l2 H2] [r2 R2] [u2 U2] Hi2 Hc2].
  split.
  - exists (l1 ++ l2). rewrite H2, H1, <- app_assoc. reflexivity.
  - exists (r1 ++ r2). rewrite R2, R1, <- app_assoc. reflexivity.
  - exists (u1 ++ u2). rewrite U2, U1, <- app_assoc. reflexivity.
  - lia.
  - lia.
Qed.

Lemma grown_log env lvl msg d s : grown s (snd (log env lvl msg d s)).
Proof.
  rewrite log_state. split; cbn [snd diag checks recommendations runs issues_found
                                   clock_reads].
  - eexists. reflexivity.
  - exists []. rewrite List.app_nil_r. reflexivity.
  - exists []. rewrite List.app_nil_r. reflexivity.
  - destruct (is_issue_level (Py.upper lvl)); lia.
  - lia.
Qed.

Lemma grown_recommend text s : grown s (snd (recommend text s)).
Proof.
  split; cbn; try (exists []; rewrite List.app_nil_r; reflexivity); try lia.
  eexists. reflexivity.
Qed.

Lemma grown_same_ledger s s' :
  checks (diag s') = checks (diag s) ->
  recommendations (diag s') = recommendations (diag s) ->
  issues_found (diag s') = issues_found (diag s) ->
  (exists l, runs s' = runs s ++ l) ->
  (clock_reads s <= clock_reads s')%nat ->
  grown s s'.
Proof.
  intros Hc Hr Hi Hu Hk. split; try assumption; try lia.
  - exists []. rewrite List.app_nil_r. exact Hc.
  - exists []. rewrite List.app_nil_r. exact Hr.
Qed.

Ltac grown_side :=
  intros;
  (eapply grown_trans; [eassumption|]);
  first
    [ apply grown_log
    | eapply grown_trans; [apply grown_log | apply grown_recommend]
    | apply grown_same_ledger;
      first [ reflexivity | lia | cbn; lia
            | exists []; symmetry; apply List.app_nil_r
            | eexists; reflexivity ] ].

Lemma grown_main env args s0 : inv (grown s0) (main env args).
Proof. apply inv_main; grown_side. Qed.

(** X1. The functions of the script only append: after the runner, either
    prerequisite check, the server search, the probe, the report generator
    or the whole of [main], run from any state, the ledger, the
    recommendations and the record of children are the old ones extended at
    the end, and the issue counter is not smaller. *)
Theorem ledger_only_grows (env : Env) (args : Args) (s : State) :
  (forall cmd tmo cwd, grown s (snd (run_command env args cmd tmo cwd s)))
  /\ grown s (snd (check_node_version env args s))
  /\ grown s (snd (check_mcp_sdk env args s))
  /\ grown s (snd (find_mcp_server_file env s))
  /\ (forall sp wd, grown s (snd (test_mcp_server_connection env args sp wd s)))
  /\ (forall rp, grown s (snd (generate_report env rp s)))
  /\ grown s (snd (main env args s)).
Proof.
  assert (H : forall A (m : M A), inv (grown s) m -> grown s (snd (m s))).
  { intros A m Hm. apply (inv_run (grown s)); [exact Hm | apply grown_refl]. }
  split; [intros; apply H, (inv_run_command env args); grown_side|].
  split; [apply H, (inv_check_node_version env args); grown_side|].
  split; [apply H, (inv_check_mcp_sdk env args); grown_side|].
  split; [apply H, (inv_find_mcp_server_file env); grown_side|].
  split; [intros; apply H, (inv_test_mcp_server_connection env args); grown_side|].
  split; [intros; apply H, (inv_generate_report env); grown_side|].
  apply H, grown_main.
Qed.

(** *** Recommendations and issues *)

Ltac advice_side :=
  intros; unfold advice_bounded in *;
  rewrite ?log_state; cbn [snd recommend modify_diag modify_state set_diag set_files
                             add_run read_stamp set_node_version summarize
                             diag recommendations issues_found] in *;
  rewrite ?List.length_app; cbn [length];
  repeat match goal with
         | H : is_issue_level _ = true |- _ => rewrite H
         | |- context [if is_issue_level ?l then _ else _] =>
             destruct (is_issue_level l)
         end;
  lia.

Lemma advice_bounded_prerequisites env args :
  inv advice_bounded (prerequisites env args).
Proof. apply inv_prerequisites; advice_side. Qed.

Lemma advice_bounded_gated_probe env args wd n k sp :
  inv advice_bounded (gated_probe env args wd n k sp).
Proof. apply inv_gated_probe; advice_side. Qed.

(** Where a written report comes from: the checks returned their verdicts,
    the gate returned, and the dictionary dumped is the one summarised in the
    state the gate left. *)
Lemma report_written env args p d :
  report_file (snd (script env args)) = Some (p, d) ->
  exists wd n k sp s1 ok s2,
    prerequisites env args (initial_state env) = (Val (wd, n, k, sp), s1)
    /\ gated_probe env args wd n k sp s1 = (Val ok, s2)
    /\ good s1 /\ good s2
    /\ d = diag (at_dump env (report args) s2)
    /\ fst (script env args) = (if ok then 0 else 1).
Proof.
  unfold script.
  destruct (main_cases env args) as [[Hg [e [He Hne]]] | H].
  - destruct (main env args (initial_state env)) as [[[]|e'] s]; simpl in *;
      [discriminate He|].
    assert (Hrep : report_file s = None) by apply Hg.
    destruct e'; simpl; rewrite Hrep; discriminate.
  - destruct H as (wd & n & k & sp & s1 & ok & s2 & Hpre & Hgate & Hg1 & Hg2 & Hr).
    rewrite Hr, conclude_eq. cbv zeta.
    destruct (fs_refuses env OpWrite _).
    + cbn [fst snd]. assert (Hrep : report_file (at_dump env (report args) s2) = None).
      { unfold at_dump. destruct (truthy (report args)); apply Hg2. }
      rewrite Hrep. discriminate.
    + rewrite log_state. intros Hd.
      exists wd, n, k, sp, s1, ok, s2.
      repeat (split; [assumption|]).
      destruct ok; cbn [fst snd report_file dumped] in *; injection Hd as _ <-;
        split; reflexivity.
Qed.

(** X2. In every state the script ends in, and in every report it writes,
    the recommendations are at most as many as the issues counted; a report
    with no issue carries no recommendation. *)
Theorem recommendations_bounded_by_issues (env : Env) (args : Args) :
  advice_bounded (snd (script env args))
  /\ forall p d,
       report_file (snd (script env args)) = Some (p, d) ->
       Z.of_nat (length (recommendations d)) <= issues_found d
       /\ (issues_found d = 0 -> recommendations d = []).
Proof.
  split.
  - apply inv_script; try advice_side. unfold advice_bounded. simpl. lia.
  - intros p d Hd.
    destruct (report_written env args p d Hd)
      as (wd & n & k & sp & s1 & ok & s2 & Hpre & Hgate & _ & _ & -> & _).
    assert (H0 : advice_bounded (initial_state env)) by (unfold advice_bounded; simpl; lia).
    pose proof (inv_run _ _ _ (advice_bounded_prerequisites env args) H0) as H1.
    rewrite Hpre in H1. cbn [snd] in H1.
    pose proof (inv_run _ _ _ (advice_bounded_gated_probe env args wd n k sp) H1) as H2.
    rewrite Hgate in H2. cbn [snd] in H2. unfold advice_bounded in H2.
    assert (Hr : recommendations (diag (at_dump env (report args) s2))
                 = recommendations (diag s2))
      by (unfold at_dump; destruct (truthy (report args)); reflexivity).
    assert (Hi : issues_found (diag (at_dump env (report args) s2))
                 = issues_found (diag s2))
      by (unfold at_dump; destruct (truthy (report args)); reflexivity).
    rewrite Hr, Hi. split; [exact H2|].
    intros Hz. destruct (recommendations (diag s2)); [reflexivity|].
    simpl in H2. lia.
Qed.

Lemma recommendations_bounded_by_issues_witness :
  exists p d,
    report_file (snd (script World.two_tools World.default_args)) = Some (p, d)
    /\ Z.of_nat (length (recommendations d)) <= issues_found d.
Proof.
  eexists. eexists. split.
  - vm_compute. reflexivity.
  - apply (proj2 (recommendations_bounded_by_issues World.two_tools World.default_args)
             "mcp-diagnostic-report-20240101_000000.json").
    vm_compute. reflexivity.
Defined.

(** *** A probe that cannot be set up *)

Lemma issues_probe_ready env wd s :
  issues_found (diag (probe_ready env wd s)) = issues_found (diag s).
Proof.
  unfold probe_ready. destruct (bool_decide (wd ∈ files s)); rewrite !log_state;
    reflexivity.
Qed.

(** X3. When the file system refuses the working directory, the marker
    file or the client file, the probe raises the OSError: it returns no
    verdict, starts no child and counts no issue. *)
Theorem probe_setup_refused (env : Env) (args : Args) (sp wd : string) (s : State) :
  sp <> "" ->
  setup_allowed env wd s = false ->
  exists p s',
    test_mcp_server_connection env args (Some sp) wd s = (Exc (Error OSError p), s')
    /\ (fs_refuses env OpMkdir p = true \/ fs_refuses env OpWrite p = true)
    /\ runs s' = runs s
    /\ issues_found (diag s') = issues_found (diag s).
Proof.
  intros Hsp Hno. unfold setup_allowed in Hno.
  unfold test_mcp_server_connection.
  destruct (String.eqb_spec sp ""); [contradiction|].
  unfold create_test_mcp_client, mbind, M_bind, path_exists, create_path, os_error,
    raise, modify_state, mret, M_ret.
  fold (marker_path wd).
  destruct (bool_decide (wd ∈ files s)) eqn:Hwd; cbn [orb negb andb] in Hno.
  - destruct (fs_refuses env OpWrite (marker_path wd)) eqn:Hm.
    + exists (marker_path wd), s. auto.
    + cbn [negb andb] in Hno. apply negb_false_iff in Hno.
      cbv beta iota. cbn [files set_files]. rewrite Hno.
      eexists. eexists. split; [reflexivity|]. auto.
  - destruct (fs_refuses env OpMkdir wd) eqn:Hd.
    + exists wd, s. auto.
    + cbn [negb andb] in Hno. cbv beta iota. rewrite log_state. cbv beta iota.
      cbn [files set_files snd].
      destruct (fs_refuses env OpWrite (marker_path wd)) eqn:Hm.
      * eexists. eexists. split; [reflexivity|]. auto.
      * cbn [negb andb] in Hno. apply negb_false_iff in Hno.
        rewrite Hno. cbv beta iota.
        eexists. eexists. split; [reflexivity|]. auto.
Qed.

Lemma probe_setup_refused_witness :
  exists p s',
    test_mcp_server_connection Cases.marker_refused World.default_args
      (Some World.server_abs) World.work (initial_state Cases.marker_refused)
    = (Exc (Error OSError p), s')
    /\ (fs_refuses Cases.marker_refused OpMkdir p = true
        \/ fs_refuses Cases.marker_refused OpWrite p = true)
    /\ runs s' = runs (initial_state Cases.marker_refused)
    /\ issues_found (diag s') = issues_found (diag (initial_state Cases.marker_refused)).
Proof.
  apply (probe_setup_refused Cases.marker_refused World.default_args
           World.server_abs World.work (initial_state Cases.marker_refused)).
  - discriminate.
  - vm_compute. reflexivity.
Defined.

(** X4. When the three prerequisites hold and the file system refuses the
    set-up of the probe, the OSError leaves [main]: the script exits with
    status 1, no report is written and no severity is set. *)
Theorem probe_setup_failure_aborts
    (env : Env) (args : Args) (wd sp : string) (s1 : State) :
  prerequisites env args (initial_state env) = (Val (wd, true, true, Some sp), s1) ->
  sp <> "" ->
  setup_allowed env wd s1 = false ->
  fst (script env args) = 1
  /\ report_file (snd (script env args)) = None
  /\ severity (diag (snd (script env args))) = None
  /\ runs (snd (script env args)) = runs s1.
Proof.
  intros Hpre Hsp Hno. unfold script.
  rewrite (main_after_prerequisites _ _ _ _ _ _ _ Hpre).
  unfold gated_probe. cbn [andb].
  assert (Ht : truthy (Some sp) = true).
  { simpl. destruct (String.eqb_spec sp ""); [contradiction | reflexivity]. }
  rewrite Ht.
  destruct (keeps_prerequisites env args _ (good_initial env)) as [Hg1 _].
  rewrite Hpre in Hg1. cbn [snd] in Hg1.
  destruct (keeps_test_mcp_server_connection env args (Some sp) wd s1 Hg1) as [Hg2 _].
  destruct (probe_setup_refused env args sp wd s1 Hsp Hno) as (p & s' & Hrun & _ & Hr & _).
  rewrite Hrun in *. cbn [fst snd] in *.
  split; [reflexivity|]. split; [apply Hg2|]. split; [apply Hg2 | exact Hr].
Qed.

Lemma probe_setup_failure_aborts_witness :
  fst (script Cases.run_marker_refused World.default_args) = 1
  /\ report_file (snd (script Cases.run_marker_refused World.default_args)) = None.
Proof.
  destruct (probe_setup_failure_aborts Cases.run_marker_refused World.default_args
              "/tmp/mcp-diagnostic-0" World.server_abs
              (snd (prerequisites Cases.run_marker_refused World.default_args
                      (initial_state Cases.run_marker_refused))))
    as (H1 & H2 & _).
  - vm_compute. reflexivity.
  - discriminate.
  - vm_compute. reflexivity.
  - split; assumption.
Defined.

(** *** Failed runs are not healthy *)

Lemma evaluate_failure_counts env out err s :
  issues_found (diag s) + 1
  <= issues_found (diag (snd (evaluate_failure env out err s))).
Proof.
  unfold evaluate_failure, analyze_errors, mbind, M_bind. rewrite log_state.
  destruct (Py.contains "ENOENT" err);
    [|destruct (Py.contains "SyntaxError" err);
      [|destruct (Py.contains "Error:" err && Py.contains "import" err
                  && Py.contains "require" err)]];
    rewrite ?log_state;
    cbn [snd diag issues_found recommend modify_diag modify_state set_diag mret M_ret];
    change (is_issue_level (Py.upper "ERROR")) with true; cbv iota; lia.
Qed.

Lemma run_command_grown env args cmd tmo cwd s :
  grown s (snd (run_command env args cmd tmo cwd s)).
Proof.
  apply (inv_run (grown s)); [|apply grown_refl].
  apply (inv_run_command env args); grown_side.
Qed.

(** A probe that returns false has counted an issue. *)
Lemma probe_false_counts env args sp wd s s' :
  sp <> "" ->
  test_mcp_server_connection env args (Some sp) wd s = (Val false, s') ->
  issues_found (diag s) + 1 <= issues_found (diag s').
Proof.
  intros Hsp Hrun.
  destruct (setup_allowed env wd s) eqn:Hok.
  - rewrite (probe_eq _ _ _ _ _ Hsp Hok) in Hrun.
    pose proof (run_command_grown env args (probe_command env sp wd)
                  (Some (timeout args * 2)) None (probe_ready env wd s)) as Hg.
    destruct (run_command env args _ _ None _) as [[[[code out] err]|e] s1];
      [|discriminate Hrun].
    cbn [snd] in Hg. apply grown_issues in Hg. rewrite issues_probe_ready in Hg.
    destruct (code =? 0).
    + destruct (evaluate_success env out _) as [[[]|e] s2]; discriminate Hrun.
    + pose proof (evaluate_failure_counts env out err (after_unlink env s1)) as Hc.
      rewrite diag_after_unlink in Hc.
      destruct (evaluate_failure env out err _) as [[[]|e] s2]; [|discriminate Hrun].
      injection Hrun as <-. cbn [snd] in Hc. lia.
  - destruct (probe_setup_refused env args sp wd s Hsp Hok) as (p & s2 & H & _).
    rewrite H in Hrun. discriminate Hrun.
Qed.

(** X5. A run that ends with a status other than 0 and writes a report has
    counted an issue: its report has severity WARNING or CRITICAL.  So a
    report with severity HEALTHY comes from a run that exits with status 0,
    has no issue and no recommendation. *)
Theorem healthy_report_means_success (env : Env) (args : Args) (p : string)
    (d : Diagnostics) :
  report_file (snd (script env args)) = Some (p, d) ->
  (fst (script env args) <> 0 ->
   severity d = Some "WARNING" \/ severity d = Some "CRITICAL")
  /\ (severity d = Some "HEALTHY" ->
      fst (script env args) = 0 /\ issues_found d = 0 /\ count_issues (checks d) = 0).
Proof.
  intros Hd.
  destruct (report_written env args p d Hd)
    as (wd & n & k & sp & s1 & ok & s2 & Hpre & Hgate & Hg1 & Hg2 & -> & Hcode).
  assert (Hsev : severity (diag (at_dump env (report args) s2))
                 = Some (severity_of (issues_found (diag s2))))
    by (unfold at_dump; destruct (truthy (report args)); reflexivity).
  assert (Hiss : issues_found (diag (at_dump env (report args) s2))
                 = issues_found (diag s2))
    by (unfold at_dump; destruct (truthy (report args)); reflexivity).
  assert (Hchk : checks (diag (at_dump env (report args) s2)) = checks (diag s2))
    by (unfold at_dump; destruct (truthy (report args)); reflexivity).
  assert (Hfail : ok = false -> 1 <= issues_found (diag s2)).
  { intros ->. pose proof (good_issues_nonneg _ Hg1) as Hnn.
    unfold gated_probe in Hgate.
    destruct (n && k && truthy sp) eqn:Hopen.
    - apply andb_prop in Hopen as [_ Hsp]. destruct sp as [sp|]; [|discriminate Hsp].
      assert (Hne : sp <> "") by (intros ->; discriminate Hsp).
      pose proof (probe_false_counts _ _ _ _ _ _ Hne Hgate). lia.
    - unfold mbind, M_bind in Hgate. rewrite log_state in Hgate.
      injection Hgate as <-. cbn [diag issues_found].
      change (is_issue_level (Py.upper "ERROR")) with true. cbv iota. lia. }
  rewrite Hsev, Hiss, Hchk, Hcode. split.
  - intros Hne. destruct ok; [contradiction|].
    destruct (severity_of_positive _ (Hfail eq_refl)) as [-> | ->]; auto.
  - intros [= Hh].
    assert (Hz : issues_found (diag s2) = 0).
    { pose proof (good_issues_nonneg _ Hg2).
      destruct (Z.eq_dec (issues_found (diag s2)) 0) as [Hz|Hnz]; [exact Hz|].
      exfalso. apply (severity_of_issue (issues_found (diag s2))); [lia | exact Hh]. }
    split; [|split; [exact Hz | rewrite <- (good_count _ Hg2); exact Hz]].
    destruct ok; [reflexivity|]. specialize (Hfail eq_refl). lia.
Qed.

Lemma healthy_report_means_success_witness :
  exists p d,
    report_file (snd (script World.no_node World.default_args)) = Some (p, d)
    /\ (severity d = Some "WARNING" \/ severity d = Some "CRITICAL").
Proof.
  eexists. eexists. split.
  - vm_compute. reflexivity.
  - apply (proj1 (healthy_report_means_success World.no_node World.default_args
                    "mcp-diagnostic-report-20240101_000000.json" _
                    ltac:(vm_compute; reflexivity))).
    vm_compute. discriminate.
Defined.

(** Reduce the state updates of the primitives. *)
Ltac run_state :=
  unfold mret, M_ret;
  cbn [fst snd recommend modify_diag modify_state set_diag set_files add_run
         set_node_version diag node_version recommendations issues_found checks
         files clock_reads runs report_file summary severity error_analysis].

(** Run the logs of a straight-line piece. *)
Ltac step_logs :=
  repeat progress (unfold mret, M_ret; cbv beta iota; cbn [fst snd]; rewrite ?log_state).

(** Decide the level tests of the literal levels. *)
Ltac eval_levels :=
  change (is_issue_level (Py.upper "INFO")) with false in *;
  change (is_issue_level (Py.upper "SUCCESS")) with false in *;
  change (is_issue_level (Py.upper "WARNING")) with true in *;
  change (is_issue_level (Py.upper "ERROR")) with true in *;
  change (Py.upper "INFO") with "INFO" in *;
  change (Py.upper "SUCCESS") with "SUCCESS" in *;
  change (Py.upper "WARNING") with "WARNING" in *;
  change (Py.upper "ERROR") with "ERROR" in *;
  cbv iota.

(** *** The runtime version check *)

Example major_of_16 : major_of "v16.2.0" = Some 16.
Proof. reflexivity. Qed.

Example major_of_20 : major_of ("v20.1.0" +:+ newline) = Some 20.
Proof. reflexivity. Qed.

Example major_of_none : major_of "node: command not found" = None.
Proof. reflexivity. Qed.



(** X7. When [node --version] ends with a non-zero code, times out or
    cannot be started, the check returns false, leaves the recorded node
    version as it was, logs the ERROR "Node.js is not installed or not in
    PATH" as its last entry and adds the recommendation to install Node.js;
    the run counts one issue, and two when the runner logged the timeout or
    launch failure itself. *)
Theorem check_node_version_unavailable (env : Env) (args : Args) (s : State) :
  ended_badly (completion_of env args ["node"; "--version"] None None s) = true ->
  let c := completion_of env args ["node"; "--version"] None None s in
  let r := check_node_version env args s in
  fst r = Val false
  /\ node_version (diag (snd r)) = node_version (diag s)
  /\ (exists l text,
        appended s (snd r)
        = l ++ [("ERROR", "Node.js is not installed or not in PATH", Some (PText text))])
  /\ recommendations (diag (snd r))
     = recommendations (diag s) ++ ["Install Node.js version 18 or newer"]
  /\ issues_found (diag (snd r))
     = issues_found (diag s) + (if failed_run c then 2 else 1).
Proof.
  intros Hb. cbv zeta. unfold check_node_version, mbind, M_bind.
  rewrite run_command_eq. cbv zeta. unfold completion_of in *.
  destruct (subprocess_run env _ _ None _) as [rc out err| |cls msg|];
    cbn [ended_badly failed_run] in *; try discriminate Hb.
  - apply negb_true_iff in Hb. rewrite Hb. rewrite !log_state. cbv beta iota.
    run_state. eval_levels.
    split; [reflexivity|]. split; [reflexivity|]. split; [|split; reflexivity].
    eexists [_], _.
    erewrite appended_app; [|cbn [diag checks]; rewrite <- ?app_assoc; reflexivity].
    reflexivity.
  - rewrite !log_state. cbv beta iota. cbn [Z.eqb]. rewrite !log_state.
    run_state. eval_levels.
    split; [reflexivity|]. split; [reflexivity|]. split; [|split; [reflexivity|lia]].
    eexists [_; _], _.
    erewrite appended_app; [|cbn [diag checks]; rewrite <- ?app_assoc; reflexivity].
    reflexivity.
  - rewrite !log_state. cbv beta iota. cbn [Z.eqb]. rewrite !log_state.
    run_state. eval_levels.
    split; [reflexivity|]. split; [reflexivity|]. split; [|split; [reflexivity|lia]].
    eexists [_; _], _.
    erewrite appended_app; [|cbn [diag checks]; rewrite <- ?app_assoc; reflexivity].
    reflexivity.
Qed.

Lemma check_node_version_unavailable_witness :
  fst (check_node_version World.no_node World.default_args
         (initial_state World.no_node)) = Val false
  /\ issues_found
       (diag (snd (check_node_version World.no_node World.default_args
                     (initial_state World.no_node)))) = 2.
Proof.
  destruct (check_node_version_unavailable World.no_node World.default_args
              (initial_state World.no_node)) as (H1 & _ & _ & _ & H2).
  - reflexivity.
  - split; [exact H1 | exact H2].
Defined.

(** *** The package check *)

Lemma assoc_existsb {V} k (kv : list (string * V)) x :
  assoc k kv = Some x -> existsb (fun p => String.eqb k (fst p)) kv = true.
Proof.
  induction kv as [|[k' v] rest IH]; simpl; [discriminate|].
  destruct (String.eqb k k'); [reflexivity | exact IH].
Qed.

(** The body of the [try] on an answer that has the version field. *)
Lemma check_mcp_sdk_try_found env out v ver s :
  json_loads env out = Some v ->
  sdk_version_of v = Some ver ->
  check_mcp_sdk_try env out s
  = (Val true,
     snd (log env "SUCCESS" (sdk_name +:+ " found: version " +:+ format_json env ver)
            None s)).
Proof.
  intros Hj Hv. unfold check_mcp_sdk_try, json_loads_call, mbind, M_bind. rewrite Hj.
  unfold mret, M_ret. cbv beta iota.
  destruct v as [| | | | |top]; try discriminate Hv. cbn [sdk_version_of] in Hv.
  destruct (assoc "dependencies" top) as [deps|] eqn:Hd; [|discriminate Hv].
  destruct deps as [| | | | |deps]; try discriminate Hv.
  destruct (assoc sdk_name deps) as [entry|] eqn:He; [|discriminate Hv].
  destruct entry as [| | | | |entry]; try discriminate Hv.
  cbn [py_in py_getitem]. unfold mret, M_ret. cbv beta iota.
  rewrite (assoc_existsb _ _ _ Hd), Hd. cbv beta iota.
  cbn [py_in py_getitem]. unfold mret, M_ret. cbv beta iota.
  rewrite (assoc_existsb _ _ _ He). cbv beta iota. rewrite He. cbv beta iota.
  cbn [py_getitem]. rewrite Hv. unfold mret, M_ret. cbv beta iota.
  rewrite log_state. reflexivity.
Qed.

(** X8. When [npm list] exits with code 0, its output names the package
    and decodes to a dictionary whose [dependencies] entry for the package
    has a [version], the check returns true and logs SUCCESS with that
    version; it counts no issue and adds no recommendation. *)
Theorem check_mcp_sdk_found
    (env : Env) (args : Args) (s : State) (out err : string) (v ver : JValue) :
  completion_of env args npm_command None None s = Completed 0 out err ->
  Py.contains sdk_name out = true ->
  json_loads env out = Some v ->
  sdk_version_of v = Some ver ->
  let r := check_mcp_sdk env args s in
  fst r = Val true
  /\ appended s (snd r)
     = [ ("INFO",
          "Running command: npm list @modelcontextprotocol/sdk --json --depth=0", None);
         ("SUCCESS", sdk_name +:+ " found: version " +:+ format_json env ver, None) ]
  /\ recommendations (diag (snd r)) = recommendations (diag s)
  /\ issues_found (diag (snd r)) = issues_found (diag s).
Proof.
  intros Hc Hs Hj Hv. cbv zeta. unfold check_mcp_sdk, mbind, M_bind.
  fold npm_command. rewrite run_command_eq. cbv zeta.
  unfold completion_of in Hc. rewrite Hc. cbv beta iota. cbn [Z.eqb andb]. rewrite Hs.
  unfold try_except. rewrite (check_mcp_sdk_try_found _ _ _ _ _ Hj Hv).
  rewrite !log_state. run_state. eval_levels.
  split; [reflexivity|]. split; [|split; reflexivity].
  erewrite appended_app; [|cbn [diag checks]; rewrite <- ?app_assoc; reflexivity].
  reflexivity.
Qed.

Lemma check_mcp_sdk_found_witness :
  fst (check_mcp_sdk Cases.sdk_installed World.default_args
         (initial_state Cases.sdk_installed)) = Val true.
Proof.
  refine (proj1 (check_mcp_sdk_found Cases.sdk_installed World.default_args
                   (initial_state Cases.sdk_installed) World.npm_stdout ""
                   World.npm_value (JStr "1.2.3") _ _ _ _)); reflexivity.
Defined.

(** X9. When [npm list] ends with a non-zero code, times out, cannot be
    started, or prints an output that does not contain the package name, the
    check returns false without decoding anything, logs the WARNING as its
    last entry and adds the recommendation to install the package; the run
    counts one issue, and two when the runner logged the timeout or launch
    failure itself. *)
Theorem check_mcp_sdk_absent (env : Env) (args : Args) (s : State) :
  names_no_sdk (completion_of env args npm_command None None s) = true ->
  let c := completion_of env args npm_command None None s in
  let r := check_mcp_sdk env args s in
  fst r = Val false
  /\ (exists l,
        appended s (snd r)
        = l ++ [("WARNING", sdk_name +:+ " not found or has invalid version", None)])
  /\ recommendations (diag (snd r))
     = recommendations (diag s) ++ ["Install " +:+ sdk_name +:+ " package"]
  /\ issues_found (diag (snd r))
     = issues_found (diag s) + (if failed_run c then 2 else 1).
Proof.
  intros Hb. cbv zeta. unfold check_mcp_sdk, mbind, M_bind.
  fold npm_command. rewrite run_command_eq. cbv zeta. unfold completion_of in *.
  destruct (subprocess_run env _ _ None _) as [rc out err| |cls msg|];
    cbn [names_no_sdk failed_run] in *; try discriminate Hb;
    try apply negb_true_iff in Hb.
  - rewrite Hb. step_logs. run_state. eval_levels.
    split; [reflexivity|]. split; [|split; reflexivity].
    eexists [_].
    erewrite appended_app; [|cbn [diag checks]; rewrite <- ?app_assoc; reflexivity].
    reflexivity.
  - step_logs. cbn [Z.eqb andb]. step_logs. run_state. eval_levels.
    split; [reflexivity|]. split; [|split; [reflexivity|lia]].
    eexists [_; _].
    erewrite appended_app; [|cbn [diag checks]; rewrite <- ?app_assoc; reflexivity].
    reflexivity.
  - step_logs. cbn [Z.eqb andb]. step_logs. run_state. eval_levels.
    split; [reflexivity|]. split; [|split; [reflexivity|lia]].
    eexists [_; _].
    erewrite appended_app; [|cbn [diag checks]; rewrite <- ?app_assoc; reflexivity].
    reflexivity.
Qed.

Lemma check_mcp_sdk_absent_witness :
  fst (check_mcp_sdk Cases.sdk_missing World.default_args
         (initial_state Cases.sdk_missing)) = Val false.
Proof.
  refine (proj1 (check_mcp_sdk_absent Cases.sdk_missing World.default_args
                   (initial_state Cases.sdk_missing) _)).
  reflexivity.
Defined.

(** *** The server search *)

Lemma find_first_eq env paths s :
  find_first env paths s =
    match List.find (fun p => bool_decide (p ∈ files s)) paths with
    | Some p =>
        (Val (Some (abspath env p)),
         snd (log env "INFO" ("Found MCP server at: " +:+ p) None s))
    | None => (Val None, s)
    end.
Proof.
  induction paths as [|p rest IH]; [reflexivity|].
  cbn [find_first List.find]. unfold mbind, M_bind, path_exists.
  destruct (bool_decide (p ∈ files s)); [|exact IH].
  rewrite log_state. reflexivity.
Qed.

(** X10. The server search looks at dist/entrypoints/mcp.js,
    dist/src/entrypoints/mcp.js and src/entrypoints/mcp.ts in this order and
    returns the absolute path of the first that exists, with one INFO entry
    naming it; when none exists it returns None and logs one ERROR, which
    counts as an issue.  It changes no file. *)
Theorem find_mcp_server_file_priority (env : Env) (s : State) :
  let r := find_mcp_server_file env s in
  possible_paths
    = ["dist/entrypoints/mcp.js"; "dist/src/entrypoints/mcp.js"; "src/entrypoints/mcp.ts"]
  /\ fst r = Val (option_map (abspath env) (first_existing (files s)))
  /\ files (snd r) = files s
  /\ appended s (snd r)
     = [ match first_existing (files s) with
         | Some p => ("INFO", "Found MCP server at: " +:+ p, None)
         | None => ("ERROR", "Could not find MCP server file", None)
         end ]
  /\ issues_found (diag (snd r))
     = issues_found (diag s)
       + match first_existing (files s) with Some _ => 0 | None => 1 end.
Proof.
  cbv zeta. split; [reflexivity|].
  unfold find_mcp_server_file, mbind, M_bind. rewrite find_first_eq.
  unfold first_existing.
  destruct (List.find _ possible_paths) as [p|]; step_logs; run_state; eval_levels.
  - split; [reflexivity|]. split; [reflexivity|]. split; [|lia].
    erewrite appended_app; [|cbn [diag checks]; reflexivity]. reflexivity.
  - split; [reflexivity|]. split; [reflexivity|]. split; [|reflexivity].
    erewrite appended_app; [|cbn [diag checks]; reflexivity]. reflexivity.
Qed.

Example first_existing_prefers_compiled :
  first_existing {[ "src/entrypoints/mcp.ts"; "dist/entrypoints/mcp.js" ]}
  = Some "dist/entrypoints/mcp.js".
Proof. vm_compute. reflexivity. Qed.

Example first_existing_none : first_existing ∅ = None.
Proof. vm_compute. reflexivity. Qed.

(** *** The error analysis of the report *)

Lemma bump_total k kv : total_count (bump k kv) = total_count kv + 1.
Proof.
  induction kv as [|[k' n] rest IH]; simpl; [reflexivity|].
  destruct (String.eqb k k'); simpl; lia.
Qed.

Lemma bump_keys k kv x :
  In x (map fst (bump k kv)) <-> x = k \/ In x (map fst kv).
Proof.
  induction kv as [|[k' n] rest IH]; simpl; [intuition congruence|].
  destruct (String.eqb_spec k k'); simpl.
  - subst. intuition congruence.
  - rewrite IH. intuition congruence.
Qed.

Lemma bump_NoDup k kv : List.NoDup (map fst kv) -> List.NoDup (map fst (bump k kv)).
Proof.
  induction kv as [|[k' n] rest IH]; simpl; intros Hnd.
  - constructor; [intros [] | constructor].
  - apply List.NoDup_cons_iff in Hnd as [Hnin Hnd].
    destruct (String.eqb_spec k k'); simpl.
    + constructor; assumption.
    + constructor; [|apply IH, Hnd].
      rewrite bump_keys. intros [Heq | Hin]; [congruence | contradiction].
Qed.

Lemma bump_positive k kv :
  Forall (fun e => 1 <= snd e) kv -> Forall (fun e => 1 <= snd e) (bump k kv).
Proof.
  induction kv as [|[k' n] rest IH]; simpl; intros Hp.
  - constructor; [simpl; lia | constructor].
  - apply List.Forall_cons_iff in Hp as [Hn Hp]. simpl in Hn.
    destruct (String.eqb k k'); constructor; simpl; auto; lia.
Qed.

Lemma key_word_known msg : In (key_word msg) analysis_keys.
Proof.
  unfold key_word, analysis_keys. cbn [List.filter].
  destruct (Py.contains "not found" (Py.lower msg)); [simpl; auto|].
  destruct (Py.contains "timeout" (Py.lower msg)); [simpl; auto|].
  destruct (Py.contains "error" (Py.lower msg)); [simpl; auto|].
  destruct (Py.contains "failed" (Py.lower msg)); simpl; auto 6.
Qed.

Lemma error_types_fold entries acc :
  let f := fun acc check =>
    if String.eqb (level check) "ERROR" || String.eqb (level check) "WARNING"
    then bump (key_word (message check)) acc else acc in
  total_count (fold_left f entries acc) = total_count acc + count_issues entries
  /\ (List.NoDup (map fst acc) -> List.NoDup (map fst (fold_left f entries acc)))
  /\ (Forall (fun e => 1 <= snd e) acc ->
      Forall (fun e => 1 <= snd e) (fold_left f entries acc))
  /\ (forall k, In k (map fst (fold_left f entries acc)) ->
                In k (map fst acc) \/ In k analysis_keys).
Proof.
  cbv zeta. revert acc. induction entries as [|c rest IH]; intros acc.
  - cbn [fold_left]. unfold count_issues. simpl. repeat split; auto; lia.
  - cbn [fold_left]. specialize (IH
      (if String.eqb (level c) "ERROR" || String.eqb (level c) "WARNING"
       then bump (key_word (message c)) acc else acc)).
    destruct IH as (Ht & Hn & Hp & Hk).
    assert (Hc : count_issues (c :: rest)
                 = (if String.eqb (level c) "ERROR" || String.eqb (level c) "WARNING"
                    then 1 else 0) + count_issues rest).
    { unfold count_issues, is_issue_level. cbn [List.filter].
      rewrite (orb_comm (String.eqb (level c) "WARNING")).
      destruct (String.eqb (level c) "ERROR" || String.eqb (level c) "WARNING");
        cbn [length]; lia. }
    rewrite Hc.
    destruct (String.eqb (level c) "ERROR" || String.eqb (level c) "WARNING").
    + rewrite bump_total in Ht. split; [lia|]. split; [|split].
      * intros Hnd. apply Hn, bump_NoDup, Hnd.
      * intros Hpos. apply Hp, bump_positive, Hpos.
      * intros k Hin. destruct (Hk k Hin) as [H|H]; [|auto].
        apply bump_keys in H as [-> | H]; [right; apply key_word_known | auto].
    + split; [lia|]. split; [exact Hn|]. split; [exact Hp | exact Hk].
Qed.

Lemma error_types_total entries :
  total_count (error_types_of entries) = count_issues entries.
Proof.
  unfold error_types_of. rewrite (proj1 (error_types_fold entries [])). simpl. lia.
Qed.

(** X11. The error analysis gives every WARNING and ERROR entry to exactly
    one category: its counts add up to the number of such entries, every
    category listed has a count of at least one and is listed once, and the
    categories are among "not found", "timeout", "error", "failed" and
    "other". *)
Theorem error_analysis_partitions_issues (entries : list CheckEntry) :
  total_count (error_types_of entries) = count_issues entries
  /\ List.NoDup (map fst (error_types_of entries))
  /\ Forall (fun e => 1 <= snd e) (error_types_of entries)
  /\ (forall k, In k (map fst (error_types_of entries)) -> In k analysis_keys).
Proof.
  unfold error_types_of.
  destruct (error_types_fold entries []) as (Ht & Hn & Hp & Hk).
  split; [simpl in Ht; lia|]. split; [apply Hn; constructor|].
  split; [apply Hp; constructor|].
  intros k Hin. destruct (Hk k Hin) as [[] | H]. exact H.
Qed.

(** *** The report file *)

(** The state the script ends in when it wrote a report. *)
Lemma report_written_state env args p d :
  report_file (snd (script env args)) = Some (p, d) ->
  exists s2,
    good s2
    /\ p = report_path_of env (report args) s2
    /\ d = diag (at_dump env (report args) s2)
    /\ snd (script env args)
       = snd (log env "INFO" ("Diagnostic report saved to: " +:+ p) None
                (dumped p (at_dump env (report args) s2))).
Proof.
  unfold script.
  destruct (main_cases env args) as [[Hg [e [He Hne]]] | H].
  - destruct (main env args (initial_state env)) as [[[]|e'] s]; simpl in *;
      [discriminate He|].
    assert (Hrep : report_file s = None) by apply Hg.
    destruct e'; simpl; rewrite Hrep; discriminate.
  - destruct H as (wd & n & k & sp & s1 & ok & s2 & Hpre & Hgate & Hg1 & Hg2 & Hr).
    rewrite Hr, conclude_eq. cbv zeta.
    destruct (fs_refuses env OpWrite _).
    + cbn [fst snd]. assert (Hrep : report_file (at_dump env (report args) s2) = None).
      { unfold at_dump. destruct (truthy (report args)); apply Hg2. }
      rewrite Hrep. discriminate.
    + rewrite log_state. intros Hd. exists s2. split; [exact Hg2|].
      destruct ok; cbn [fst snd report_file dumped] in *; injection Hd as <- <-;
        repeat split; reflexivity.
Qed.

(** X12. A written report is the dictionary as it was just before the
    entry "Diagnostic report saved to" was logged: the ledger of the run is
    the ledger of the report plus that one INFO entry.  Its summary holds the
    number of its entries, its issue count and the number of its
    recommendations, its error analysis adds up to its issue count, and the
    file is at the path given on the command line when one was given. *)
Theorem report_is_snapshot (env : Env) (args : Args) (p : string) (d : Diagnostics) :
  report_file (snd (script env args)) = Some (p, d) ->
  let final := snd (script env args) in
  (exists saved,
     checks (diag final) = checks d ++ [saved]
     /\ entry_view saved = ("INFO", "Diagnostic report saved to: " +:+ p, None))
  /\ summary d
     = Some {| total_checks := Z.of_nat (length (checks d));
               summary_issues_found := issues_found d;
               summary_recommendations := Z.of_nat (length (recommendations d)) |}
  /\ (exists ea, error_analysis d = Some ea /\ total_count ea = issues_found d)
  /\ issues_found (diag final) = issues_found d
  /\ recommendations (diag final) = recommendations d
  /\ p ∈ files final
  /\ (truthy (report args) = true -> report args = Some p).
Proof.
  intros Hd. cbv zeta.
  destruct (report_written_state env args p d Hd) as (s2 & Hg & Hp & -> & ->).
  rewrite log_state. unfold dumped. run_state. eval_levels.
  assert (Hdump : diag (at_dump env (report args) s2) = summarize (diag s2))
    by (unfold at_dump; destruct (truthy (report args)); reflexivity).
  rewrite Hdump. cbn [summarize checks summary error_analysis issues_found
                        recommendations].
  split; [eexists; split; reflexivity|]. split; [reflexivity|].
  split.
  { eexists. split; [reflexivity|].
    rewrite error_types_total. symmetry. apply Hg. }
  split; [reflexivity|]. split; [reflexivity|]. split; [set_solver|].
  intros Ht. rewrite Hp. unfold report_path_of. rewrite Ht.
  destruct (report args); [reflexivity | discriminate Ht].
Qed.

Lemma report_is_snapshot_witness :
  exists p d,
    report_file (snd (script World.two_tools World.default_args)) = Some (p, d)
    /\ summary d
       = Some {| total_checks := Z.of_nat (length (checks d));
                 summary_issues_found := issues_found d;
                 summary_recommendations := Z.of_nat (length (recommendations d)) |}.
Proof.
  eexists. eexists. split.
  - vm_compute. reflexivity.
  - apply (report_is_snapshot World.two_tools World.default_args
             "mcp-diagnostic-report-20240101_000000.json").
    vm_compute. reflexivity.
Defined.

(** *** A successful probe without the line of tools *)

(** X13. When the client succeeded and its output does not contain
    "Tools available:", the probe logs SUCCESS and nothing more: no tool is
    checked, no WARNING is logged, no recommendation is added, and the probe
    returns true. *)
Theorem probe_without_marker
    (env : Env) (args : Args) (sp wd : string) (s : State) (out err : string) :
  sp <> "" ->
  setup_allowed env wd s = true ->
  client_completion env args sp wd s = Completed 0 out err ->
  Py.contains "Tools available:" out = false ->
  let r := test_mcp_server_connection env args (Some sp) wd s in
  fst r = Val true
  /\ appended (probe_ran env sp wd s (Completed 0 out err)) (snd r)
     = [ ("SUCCESS",
          "Connected to MCP server successfully in " +:+ elapsed_text env +:+ "s",
          Some (PText out)) ]
  /\ warnings_in (appended s (snd r)) = 0%nat
  /\ issues_found (diag (snd r)) = issues_found (diag s)
  /\ recommendations (diag (snd r)) = recommendations (diag s).
Proof.
  intros Hsp Hok Hc Hm. cbv zeta.
  rewrite (probe_success_eq _ _ _ _ _ _ _ Hsp Hok Hc). cbn [fst snd].
  unfold evaluate_success, mbind, M_bind. rewrite Hm.
  destruct (probe_ran_checks env sp wd s (Completed 0 out err))
    as (l & Hl & Hw & Hi & Hrec).
  set (ran := probe_ran env sp wd s (Completed 0 out err)) in *.
  step_logs. run_state. eval_levels.
  split; [reflexivity|]. split; [|split; [|split; assumption]].
  - erewrite appended_app; [|cbn [diag checks]; reflexivity]. reflexivity.
  - erewrite appended_app; [|cbn [diag checks]; rewrite Hl, <- app_assoc; reflexivity].
    rewrite map_app, warnings_in_app, Hw. reflexivity.
Qed.

Lemma probe_without_marker_witness :
  fst (test_mcp_server_connection Cases.silent_client World.default_args
         (Some World.server_abs) World.work (initial_state Cases.silent_client))
  = Val true.
Proof.
  refine (proj1 (probe_without_marker Cases.silent_client World.default_args
                   World.server_abs World.work (initial_state Cases.silent_client)
                   ("Connected successfully" +:+ newline) "" _ _ _ _)).
  - discriminate.
  - vm_compute. reflexivity.
  - reflexivity.
  - reflexivity.
Defined.

(** *** Interrupts *)











Section Interrupts.

Context (env : Env) (args : Args).

















Lemma calm_set_files fs s : calm s -> calm (set_files fs s).
Proof. intros H. exact H. Qed.







End Interrupts.





Lemma probe_interrupted_witness :
  fst (test_mcp_server_connection Cases.interrupted_probe World.default_args
         (Some World.server_abs) World.work (initial_state Cases.interrupted_probe))
  = Exc KeyboardInterrupt
  /\ temp_client_name Cases.interrupted_probe
       ∈ files (snd (test_mcp_server_connection Cases.interrupted_probe
                       World.default_args (Some World.server_abs) World.work
                       (initial_state Cases.interrupted_probe))).
Proof.
  apply (probe_interrupted Cases.interrupted_probe World.default_args
           World.server_abs World.work (initial_state Cases.interrupted_probe)).
  - discriminate.
  - vm_compute. reflexivity.
  - reflexivity.
Defined.

(** *** The runner's record *)

(** X16. Every call of the runner starts exactly one child, with the given
    timeout or, when that is absent or 0, the configured one, and logs the
    INFO entry with the command line joined by spaces first; it logs one more
    entry exactly when the child timed out or could not be started, and it
    touches neither the files nor the recommendations. *)
Theorem run_command_records
    (env : Env) (args : Args) (cmd : list string) (tmo : option Z)
    (cwd : option string) (s : State) :
  let s' := snd (run_command env args cmd tmo cwd s) in
  let effective :=
    match tmo with
    | Some n => if n =? 0 then timeout args else n
    | None => timeout args
    end in
  let c := subprocess_run env (length (runs s)) cmd cwd effective in
  runs s' = runs s ++ [(cmd, c)]
  /\ (exists rest,
        appended s s' = ("INFO", "Running command: " +:+ Py.join " " cmd, None) :: rest
        /\ length rest = (if failed_run c then 1%nat else 0%nat))
  /\ files s' = files s
  /\ recommendations (diag s') = recommendations (diag s).
Proof.
  cbv zeta. rewrite run_command_eq. cbv zeta. unfold int_or.
  destruct (subprocess_run env _ cmd cwd _) as [rc out err| |cls msg|];
    step_logs; run_state; eval_levels;
    (split; [reflexivity|]); (split; [|split; reflexivity]);
    eexists;
    (erewrite appended_app; [|cbn [diag checks]; rewrite <- ?app_assoc; reflexivity]);
    split; reflexivity.
Qed.

(** *** The children of a run *)

Lemma check_node_version_runs env args s :
  runs (snd (check_node_version env args s))
  = runs s ++ [(node_command, completion_of env args node_command None None s)].
Proof.
  unfold check_node_version, mbind, M_bind. fold node_command.
  rewrite run_command_eq. cbv zeta. unfold completion_of.
  destruct (subprocess_run env _ node_command None _) as [rc out err| |cls msg|];
    step_logs; try reflexivity.
  - destruct (rc =? 0); step_logs; [|reflexivity].
    unfold set_node_version, modify_diag, modify_state. step_logs.
    destruct (Py.py_int _) as [n|]; [|reflexivity]. step_logs.
    destruct (n <? 18); step_logs; reflexivity.
Qed.

Lemma same_runs_check_mcp_sdk_try env out s :
  runs (snd (check_mcp_sdk_try env out s)) = runs s.
Proof.
  apply (inv_run (fun s' => runs s' = runs s)); [|reflexivity].
  assert (Hlog : forall lvl msg d,
            inv (fun s' => runs s' = runs s) (log env lvl msg d)).
  { intros lvl msg d s0 H0. rewrite log_state. exact H0. }
  unfold check_mcp_sdk_try, json_loads_call.
  repeat first
    [ apply inv_ret | apply inv_raise | apply inv_py_in | apply inv_py_getitem
    | apply Hlog
    | apply inv_bind; [| intros ?]
    | match goal with
      | |- inv _ (if ?b then _ else _) => destruct b
      | |- inv _ (match ?x with _ => _ end) => destruct x
      end ].
Qed.

Lemma check_mcp_sdk_runs env args s :
  runs (snd (check_mcp_sdk env args s))
  = runs s ++ [(npm_command, completion_of env args npm_command None None s)].
Proof.
  unfold check_mcp_sdk, mbind, M_bind. fold npm_command.
  rewrite run_command_eq. cbv zeta. unfold completion_of.
  destruct (subprocess_run env _ npm_command None _) as [rc out err| |cls msg|];
    step_logs; try reflexivity.
  destruct ((rc =? 0) && Py.contains sdk_name out); step_logs; [|reflexivity].
  unfold try_except.
  match goal with |- context [check_mcp_sdk_try env out ?st] =>
    pose proof (same_runs_check_mcp_sdk_try env out st) as Hr;
    destruct (check_mcp_sdk_try env out st) as [[[]|e] s1] end;
    cbn [snd] in Hr; step_logs.
  - exact Hr.
  - cbn [runs]. exact Hr.
  - destruct e as [[] msg| | |]; step_logs; cbn [snd runs]; exact Hr.
Qed.

Lemma find_mcp_server_file_runs env s :
  runs (snd (find_mcp_server_file env s)) = runs s.
Proof.
  unfold find_mcp_server_file, mbind, M_bind. rewrite find_first_eq.
  destruct (List.find _ possible_paths); step_logs; reflexivity.
Qed.

Lemma bind_returns {A B} (m : M A) (f : A -> M B) s b s1 :
  (m ≫= f) s = (Val b, s1) ->
  exists a s0, m s = (Val a, s0) /\ f a s0 = (Val b, s1).
Proof.
  unfold mbind, M_bind. destruct (m s) as [[a|e] s0]; [eauto | discriminate].
Qed.

(** X17. The two prerequisite checks both run, whatever the first one
    says, and in this order: when the prerequisites return, the children
    started are exactly [node --version] and then
    [npm list @modelcontextprotocol/sdk --json --depth=0], and the working
    directory is the target directory of the command line when one is given,
    the fresh temporary directory otherwise. *)
Theorem prerequisites_run_both
    (env : Env) (args : Args) (s s1 : State) (wd : string) (n k : bool)
    (sp : option string) :
  prerequisites env args s = (Val (wd, n, k, sp), s1) ->
  map fst (runs s1)
  = map fst (runs s)
    ++ [ ["node"; "--version"];
         ["npm"; "list"; "@modelcontextprotocol/sdk"; "--json"; "--depth=0"] ]
  /\ wd = (if truthy (target_dir args) then default "" (target_dir args)
           else temp_dir_name env).
Proof.
  unfold prerequisites. intros H.
  apply bind_returns in H as (wd0 & s0 & Hwd & H).
  apply bind_returns in H as ([] & sa & Hlog & H).
  apply bind_returns in H as (a0 & s2 & Hnode & H).
  apply bind_returns in H as (a1 & s3 & Hsdk & H).
  apply bind_returns in H as (a2 & s4 & Hfind & H).
  injection H as <- _ _ _ <-.
  pose proof (check_node_version_runs env args sa) as H1. rewrite Hnode in H1.
  pose proof (check_mcp_sdk_runs env args s2) as H2. rewrite Hsdk in H2.
  pose proof (find_mcp_server_file_runs env s3) as H3. rewrite Hfind in H3.
  rewrite log_state in Hlog. injection Hlog as <-.
  cbn [snd runs] in *.
  assert (Hw : runs s0 = runs s
               /\ wd0 = (if truthy (target_dir args) then default "" (target_dir args)
                         else temp_dir_name env)).
  { destruct (truthy (target_dir args)).
    - injection Hwd as <- <-. split; reflexivity.
    - apply bind_returns in Hwd as ([] & sb & Hmk & Hwd).
      apply bind_returns in Hwd as ([] & sc & Hl & Hwd).
      injection Hwd as <- <-. rewrite log_state in Hl. injection Hl as <-.
      unfold create_path, os_error, raise, modify_state in Hmk.
      destruct (fs_refuses env OpMkdir (temp_dir_name env)); [discriminate Hmk|].
      injection Hmk as <-. split; reflexivity. }
  destruct Hw as [Hr ->]. split; [|reflexivity].
  rewrite H3, H2, H1, Hr, <- app_assoc, map_app. reflexivity.
Qed.

Lemma prerequisites_run_both_witness :
  map fst (runs (snd (prerequisites World.no_node World.default_args
                        (initial_state World.no_node))))
  = map fst (runs (initial_state World.no_node))
    ++ [ ["node"; "--version"];
         ["npm"; "list"; "@modelcontextprotocol/sdk"; "--json"; "--depth=0"] ].
Proof.
  refine (proj1 (prerequisites_run_both World.no_node World.default_args
                   (initial_state World.no_node) _ "/tmp/mcp-diagnostic-0" false true
                   (Some World.server_abs) _)).
  vm_compute. reflexivity.
Defined.

(** *** A failed probe *)

Lemma recommendations_probe_ready env wd s :
  recommendations (diag (probe_ready env wd s)) = recommendations (diag s).
Proof.
  unfold probe_ready. destruct (bool_decide (wd ∈ files s)); rewrite !log_state;
    reflexivity.
Qed.

(** What the failure branch adds, by the first matching signature. *)
Lemma evaluate_failure_adds env out err s :
  let s' := snd (evaluate_failure env out err s) in
  issues_found (diag s')
  = issues_found (diag s) + 1 + match first_match err with Some _ => 1 | None => 0 end
  /\ recommendations (diag s')
     = recommendations (diag s)
       ++ match first_match err with Some (_, advice) => [advice] | None => [] end.
Proof.
  cbv zeta. unfold evaluate_failure, analyze_errors, first_match, signature_rules,
    mbind, M_bind.
  cbn [List.filter fst snd].
  destruct (Py.contains "ENOENT" err);
    [|destruct (Py.contains "SyntaxError" err);
      [|destruct (Py.contains "Error:" err && Py.contains "import" err
                  && Py.contains "require" err)]];
    step_logs; run_state; eval_levels; rewrite ?List.app_nil_r;
    split; try reflexivity; lia.
Qed.

(** X18. When the client of the probe ends with a non-zero code, times
    out or cannot be started, the probe returns false.  It counts one issue
    for the failed connection, one more when the runner logged a timeout or a
    launch failure, and one more when the standard error text matches a
    signature; the only recommendation it adds is that signature's. *)
Theorem probe_failure_counts
    (env : Env) (args : Args) (sp wd : string) (s : State) :
  sp <> "" ->
  setup_allowed env wd s = true ->
  ended_badly (client_completion env args sp wd s) = true ->
  let c := client_completion env args sp wd s in
  let r := test_mcp_server_connection env args (Some sp) wd s in
  fst r = Val false
  /\ issues_found (diag (snd r))
     = issues_found (diag s)
       + (if failed_run c then 2 else 1)
       + match first_match (runner_stderr args c) with Some _ => 1 | None => 0 end
  /\ recommendations (diag (snd r))
     = recommendations (diag s)
       ++ match first_match (runner_stderr args c) with
          | Some (_, advice) => [advice]
          | None => []
          end.
Proof.
  intros Hsp Hok Hb. cbv zeta.
  rewrite (probe_eq _ _ _ _ _ Hsp Hok), run_command_eq. cbv zeta.
  unfold client_completion, completion_of in *.
  pose proof (issues_probe_ready env wd s) as Hi.
  pose proof (recommendations_probe_ready env wd s) as Hr.
  destruct (subprocess_run env _ _ None _) as [rc out err| |cls msg|];
    cbn [ended_badly failed_run runner_stderr] in *; try discriminate Hb.
  - apply negb_true_iff in Hb. rewrite Hb.
    match goal with |- context [evaluate_failure env out err ?st] =>
      pose proof (evaluate_failure_returns env out err st) as Hv;
      destruct (evaluate_failure_adds env out err st) as [Ha Hb'];
      destruct (evaluate_failure env out err st) as [[[]|e] s2] end;
      [|discriminate Hv].
    cbn [fst snd] in *. rewrite diag_after_unlink in Ha, Hb'.
    rewrite log_state in Ha, Hb'. cbn [snd add_run diag issues_found recommendations] in *.
    eval_levels. rewrite Ha, Hb', Hi, Hr. split; [reflexivity|]. split; [lia | reflexivity].
  - cbn [Z.eqb].
    match goal with |- context [evaluate_failure env ?o ?e ?st] =>
      pose proof (evaluate_failure_returns env o e st) as Hv;
      destruct (evaluate_failure_adds env o e st) as [Ha Hb'];
      destruct (evaluate_failure env o e st) as [[[]|e'] s2] end;
      [|discriminate Hv].
    cbn [fst snd] in *. rewrite diag_after_unlink in Ha, Hb'.
    rewrite !log_state in Ha, Hb'.
    cbn [snd add_run diag issues_found recommendations] in *.
    eval_levels. rewrite Ha, Hb', Hi, Hr. split; [reflexivity|]. split; [lia | reflexivity].
  - cbn [Z.eqb].
    match goal with |- context [evaluate_failure env ?o ?e ?st] =>
      pose proof (evaluate_failure_returns env o e st) as Hv;
      destruct (evaluate_failure_adds env o e st) as [Ha Hb'];
      destruct (evaluate_failure env o e st) as [[[]|e'] s2] end;
      [|discriminate Hv].
    cbn [fst snd] in *. rewrite diag_after_unlink in Ha, Hb'.
    rewrite !log_state in Ha, Hb'.
    cbn [snd add_run diag issues_found recommendations] in *.
    eval_levels. rewrite Ha, Hb', Hi, Hr. split; [reflexivity|]. split; [lia | reflexivity].
Qed.

Lemma probe_failure_counts_witness :
  fst (test_mcp_server_connection Cases.failing_probe World.default_args
         (Some World.server_abs) World.work (initial_state Cases.failing_probe))
  = Val false
  /\ issues_found
       (diag (snd (test_mcp_server_connection Cases.failing_probe World.default_args
                     (Some World.server_abs) World.work
                     (initial_state Cases.failing_probe))))
     = 2.
Proof.
  destruct (probe_failure_counts Cases.failing_probe World.default_args
              World.server_abs World.work (initial_state Cases.failing_probe))
    as (H1 & H2 & _).
  - discriminate.
  - vm_compute. reflexivity.
  - reflexivity.
  - split; [exact H1 | exact H2].
Defined.

(** *** Node that cannot be run *)

Lemma check_node_version_failed_child env args s :
  failed_run (completion_of env args node_command None None s) = true ->
  fst (check_node_version env args s) = Val false
  /\ issues_found (diag (snd (check_node_version env args s)))
     = issues_found (diag s) + 2.
Proof.
  intros Hf. unfold check_node_version, mbind, M_bind. fold node_command.
  rewrite run_command_eq. cbv zeta. unfold completion_of in Hf.
  destruct (subprocess_run env _ _ None _) as [rc out err| |cls msg|];
    try discriminate Hf; step_logs; cbn [Z.eqb]; step_logs; run_state; eval_levels;
    split; try reflexivity; lia.
Qed.

Lemma issues_grow_check_mcp_sdk env args s :
  issues_found (diag s) <= issues_found (diag (snd (check_mcp_sdk env args s))).
Proof.
  apply grown_issues. apply (inv_run (grown s)); [|apply grown_refl].
  apply (inv_check_mcp_sdk env args); grown_side.
Qed.

Lemma issues_grow_find env s :
  issues_found (diag s) <= issues_found (diag (snd (find_mcp_server_file env s))).
Proof.
  apply grown_issues. apply (inv_run (grown s)); [|apply grown_refl].
  apply (inv_find_mcp_server_file env); grown_side.
Qed.

(** X19. When [node --version], the first child of a run, times out or
    cannot be started, every report the run writes has severity CRITICAL:
    the runner, the version check and the closed gate each count an
    issue. *)
Theorem node_unreachable_is_critical
    (env : Env) (args : Args) (p : string) (d : Diagnostics) :
  failed_run (subprocess_run env 0 ["node"; "--version"] None (timeout args)) = true ->
  report_file (snd (script env args)) = Some (p, d) ->
  severity d = Some "CRITICAL" /\ 3 <= issues_found d.
Proof.
  intros Hf Hd.
  destruct (report_written env args p d Hd)
    as (wd & n & k & sp & s1 & ok & s2 & Hpre & Hgate & Hg1 & Hg2 & -> & _).
  unfold prerequisites in Hpre.
  apply bind_returns in Hpre as (wd0 & s0 & Hwd & H).
  apply bind_returns in H as ([] & sa & Hlog & H).
  apply bind_returns in H as (a0 & sb & Hnode & H).
  apply bind_returns in H as (a1 & sc & Hsdk & H).
  apply bind_returns in H as (a2 & sd & Hfind & H).
  injection H as _ <- _ _ <-.
  assert (Hsa : runs sa = [] /\ 0 <= issues_found (diag sa)).
  { rewrite log_state in Hlog. injection Hlog as <-. cbn [runs diag issues_found].
    eval_levels.
    destruct (truthy (target_dir args)).
    - injection Hwd as _ <-. split; [reflexivity | simpl; lia].
    - apply bind_returns in Hwd as ([] & s' & Hmk & Hwd).
      apply bind_returns in Hwd as ([] & s'' & Hl & Hwd).
      injection Hwd as _ <-. rewrite log_state in Hl. injection Hl as <-.
      unfold create_path, os_error, raise, modify_state in Hmk.
      destruct (fs_refuses env OpMkdir (temp_dir_name env)); [discriminate Hmk|].
      injection Hmk as <-. split; [reflexivity | simpl; lia]. }
  destruct Hsa as [Hruns Hnn].
  destruct (check_node_version_failed_child env args sa) as [Hv Hi].
  { unfold completion_of, node_command. rewrite Hruns. exact Hf. }
  rewrite Hnode in Hv, Hi. cbn [fst snd] in Hv, Hi. injection Hv as ->.
  pose proof (issues_grow_check_mcp_sdk env args sb) as H1. rewrite Hsdk in H1.
  pose proof (issues_grow_find env sc) as H2. rewrite Hfind in H2. cbn [snd] in *.
  unfold gated_probe in Hgate. cbn [andb] in Hgate.
  apply bind_returns in Hgate as ([] & sx & Hl & Hgate).
  injection Hgate as _ <-.
  assert (Hsx : sx = snd (log env "ERROR"
                            "Cannot test MCP server without prerequisites" None sd))
    by (rewrite Hl; reflexivity).
  subst sx. clear Hl.
  assert (Hiss : issues_found
                   (diag (at_dump env (report args)
                            (snd (log env "ERROR"
                                    "Cannot test MCP server without prerequisites"
                                    None sd))))
                 = issues_found (diag sd) + 1).
  { unfold at_dump. rewrite log_state. destruct (truthy (report args)); reflexivity. }
  assert (Hsev : severity
                   (diag (at_dump env (report args)
                            (snd (log env "ERROR"
                                    "Cannot test MCP server without prerequisites"
                                    None sd))))
                 = Some (severity_of (issues_found (diag sd) + 1))).
  { unfold at_dump. rewrite log_state. destruct (truthy (report args)); reflexivity. }
  rewrite Hiss, Hsev. split; [|lia].
  unfold severity_of.
  destruct (Z.eqb_spec (issues_found (diag sd) + 1) 0); [lia|].
  destruct (Z.ltb_spec (issues_found (diag sd) + 1) 3); [lia | reflexivity].
Qed.

Lemma node_unreachable_is_critical_witness :
  exists p d,
    report_file (snd (script World.no_node World.default_args)) = Some (p, d)
    /\ severity d = Some "CRITICAL".
Proof.
  eexists. eexists. split.
  - vm_compute. reflexivity.
  - apply (node_unreachable_is_critical World.no_node World.default_args
             "mcp-diagnostic-report-20240101_000000.json").
    + reflexivity.
    + vm_compute. reflexivity.
Defined.

(** *** The files a probe leaves *)

Set Warnings "-clear-no-such-hyp".



(** *** An interrupted probe *)

(** X15. When the user interrupts the wait for the client, the
    KeyboardInterrupt leaves the probe at once: the delete of the client file
    is not reached, so the client file and the marker file both stay, and
    nothing is logged after the entry with the command line. *)
Theorem interrupted_probe_leaves_client
    (env : Env) (args : Args) (sp wd : string) (s : State) :
  sp <> "" ->
  setup_allowed env wd s = true ->
  client_completion env args sp wd s = Interrupted ->
  let r := test_mcp_server_connection env args (Some sp) wd s in
  fst r = Exc KeyboardInterrupt
  /\ temp_client_name env ∈ files (snd r)
  /\ marker_path wd ∈ files (snd r)
  /\ (exists l,
        appended s (snd r)
        = l ++ [("INFO",
                 "Running command: " +:+ Py.join " " (probe_command env sp wd), None)])
  /\ issues_found (diag (snd r)) = issues_found (diag s).
Proof.
  intros Hsp Hok Hc. cbv zeta.
  destruct (probe_interrupted env args sp wd s Hsp Hok Hc) as [Hk Hin].
  split; [exact Hk|]. split; [exact Hin|].
  rewrite (probe_eq _ _ _ _ _ Hsp Hok), run_command_eq. cbv zeta.
  unfold client_completion, completion_of in Hc. rewrite Hc.
  rewrite log_state. run_state. eval_levels.
  split; [rewrite files_probe_ready; set_solver|].
  split; [|apply issues_probe_ready].
  unfold probe_ready.
  destruct (bool_decide (wd ∈ files s)); rewrite !log_state; run_state; eval_levels.
  - eexists [_].
    erewrite appended_app; [|cbn [diag checks]; rewrite <- ?app_assoc; reflexivity].
    reflexivity.
  - eexists [_; _].
    erewrite appended_app; [|cbn [diag checks]; rewrite <- ?app_assoc; reflexivity].
    reflexivity.
Qed.

Lemma interrupted_probe_leaves_client_witness :
  fst (test_mcp_server_connection Cases.interrupted_probe World.default_args
         (Some World.server_abs) World.work (initial_state Cases.interrupted_probe))
  = Exc KeyboardInterrupt.
Proof.
  refine (proj1 (interrupted_probe_leaves_client Cases.interrupted_probe
                   World.default_args World.server_abs World.work
                   (initial_state Cases.interrupted_probe) _ _ _)).
  - discriminate.
  - vm_compute. reflexivity.
  - reflexivity.
Defined.

Lemma error_analysis_partitions_issues_witness :
  In "not found"
     (map fst (error_types_of
                 [{| level := "ERROR"; timestamp := ""; data := None;
                     message := "Could not find MCP server file" |};
                  {| level := "WARNING"; timestamp := ""; data := None;
                     message := "@modelcontextprotocol/sdk not found or has invalid version" |}]))
  /\ In "not found" analysis_keys.
Proof.
  assert (H : In "not found"
                (map fst (error_types_of
                   [{| level := "ERROR"; timestamp := ""; data := None;
                       message := "Could not find MCP server file" |};
                    {| level := "WARNING"; timestamp := ""; data := None;
                       message := "@modelcontextprotocol/sdk not found or has invalid version" |}])))
    by (vm_compute; right; left; reflexivity).
  split; [exact H|].
  exact (proj2 (proj2 (proj2 (error_analysis_partitions_issues _))) _ H).
Defined.
